(** * Metadata resolution and batch renaming of mobile packages

    A shallow embedding of the Python scripts [final_renamer_fixed.py],
    [comprehensive_analysis.py], [p_fixed.py] and [p_optimized.py]:
    the string primitives they call, the filename sanitizer, the name
    registry, the sequential renaming phase, the confidence arbiter, the
    property-bundle readers and the icon selector.

    Python [str] values are modelled by [string]; a character is a code
    point below 256.  Python [int] values that only count are [nat], the
    others are [Z].  A [dict] with string keys whose order is irrelevant is
    a [gmap string _], one whose insertion order matters is an association
    list, a [set] of names is a [gset string]. *)

From Stdlib Require Import ZArith Lia Bool Ascii String List DecimalString DecimalNat.
From stdpp Require Import base list gmap strings sets.

Local Open Scope list_scope.
Local Open Scope stdpp_scope.

#[local] Set Warnings "-clear-no-such-hyp".

(** ** Python string primitives *)
Module Py.

(** [str.isspace] on one character (code points 9-13, 28-32, 0x85, 0xA0). *)
Definition isspace (c : ascii) : bool :=
  let n := nat_of_ascii c in
  ((9 <=? n) && (n <=? 13)) || ((28 <=? n) && (n <=? 32))
  || (n =? 133) || (n =? 160).

(** Truthiness of a [str]: non-empty. *)
Definition truthy (s : string) : bool :=
  match s with EmptyString => false | String _ _ => true end.

(** [a or b] on strings. *)
Definition or_else (a b : string) : string := if truthy a then a else b.

(** [s.replace(old, new)] for one-character [old] and [new]. *)
Fixpoint replace (old new : ascii) (s : string) : string :=
  match s with
  | EmptyString => EmptyString
  | String a s' =>
      String (if Ascii.eqb a old then new else a) (replace old new s')
  end.

(** [s.split(sep)] for a one-character separator: never the empty list. *)
Fixpoint split (sep : ascii) (s : string) : list string :=
  match s with
  | EmptyString => [EmptyString]
  | String a s' =>
      if Ascii.eqb a sep then EmptyString :: split sep s'
      else match split sep s' with
           | [] => [String a EmptyString]
           | w :: ws => String a w :: ws
           end
  end.

(** [s.split(sep, 1)]. *)
Fixpoint split1 (sep : ascii) (s : string) : list string :=
  match s with
  | EmptyString => [EmptyString]
  | String a s' =>
      if Ascii.eqb a sep then [EmptyString; s']
      else match split1 sep s' with
           | [] => [String a EmptyString]
           | w :: ws => String a w :: ws
           end
  end.

(** [sep.join(parts)]. *)
Definition join (sep : string) (parts : list string) : string :=
  String.concat sep parts.

(** [filter(None, parts)]: the non-empty strings, in order. *)
Definition filter_none (parts : list string) : list string :=
  List.filter truthy parts.

(** [s.lstrip(chars)], [s.rstrip(chars)], [s.strip(chars)] where the set
    of characters is given by its membership test. *)
Fixpoint lstrip_by (p : ascii -> bool) (s : string) : string :=
  match s with
  | EmptyString => EmptyString
  | String a s' => if p a then lstrip_by p s' else s
  end.

Fixpoint rstrip_by (p : ascii -> bool) (s : string) : string :=
  match s with
  | EmptyString => EmptyString
  | String a s' =>
      match rstrip_by p s' with
      | EmptyString => if p a then EmptyString else String a EmptyString
      | r => String a r
      end
  end.

Definition strip_by (p : ascii -> bool) (s : string) : string :=
  lstrip_by p (rstrip_by p s).

(** [s.strip()]. *)
Definition strip (s : string) : string := strip_by isspace s.

(** [s.strip("'")]. *)
Definition strip_quote (s : string) : string :=
  strip_by (Ascii.eqb "'"%char) s.

(** [s.startswith(p)]. *)
Definition startswith (s p : string) : bool := String.prefix p s.

(** [s.endswith(suffix)]. *)
Fixpoint endswith (s suffix : string) : bool :=
  if String.eqb s suffix then true
  else match s with
       | EmptyString => false
       | String _ s' => endswith s' suffix
       end.

(** [sub in s]. *)
Fixpoint contains (sub s : string) : bool :=
  if String.prefix sub s then true
  else match s with
       | EmptyString => false
       | String _ s' => contains sub s'
       end.

(** [s.split()]: the maximal runs of non-whitespace characters. *)
Fixpoint split_ws_go (cur : option string) (s : string) : list string :=
  match s with
  | EmptyString => option_list (String.rev <$> cur)
  | String a s' =>
      if isspace a then option_list (String.rev <$> cur) ++ split_ws_go None s'
      else split_ws_go (Some (String a (default EmptyString cur))) s'
  end.

Definition split_ws (s : string) : list string := split_ws_go None s.

(** Line boundaries of [str.splitlines] below code point 256. *)
Definition is_linebreak (c : ascii) : bool :=
  let n := nat_of_ascii c in
  ((10 <=? n) && (n <=? 13)) || ((28 <=? n) && (n <=? 30)) || (n =? 133).

(** [s.splitlines()]; [after_cr] records that the previous character was a
    carriage return, so that a following line feed belongs to the same
    boundary. *)
Fixpoint splitlines_go (after_cr : bool) (s : string) : list string :=
  match s with
  | EmptyString => []
  | String a s' =>
      if after_cr && Ascii.eqb a "010"%char then splitlines_go false s'
      else if is_linebreak a
           then EmptyString :: splitlines_go (Ascii.eqb a "013"%char) s'
           else match splitlines_go false s' with
                | [] => [String a EmptyString]
                | l :: ls => String a l :: ls
                end
  end.

Definition splitlines (s : string) : list string := splitlines_go false s.

(** [str.lower] on one character: A-Z, and the Latin-1 capitals
    0xC0-0xDE other than the multiplication sign 0xD7. *)
Definition lower_char (c : ascii) : ascii :=
  let n := nat_of_ascii c in
  if ((65 <=? n) && (n <=? 90))
     || ((192 <=? n) && (n <=? 222) && negb (n =? 215))
  then ascii_of_nat (n + 32) else c.

Fixpoint lower (s : string) : string :=
  match s with
  | EmptyString => EmptyString
  | String a s' => String (lower_char a) (lower s')
  end.

(** [str(n)] for a non-negative [int]. *)
Definition str_of_nat (n : nat) : string :=
  NilEmpty.string_of_uint (Nat.to_uint n).

(** Decimal digits, and the value [int(s)] has for a string of decimal
    digits when it returns one.  CPython 3.11 and later refuse strings of
    more than 4300 digits: that limit is modelled apart, in [IconParse]. *)
Definition isdigit (c : ascii) : bool :=
  let n := nat_of_ascii c in (48 <=? n) && (n <=? 57).

Definition int_of_digits (s : string) : Z :=
  fold_left (fun acc c => 10 * acc + Z.of_nat (nat_of_ascii c - 48))%Z
            (list_ascii_of_string s) 0%Z.

(** [posixpath.splitext(p)[0]]: the extension starts at the last dot of
    the last path component, unless only dots precede it there. *)
Fixpoint rfind_char (c : ascii) (s : string) (i : nat) (found : option nat)
  : option nat :=
  match s with
  | EmptyString => found
  | String a s' =>
      rfind_char c s' (S i) (if Ascii.eqb a c then Some i else found)
  end.

Fixpoint all_dots (s : string) (from upto : nat) (i : nat) : bool :=
  match s with
  | EmptyString => true
  | String a s' =>
      (if (from <=? i) && (i <? upto) then Ascii.eqb a "."%char else true)
      && all_dots s' from upto (S i)
  end.

Definition splitext_root (p : string) : string :=
  let sep_index := rfind_char "/"%char p 0 None in
  match rfind_char "."%char p 0 None with
  | None => p
  | Some dot_index =>
      let filename_index :=
        match sep_index with None => 0 | Some i => S i end in
      if (filename_index <=? dot_index)
         && negb (all_dots p filename_index dot_index 0)
      then String.substring 0 dot_index p
      else p
  end.

(** [str.title] restricted to ASCII letters: a letter that follows a
    cased character is lowered, any other letter is capitalised.  It is the
    instance used to run the pipeline on examples; the pipeline itself
    takes [str.title] as a parameter. *)
Definition is_upper (c : ascii) : bool :=
  let n := nat_of_ascii c in (65 <=? n) && (n <=? 90).
Definition is_lower (c : ascii) : bool :=
  let n := nat_of_ascii c in (97 <=? n) && (n <=? 122).

Fixpoint title_go (previous_is_cased : bool) (s : string) : string :=
  match s with
  | EmptyString => EmptyString
  | String a s' =>
      let n := nat_of_ascii a in
      let a' :=
        if previous_is_cased
        then (if is_upper a then ascii_of_nat (n + 32) else a)
        else (if is_lower a then ascii_of_nat (n - 32) else a) in
      String a' (title_go (is_upper a || is_lower a) s')
  end.

Definition title_ascii (s : string) : string := title_go false s.

End Py.

(** ** Metadata extraction of [final_renamer_fixed.py] *)
Module Extract.

(** The dictionary returned by the two extractors. *)
Record Metadata := mkMetadata {
  name : string;
  version : string;
  package : string;
  confidence : Z
}.

(** A loop whose body may raise: [None] is the raised exception. *)
Fixpoint fold_raise {A B : Type} (body : A -> B -> option A) (acc : A)
    (items : list B) : option A :=
  match items with
  | [] => Some acc
  | x :: rest =>
      match body acc x with
      | Some acc' => fold_raise body acc' rest
      | None => None
      end
  end.

(** [for part in line.split()] of a [package:] line; the state is
    [(package, version)].  [part.split("=")[1]] raises when there is no
    second element. *)
Definition scan_part (st : string * string) (part : string)
  : option (string * string) :=
  let '(package, version) := st in
  if Py.startswith part "name=" then
    match Py.split "="%char part !! 1 with
    | Some v => Some (Py.strip_quote v, version)
    | None => None
    end
  else if Py.startswith part "versionName=" then
    match Py.split "="%char part !! 1 with
    | Some v => Some (package, Py.strip_quote v)
    | None => None
    end
  else Some st.

(** [for line in result.splitlines()]; the state is
    [(label, package, version)]. *)
Definition scan_line (st : string * string * string) (line : string)
  : option (string * string * string) :=
  let '(label, package, version) := st in
  if Py.startswith line "package:" then
    match fold_raise scan_part (package, version) (Py.split_ws line) with
    | Some (package', version') => Some (label, package', version')
    | None => None
    end
  else if Py.startswith line "application-label:" then
    match Py.split1 ":"%char line !! 1 with
    | Some v => Some (Py.strip_quote v, package, version)
    | None => None
    end
  else Some st.

Definition scan_lines (lines : list string)
  : option (string * string * string) :=
  fold_raise scan_line (EmptyString, EmptyString, EmptyString) lines.

Definition metadata_of_badging (st : string * string * string) : Metadata :=
  let '(label, package, version) := st in
  mkMetadata label version package
             (if Py.truthy label && Py.truthy package then 3 else 1).

(** [extract_apk_metadata(file_path)]: [badging] is the text printed by
    the badging tool, [None] when running it raises; any exception makes
    the function return [None]. *)
Definition extract_apk_metadata (badging : option string) : option Metadata :=
  match badging with
  | None => None
  | Some result =>
      match scan_lines (Py.splitlines result) with
      | Some st => Some (metadata_of_badging st)
      | None => None
      end
  end.

(** An opened archive: its [namelist()], and for each entry name the
    property list decoded from it ([None] when extraction or decoding
    raises). *)
Record Archive := mkArchive {
  namelist : list string;
  load_plist : string -> option (gmap string string)
}.

(** [info_plist.get(key)] used as an operand of [or]: a missing key and an
    empty value are both falsy. *)
Definition get (info_plist : gmap string string) (key : string) : string :=
  default EmptyString (info_plist !! key).

Definition excluded_markers : list string :=
  [".bundle/"; ".framework/"; ".storyboardc/"; "GoogleService-Info.plist"].

Definition is_main_candidate (info_file : string) : bool :=
  Py.contains "Payload" info_file && Py.endswith info_file "Info.plist"
  && Py.contains ".app/" info_file
  && negb (existsb (fun x => Py.contains x info_file) excluded_markers).

Definition is_app_candidate (info_file : string) : bool :=
  Py.contains ".app/" info_file && Py.endswith info_file "Info.plist".

(** The three-step choice of [main_info_file]; [None] when [info_files]
    is empty. *)
Definition find_main_info_file (info_files : list string) : option string :=
  match List.find is_main_candidate info_files with
  | Some f => Some f
  | None =>
      match List.find is_app_candidate info_files with
      | Some f => Some f
      | None => head info_files
      end
  end.

(** The reading of the decoded bundle in [extract_ipa_metadata]. *)
Definition read_info_plist (info_plist : gmap string string) : Metadata :=
  let name :=
    Py.or_else (get info_plist "CFBundleDisplayName")
      (Py.or_else (get info_plist "CFBundleName")
         (Py.or_else (get info_plist "CFBundleExecutable") EmptyString)) in
  let version :=
    Py.or_else (get info_plist "CFBundleShortVersionString")
      (Py.or_else (get info_plist "CFBundleVersion") EmptyString) in
  let package := get info_plist "CFBundleIdentifier" in
  let confidence : Z :=
    (if Py.truthy (get info_plist "CFBundleDisplayName") then 4
     else if Py.truthy (get info_plist "CFBundleName") then 3 else 2)%Z in
  mkMetadata name version package confidence.

(** [extract_ipa_metadata(file_path)]: [archive] is [None] when opening
    the file raises. *)
Definition extract_ipa_metadata (archive : option Archive) : option Metadata :=
  match archive with
  | None => None
  | Some zip_ref =>
      let info_files :=
        List.filter (fun f => Py.endswith f "Info.plist") (namelist zip_ref) in
      match find_main_info_file info_files with
      | None => None
      | Some main_info_file =>
          match load_plist zip_ref main_info_file with
          | None => None
          | Some info_plist => Some (read_info_plist info_plist)
          end
      end
  end.

End Extract.

(** ** The renamer: sanitizer and name registry *)
Module Renamer.

(** [invalid_chars]: less-than, greater-than, colon, double quote (code
    34), slash, backslash, vertical bar, question mark, asterisk. *)
Definition invalid_chars : list ascii :=
  ["<"; ">"; ":"; "034"; "/"; "\"; "|"; "?"; "*"]%char.

(** [sanitize_filename(name)] *)
Definition sanitize_filename (name : string) : string :=
  let name := fold_left (fun n char => Py.replace char "_"%char n)
                        invalid_chars name in
  let name := Py.join "_" (Py.filter_none (Py.split "_"%char name)) in
  Py.strip name.

(** The name built by [f"{base_name} ({counter}){extension}"]. *)
Definition numbered (base_name extension : string) (counter : nat) : string :=
  base_name +:+ " (" +:+ Py.str_of_nat counter +:+ ")" +:+ extension.

(** The [while new_filename in existing_files] loop of
    [get_unique_filename], run for at most [fuel] tests of the condition. *)
Fixpoint unique_loop (fuel : nat) (base_name extension : string)
    (existing_files : gset string) (counter : nat) (new_filename : string)
  : option string :=
  match fuel with
  | O => None
  | S fuel' =>
      if decide (new_filename ∈ existing_files)
      then unique_loop fuel' base_name extension existing_files
             (S counter) (numbered base_name extension counter)
      else Some new_filename
  end.

(** [get_unique_filename(base_name, extension, existing_files)].  The loop
    is given one test more than the registry has names, which always
    suffices (lemma [unique_loop_enough]), so the fallback is never used. *)
Definition get_unique_filename (base_name extension : string)
    (existing_files : gset string) : string :=
  let original_name := base_name +:+ extension in
  default original_name
    (unique_loop (S (size existing_files)) base_name extension
       existing_files 1 original_name).

(** [get_unique_filename(base_name, extension)] of [p_optimized.py] and
    [p_fixed.py]: the same loop over the global set [renamed_files], to
    which the name found is added before it is returned. *)
Definition get_unique_filename_global (renamed_files : gset string)
    (base_name extension : string) : string * gset string :=
  let original_name := base_name +:+ extension in
  let current_name :=
    default original_name
      (unique_loop (S (size renamed_files)) base_name extension
         renamed_files 1 original_name) in
  (current_name, {[current_name]} ∪ renamed_files).

(** *** Per-file results *)

Inductive Status := valid | invalid.

#[global] Instance Status_eq_dec : EqDecision Status.
Proof. solve_decision. Defined.

(** The dictionary returned by [process_file]; [size_mb] is carried in
    hundredths of a mebibyte. *)
Record Result := mkResult {
  file : string;
  name : string;
  version : string;
  package : string;
  size_mb : Z;
  confidence : Z;
  status : Status
}.

Definition set_file (r : Result) (f : string) : Result :=
  mkResult f (name r) (version r) (package r) (size_mb r) (confidence r)
           (status r).

Definition set_status (r : Result) (s : Status) : Result :=
  mkResult (file r) (name r) (version r) (package r) (size_mb r)
           (confidence r) s.

(** *** The sequential phase of [main] *)

(** The part of the process state that the renaming loop reads and
    writes: the registry [existing_files], the directory contents, and the
    number of [os.rename] calls made so far.  Whether the n-th call is
    refused by the operating system (permissions, locks) is given by an
    oracle; a call whose source is missing fails as well.  The directory
    is the set of entry names of the working directory, told apart
    exactly, and a destination is read as an entry name: this is what
    [os.rename] does for a destination without path separator and without
    NUL character ([Batch.plain_name]).  Statements about [directory] are
    made for such destinations only. *)
Record State := mkState {
  existing_files : gset string;
  directory : gset string;
  calls : nat
}.

Definition max_retries : nat := 5.

Section Phase2.

(** [str.title], and the outcome of the n-th [os.rename] call. *)
Variable title : string -> string.
Variable rename_allowed : nat -> bool.

(** [os.rename(src, dst)] for an entry name [dst]: [None] stands for
    [OSError]. *)
Definition os_rename (st : State) (src dst : string) : option State :=
  if rename_allowed (calls st) && bool_decide (src ∈ directory st)
  then Some (mkState (existing_files st)
                     ({[dst]} ∪ (directory st ∖ {[src]}))
                     (S (calls st)))
  else None.

Definition failed_call (st : State) : State :=
  mkState (existing_files st) (directory st) (S (calls st)).

(** The fallback chain for the display name. *)
Definition choose_app_name (result : Result) : string :=
  let app_name := name result in
  let app_name :=
    if negb (Py.truthy app_name) || negb (Py.truthy (Py.strip app_name))
    then
      if Py.truthy (package result) && Py.truthy (Py.strip (package result))
      then
        let parts := Py.split "."%char (package result) in
        if 1 <? length parts
        then title (Py.replace "_"%char " "%char (List.last parts EmptyString))
        else title (Py.replace "_"%char " "%char (package result))
      else Py.splitext_root (file result)
    else app_name in
  let app_name := Py.strip app_name in
  if negb (Py.truthy app_name)
  then "App_" +:+ Py.splitext_root (file result)
  else app_name.

(** [safe_name] with its version suffix, and the extension. *)
Definition versioned_name (result : Result) : string :=
  let safe_name := sanitize_filename (choose_app_name result) in
  if Py.truthy (version result) && Py.truthy (Py.strip (version result))
  then safe_name +:+ " v" +:+ version result
  else safe_name +:+ " v1.0".

Definition extension_of (result : Result) : string :=
  if Py.endswith (file result) ".apk" then ".apk" else ".ipa".

(** [for attempt in range(max_retries)]: rename, and on [OSError] retry or,
    on the last attempt, mark the result invalid. *)
Fixpoint retry_loop (attempts : list nat) (st : State) (result : Result)
    (new_filename : string) : State * Result :=
  match attempts with
  | [] => (st, result)
  | attempt :: rest =>
      match os_rename st (file result) new_filename with
      | Some st' => (st', set_file result new_filename)
      | None =>
          if attempt <? max_retries - 1
          then retry_loop rest (failed_call st) result new_filename
          else retry_loop rest (failed_call st) (set_status result invalid)
                 new_filename
      end
  end.

Definition eligible (result : Result) : bool :=
  bool_decide (status result = valid) && (1 <=? confidence result)%Z.

(** One iteration of [for result in processing_results].  Besides the new
    state and the result appended to [rename_results], the value of
    [new_filename] is returned when the iteration computed one. *)
Definition rename_one (st : State) (result : Result)
  : State * Result * option string :=
  if eligible result then
    let safe_name := versioned_name result in
    let extension := extension_of result in
    let new_filename :=
      get_unique_filename safe_name extension (existing_files st) in
    let st := mkState ({[new_filename]} ∪ existing_files st)
                      (directory st) (calls st) in
    if bool_decide (file result ≠ new_filename)
    then let '(st', result') :=
           retry_loop (seq 0 max_retries) st result new_filename in
         (st', result', Some new_filename)
    else (st, result, Some new_filename)
  else (st, result, None).

(** The whole loop: the final state, [rename_results], and the sequence of
    values taken by [new_filename]. *)
Fixpoint rename_phase (st : State) (processing_results : list Result)
  : State * list Result * list string :=
  match processing_results with
  | [] => (st, [], [])
  | result :: rest =>
      let '(st1, result', target) := rename_one st result in
      let '(st2, rename_results, targets) := rename_phase st1 rest in
      (st2, result' :: rename_results, option_list target ++ targets)
  end.

(** The value [new_filename] takes for a result, given the registry. *)
Definition target_of (existing : gset string) (result : Result)
  : option string :=
  if eligible result
  then Some (get_unique_filename (versioned_name result)
               (extension_of result) existing)
  else None.

(** Two results that agree on every field but [file] and [status]. *)
Definition same_identity (r r' : Result) : Prop :=
  name r' = name r /\ version r' = version r /\ package r' = package r /\
  size_mb r' = size_mb r /\ confidence r' = confidence r.

(** The names assigned to a list of results processed in order, starting
    from a registry: each assigned name joins the registry. *)
Fixpoint assigned_names (existing : gset string) (results : list Result)
  : list string :=
  match results with
  | [] => []
  | result :: rest =>
      match target_of existing result with
      | Some t => t :: assigned_names ({[t]} ∪ existing) rest
      | None => assigned_names existing rest
      end
  end.

(** The rows written to the report. *)
Definition report_row (result : Result)
  : string * string * string * string * Z * Z :=
  (file result, name result, package result, version result,
   size_mb result, confidence result).

Definition report (rename_results : list Result) :=
  map report_row rename_results.

End Phase2.

(** *** The parallel phase and [main] *)

(** What the outside world answers for one path: the size (in hundredths
    of a mebibyte, [None] when [os.path.getsize] raises), the text printed
    by the badging tool, and the opened archive. *)
Record FileInfo := mkFileInfo {
  getsize : option Z;
  badging : option string;
  archive : option Extract.Archive
}.

(** [process_file(file_path)] *)
Definition process_file (world : string -> FileInfo) (file_path : string)
  : option Result :=
  match getsize (world file_path) with
  | None =>
      Some (mkResult file_path EmptyString EmptyString EmptyString 0 0 invalid)
  | Some file_size_mb =>
      let answer (metadata : option Extract.Metadata) :=
        match metadata with
        | None =>
            Some (mkResult file_path EmptyString EmptyString EmptyString
                           file_size_mb 0 invalid)
        | Some m =>
            Some (mkResult file_path (Extract.name m) (Extract.version m)
                           (Extract.package m) file_size_mb
                           (Extract.confidence m) valid)
        end in
      if Py.endswith file_path ".apk"
      then answer (Extract.extract_apk_metadata (badging (world file_path)))
      else if Py.endswith file_path ".ipa"
      then answer (Extract.extract_ipa_metadata (archive (world file_path)))
      else None
  end.

(** The files that [main] enumerates from a directory listing. *)
Definition is_package_file (f : string) : bool :=
  Py.endswith f ".apk" || Py.endswith f ".ipa".

Definition files_to_process (listing : list string) : list string :=
  List.filter is_package_file listing.

(** [processing_results]: the results are appended as the futures
    complete, so their order is the completion order [completed] of the
    submitted files, which the scheduler chooses. *)
Definition processing_results (world : string -> FileInfo)
    (completed : list string) : list Result :=
  omap (process_file world) completed.

(** [main]: the parallel phase, the seeding of the registry from the
    directory, and the sequential phase.  The directory is listed twice,
    before and after the parallel phase, which renames nothing: both
    listings are [listing]. *)
Definition main (title : string -> string) (rename_allowed : nat -> bool)
    (world : string -> FileInfo) (listing completed : list string)
  : State * list Result * list string :=
  let results := processing_results world completed in
  let existing : gset string := list_to_set (files_to_process listing) in
  rename_phase title rename_allowed
    (mkState existing (list_to_set listing) 0) results.

End Renamer.

(** ** The confidence arbiter of [comprehensive_analysis.py] *)
Module Arbiter.

(** The dictionary stored under one method name in [result['methods']]:
    the keys other than [confidence] may be absent.  Every dictionary the
    function stores has the key [confidence], so the test
    ['confidence' in data] of the loop always holds. *)
Record MethodData := mkMethodData {
  label : option string;
  app_name : option string;
  package : option string;
  version : option string;
  error : option string;
  confidence : Z
}.

(** [result['methods']]: a dictionary in insertion order. *)
Definition Methods : Type := list (string * MethodData).

(** [result['methods'][key]] *)
Fixpoint getitem (methods : Methods) (key : string) : option MethodData :=
  match methods with
  | [] => None
  | (k, data) :: rest =>
      if String.eqb k key then Some data else getitem rest key
  end.

(** The final fields of the analysis result. *)
Record Final := mkFinal {
  final_name : string;
  final_version : string;
  final_package : string;
  final_confidence : Z
}.

Definition initial : Final := mkFinal EmptyString EmptyString EmptyString 0.

(** One iteration of [for method, data in result['methods'].items()]; the
    state is [(best_method, best_confidence)]. *)
Definition consider (st : option string * Z) (item : string * MethodData)
  : option string * Z :=
  let '(best_method, best_confidence) := st in
  let '(method, data) := item in
  if (best_confidence <? confidence data)%Z
  then (Some method, confidence data)
  else (best_method, best_confidence).

Definition best_of (methods : Methods) : option string * Z :=
  fold_left consider methods (None, 0%Z).

(** [method_data.get('label', method_data.get('app_name', ''))] *)
Definition name_of (method_data : MethodData) : string :=
  match label method_data with
  | Some l => l
  | None => default EmptyString (app_name method_data)
  end.

(** "Determine best result": the final fields stay at their initial values
    unless [best_method] is a non-empty key. *)
Definition arbitrate (methods : Methods) : Final :=
  let '(best_method, best_confidence) := best_of methods in
  match best_method with
  | Some key =>
      if Py.truthy key then
        match getitem methods key with
        | Some method_data =>
            mkFinal (name_of method_data)
                    (default EmptyString (version method_data))
                    (default EmptyString (package method_data))
                    best_confidence
        | None => initial
        end
      else initial
  | None => initial
  end.

End Arbiter.

(** ** The readers of a decoded property bundle *)
Module Bundle.

Import Extract.

(** [analyze_ipa_comprehensive]: the [name_fields] dictionary and the
    choice of [best_name] and [confidence]. *)
Definition best_name_comprehensive (info_plist : gmap string string)
  : string * Z :=
  if Py.truthy (get info_plist "CFBundleDisplayName")
  then (get info_plist "CFBundleDisplayName", 4%Z)
  else if Py.truthy (get info_plist "CFBundleName")
  then (get info_plist "CFBundleName", 3%Z)
  else if Py.truthy (get info_plist "CFBundleExecutable")
  then (get info_plist "CFBundleExecutable", 2%Z)
  else if Py.truthy (get info_plist "CFBundleDisplayNameLocalized")
  then (get info_plist "CFBundleDisplayNameLocalized", 3%Z)
  else (EmptyString, 0%Z).

Definition read_comprehensive (info_plist : gmap string string) : Metadata :=
  let '(best_name, confidence) := best_name_comprehensive info_plist in
  mkMetadata best_name
    (Py.or_else (get info_plist "CFBundleShortVersionString")
                (get info_plist "CFBundleVersion"))
    (get info_plist "CFBundleIdentifier")
    confidence.

(** A priority list of fields with their confidences: the first
    non-empty field and its confidence, else the fallback. *)
Fixpoint first_non_empty (fields : list (string * Z)) (fallback : string * Z)
  : string * Z :=
  match fields with
  | [] => fallback
  | (value, confidence) :: rest =>
      if Py.truthy value then (value, confidence)
      else first_non_empty rest fallback
  end.

(** The priority order in the words of the specification: display name,
    localized display name, bundle name, executable name. *)
Definition specified_name (info_plist : gmap string string) : string * Z :=
  first_non_empty
    [(get info_plist "CFBundleDisplayName", 4%Z);
     (get info_plist "CFBundleDisplayNameLocalized", 3%Z);
     (get info_plist "CFBundleName", 3%Z);
     (get info_plist "CFBundleExecutable", 2%Z)]
    (EmptyString, 0%Z).

End Bundle.

(** ** The icon selector for Apple packages *)
Module Icon.

(** A [ZipInfo]. *)
Record ZipInfo := mkZipInfo {
  filename : string;
  file_size : Z
}.

(** The longest prefix of decimal digits, and what follows it. *)
Fixpoint take_digits (s : string) : string * string :=
  match s with
  | EmptyString => (EmptyString, EmptyString)
  | String a s' =>
      if Py.isdigit a
      then let '(d, r) := take_digits s' in (String a d, r)
      else (EmptyString, s)
  end.

(** A match of the pattern digits-x-digits at the start of [s]: its two
    groups. *)
Definition match_here (s : string) : option (string * string) :=
  let '(w, r) := take_digits s in
  if Py.truthy w then
    match r with
    | String a r' =>
        if Ascii.eqb a "x"%char then
          let '(h, _) := take_digits r' in
          if Py.truthy h then Some (w, h) else None
        else None
    | EmptyString => None
    end
  else None.

(** [re.search] of that pattern: the leftmost match. *)
Fixpoint re_search (s : string) : option (string * string) :=
  match match_here s with
  | Some groups => Some groups
  | None =>
      match s with
      | EmptyString => None
      | String _ s' => re_search s'
      end
  end.

(** Width and height read from the lowered file name. *)
Definition dimensions (icon_info : ZipInfo) : option (Z * Z) :=
  match re_search (Py.lower (filename icon_info)) with
  | Some (w, h) => Some (Py.int_of_digits w, Py.int_of_digits h)
  | None => None
  end.

Definition icon_patterns : list string :=
  ["appicon"; "icon"; "app_icon"; "applicationicon"].

(** The entries kept in [icon_files]. *)
Definition is_icon_file (file_info : ZipInfo) : bool :=
  Py.endswith (filename file_info) ".png"
  && existsb (fun pattern => Py.contains pattern (Py.lower (filename file_info)))
             icon_patterns.

Definition icon_files (infolist : list ZipInfo) : list ZipInfo :=
  List.filter is_icon_file infolist.

(** One iteration of [for icon_info in icon_files]; the state is
    [(best_icon, best_resolution)]. *)
Definition consider (st : option ZipInfo * Z) (icon_info : ZipInfo)
  : option ZipInfo * Z :=
  let '(best_icon, best_resolution) := st in
  match dimensions icon_info with
  | Some (width, height) =>
      let resolution := (width * height)%Z in
      if (width =? height)%Z && (best_resolution <? resolution)%Z
      then (Some icon_info, resolution)
      else (best_icon, best_resolution)
  | None =>
      if (best_resolution <? file_size icon_info)%Z
      then (Some icon_info, file_size icon_info)
      else (best_icon, best_resolution)
  end.

(** An asset whose parsed width and height are equal, one whose parsed
    width and height differ, and the quantity an asset competes with: its
    resolution when dimensions are parsed, else its byte size. *)
Definition is_square (icon_info : ZipInfo) : bool :=
  match dimensions icon_info with
  | Some (width, height) => (width =? height)%Z
  | None => false
  end.

Definition is_non_square (icon_info : ZipInfo) : bool :=
  match dimensions icon_info with
  | Some (width, height) => negb (width =? height)%Z
  | None => false
  end.

Definition score (icon_info : ZipInfo) : Z :=
  match dimensions icon_info with
  | Some (width, height) => (width * height)%Z
  | None => file_size icon_info
  end.

(** The icon that [extract_ipa_icon] extracts, if any. *)
Definition select (candidates : list ZipInfo) : option ZipInfo :=
  fst (fold_left consider candidates (None, 0%Z)).

Definition best_icon_of (infolist : list ZipInfo) : option ZipInfo :=
  select (icon_files infolist).

End Icon.

(** ** Shapes of strings used to state properties of the sanitizer *)
Module Shape.

(** Every character of [s] satisfies [p]. *)
Fixpoint all_chars (p : ascii -> bool) (s : string) : bool :=
  match s with
  | EmptyString => true
  | String a s' => p a && all_chars p s'
  end.

Definition is_underscore (a : ascii) : bool := Ascii.eqb a "_"%char.

Definition starts_with_underscore (s : string) : bool :=
  match s with
  | EmptyString => false
  | String a _ => is_underscore a
  end.

Fixpoint ends_with_underscore (s : string) : bool :=
  match s with
  | EmptyString => false
  | String a EmptyString => is_underscore a
  | String _ s' => ends_with_underscore s'
  end.

(** No two underscores in a row. *)
Fixpoint no_double_underscore (s : string) : bool :=
  match s with
  | EmptyString => true
  | String a s' =>
      negb (is_underscore a && starts_with_underscore s')
      && no_double_underscore s'
  end.

(** What the replacement loop of [sanitize_filename] does to one
    character. *)
Definition substitute (a : ascii) : ascii :=
  fold_left (fun x char => if Ascii.eqb x char then "_"%char else x)
            Renamer.invalid_chars a.

Fixpoint map_chars (f : ascii -> ascii) (s : string) : string :=
  match s with
  | EmptyString => EmptyString
  | String a s' => String (f a) (map_chars f s')
  end.

(** A character the replacement loop leaves alone. *)
Definition kept (a : ascii) : bool := Ascii.eqb (substitute a) a.

(** No doubled underscore and no underscore at either end. *)
Definition tidy (s : string) : bool :=
  no_double_underscore s && negb (starts_with_underscore s)
  && negb (ends_with_underscore s).

(** The length of the joined pieces, counting one separator per piece. *)
Definition weight (pieces : list string) : nat :=
  list_sum (map (fun x => S (String.length x)) pieces).

Definition underscore_free (s : string) : bool :=
  all_chars (fun a => negb (is_underscore a)) s.

End Shape.

(** ** The common shape of the two selection loops *)
Module Best.

Section Loop.

Context {A T : Type}.
Variables (tag : A -> T) (admissible : A -> bool) (score : A -> Z).

(** Keep the best tag and score seen so far; an admissible item replaces
    them only when its score is strictly greater. *)
Definition step (st : option T * Z) (x : A) : option T * Z :=
  if admissible x && (snd st <? score x)%Z then (Some (tag x), score x)
  else st.

End Loop.

End Best.

(** ** Sample inputs *)
Module Samples.

Import Renamer.

Definition newline : string := String "010"%char EmptyString.

(** The two lines of the Android scenario, and a badging dump that
    contains them. *)
Definition package_line : string :=
  "package: name='com.example.app' versionName='2.3'".

Definition label_line : string := "application-label:'Example'".

(** Lines among which only the two lines of the scenario carry the two
    prefixes. *)
Definition only_scenario_lines (lines : list string) : Prop :=
  (forall l, In l lines -> Py.startswith l "package:" = true ->
     l = package_line)
  /\ (forall l, In l lines -> Py.startswith l "application-label:" = true ->
        l = label_line).

Definition example_badging : string :=
  package_line
  +:+ newline +:+ "sdkVersion:'21'"
  +:+ newline +:+ label_line
  +:+ newline +:+ "application-label-en:'Example EN'"
  +:+ newline +:+ "launchable-activity: name='com.example.app.Main'"
  +:+ newline.

Definition example_world (file_path : string) : FileInfo :=
  mkFileInfo (Some 1234%Z) (Some example_badging) None.

(** An Apple package whose only bundle has an empty display name. *)
Definition widgets_plist : gmap string string :=
  <["CFBundleDisplayName" := EmptyString]>
    (<["CFBundleName" := "Widgets"]>
       (<["CFBundleIdentifier" := "com.example.widgets"]> ∅)).

Definition widgets_archive : Extract.Archive :=
  Extract.mkArchive
    ["Payload/"; "Payload/Widgets.app/Info.plist";
     "Payload/Widgets.app/AppIcon60x60@2x.png"]
    (fun _ => Some widgets_plist).

Definition widgets_world (file_path : string) : FileInfo :=
  mkFileInfo (Some 250%Z) None (Some widgets_archive).

(** Two Apple packages that both resolve to the name Game. *)
Definition game_plist (bundle_id : string) : gmap string string :=
  <["CFBundleName" := "Game"]> (<["CFBundleIdentifier" := bundle_id]> ∅).

Definition game_world (file_path : string) : FileInfo :=
  mkFileInfo (Some 100%Z) None
    (Some (Extract.mkArchive ["Payload/Game.app/Info.plist"]
             (fun _ => Some (game_plist
                               (if String.eqb file_path "a.ipa"
                                then "com.a.game" else "com.b.game"))))).

(** A bundle with a localized display name and a bundle name. *)
Definition localized_plist : gmap string string :=
  <["CFBundleDisplayNameLocalized" := "Spiel"]>
    (<["CFBundleName" := "Game"]>
       (<["CFBundleShortVersionString" := "1.4"]>
          (<["CFBundleIdentifier" := "com.example.game"]> ∅))).

(** Method dictionaries as [analyze_apk_comprehensive] builds them: one
    where the badging tool gave everything, one where it gave no label. *)
Definition methods_labelled : Arbiter.Methods :=
  [("aapt", Arbiter.mkMethodData (Some "Example") None
              (Some "com.example.app") (Some "2.3") None 3);
   ("aapt_resources", Arbiter.mkMethodData None (Some "Example App") None
                        None None 2);
   ("manifest", Arbiter.mkMethodData None None None None
                  (Some "timed out") 0)].

Definition methods_unlabelled : Arbiter.Methods :=
  [("aapt", Arbiter.mkMethodData (Some EmptyString) None
              (Some "com.example.app") (Some "1.0") None 1);
   ("aapt_resources", Arbiter.mkMethodData None (Some EmptyString) None
                        None None 0);
   ("manifest", Arbiter.mkMethodData None (Some EmptyString) None None
                  None 0)].

(** Icon entries of an Apple package. *)
Definition icons : list Icon.ZipInfo :=
  [Icon.mkZipInfo "Payload/Game.app/Icon100x50.png" 99999;
   Icon.mkZipInfo "Payload/Game.app/AppIcon60x60@2x.png" 1000;
   Icon.mkZipInfo "Payload/Game.app/AppIcon76x76@2x~ipad.png" 2000;
   Icon.mkZipInfo "Payload/Game.app/AppIcon29x29.png" 500].

(** A square icon of 60 by 60 and an icon without dimensions in its name. *)
Definition icons_with_plain : list Icon.ZipInfo :=
  [Icon.mkZipInfo "Payload/Game.app/AppIcon60x60.png" 1000;
   Icon.mkZipInfo "Payload/Game.app/icon.png" 5000].

Definition always (n : nat) : bool := true.
Definition never (n : nat) : bool := false.

End Samples.

(** ** The check for names that are already renamed *)
Module Rerun.

(** [is_already_renamed(filename)] of [p_fixed.py] and [p_optimized.py]. *)
Definition is_already_renamed (filename : string) : bool :=
  Py.contains " v" filename
  && (Py.endswith filename ".apk" || Py.endswith filename ".ipa").

End Rerun.

(** ** The icon selector for Android packages *)
Module ApkIcon.

(** [icon_files]: the words of the resource dump that contain both
    [drawable] and [.png], taken from the lines that contain both. *)
Definition mentions_drawable_png (s : string) : bool :=
  Py.contains "drawable" s && Py.contains ".png" s.

Definition icon_files (result_resources : string) : list string :=
  flat_map (fun line =>
              if mentions_drawable_png line
              then List.filter mentions_drawable_png (Py.split_ws line)
              else [])
           (Py.splitlines result_resources).

Definition density_patterns : list string :=
  ["xxxhdpi"; "xxhdpi"; "xhdpi"; "hdpi"].

(** The dictionary of density values; [getitem] is subscription, [None]
    standing for [KeyError]. *)
Definition size_values : list (string * Z) :=
  [("hdpi", 1%Z); ("xhdpi", 2%Z); ("xxhdpi", 3%Z); ("xxxhdpi", 4%Z)].

Fixpoint getitem (d : list (string * Z)) (key : string) : option Z :=
  match d with
  | [] => None
  | (k, v) :: rest => if String.eqb k key then Some v else getitem rest key
  end.

(** The inner loop with its [break]: the first pattern found in the
    lowered name. *)
Definition size_match (icon_file : string) : option string :=
  List.find (fun pattern => Py.contains pattern (Py.lower icon_file))
            density_patterns.

(** One iteration of [for icon_file in icon_files]; the state is
    [(best_icon, best_size)], and [None] is a raised exception. *)
Definition consider (st : option string * Z) (icon_file : string)
  : option (option string * Z) :=
  let '(best_icon, best_size) := st in
  if existsb (fun pattern => Py.contains pattern (Py.lower icon_file))
             density_patterns
  then
    match size_match icon_file with
    | Some pattern =>
        if Py.truthy pattern then
          match getitem size_values pattern with
          | Some size_value =>
              if (best_size <? size_value)%Z
              then Some (Some icon_file, size_value)
              else Some st
          | None => None
          end
        else Some st
    | None => Some st
    end
  else Some st.

(** The loop of [extract_apk_icon]: [None] when it raises, else the icon
    handed to the extraction command, if any ([if best_icon]). *)
Definition select (icon_files : list string) : option (option string) :=
  match Extract.fold_raise consider (None, 0%Z) icon_files with
  | None => None
  | Some (Some best_icon, _) =>
      Some (if Py.truthy best_icon then Some best_icon else None)
  | Some (None, _) => Some None
  end.

(** The density value of a name: that of the first pattern it contains. *)
Definition density (icon_file : string) : option Z :=
  match size_match icon_file with
  | Some pattern => getitem size_values pattern
  | None => None
  end.

(** The words that compete, and the value they compete with. *)
Definition admissible (icon_file : string) : bool :=
  match density icon_file with Some _ => true | None => false end.

Definition score (icon_file : string) : Z := default 0%Z (density icon_file).

End ApkIcon.

(** ** The other bundles read by the comprehensive analysis *)
Module AltPlist.

Import Extract.

(** One iteration of "Method 3" of [analyze_ipa_comprehensive]; the state
    is [(result['final_name'], result['confidence'])].  The entry added to
    [result['methods']] is left out: no final field reads it. *)
Definition consider (zip_ref : Archive) (main_info_file : string)
    (st : string * Z) (info_file : string) : string * Z :=
  let '(final_name, confidence) := st in
  if negb (String.eqb info_file main_info_file) then
    match load_plist zip_ref info_file with
    | None => st
    | Some alt_plist =>
        let alt_name :=
          Py.or_else (get alt_plist "CFBundleDisplayName")
            (Py.or_else (get alt_plist "CFBundleName")
               (Py.or_else (get alt_plist "CFBundleExecutable")
                           EmptyString)) in
        if Py.truthy alt_name
           && (String.length final_name <? String.length alt_name)
        then if (confidence <? 2)%Z then (alt_name, 2%Z) else st
        else st
    end
  else st.

(** [for info_file in info_files[:5]] *)
Definition check (zip_ref : Archive) (main_info_file : string)
    (info_files : list string) (st : string * Z) : string * Z :=
  fold_left (consider zip_ref main_info_file) (firstn 5 info_files) st.

(** The name read from another bundle, if the bundle is read at all. *)
Definition alt_name_of (zip_ref : Archive) (main_info_file info_file : string)
  : option string :=
  if String.eqb info_file main_info_file then None
  else match load_plist zip_ref info_file with
       | None => None
       | Some alt_plist =>
           Some (Py.or_else (get alt_plist "CFBundleDisplayName")
                   (Py.or_else (get alt_plist "CFBundleName")
                      (Py.or_else (get alt_plist "CFBundleExecutable")
                                  EmptyString)))
       end.

End AltPlist.

(** ** Conditions on a batch *)
Module Batch.

Import Renamer.

(** A result that asks for a given name. *)
Definition same_request (title : string -> string)
    (base_name extension : string) (r : Result) : Prop :=
  eligible r = true /\ versioned_name title r = base_name
  /\ extension_of r = extension.

(** A registry that holds every package file of the directory. *)
Definition registered (st : State) : Prop :=
  forall f, f ∈ directory st -> is_package_file f = true ->
            f ∈ existing_files st.

(** An entry name of the working directory on every platform: no NUL
    character and none of the reserved characters, which include both
    path separators. *)
Definition plain_name (t : string) : bool :=
  Shape.all_chars
    (fun a => negb (existsb (Ascii.eqb a) ("000"%char :: invalid_chars))) t.

(** The name given to the k-th of several results that ask for the same
    name: unnumbered first, then numbered from 1. *)
Definition kth_name (base_name extension : string) (k : nat) : string :=
  match k with
  | O => base_name +:+ extension
  | S _ => numbered base_name extension k
  end.

End Batch.

(** ** Successive calls of the allocator of [p_fixed.py] *)
Module Calls.

Import Renamer.

(** [get_unique_filename] of [p_fixed.py] and [p_optimized.py] called once
    for each request [(base_name, extension)], in one process: the names
    returned, and the global set afterwards. *)
Fixpoint successive (renamed_files : gset string)
    (requests : list (string * string)) : list string * gset string :=
  match requests with
  | [] => ([], renamed_files)
  | (base_name, extension) :: rest =>
      let '(current_name, renamed_files') :=
        get_unique_filename_global renamed_files base_name extension in
      let '(names, final) := successive renamed_files' rest in
      (current_name :: names, final)
  end.

End Calls.

(** ** The bundle reader of [p_fixed.py] *)
Module PFixed.

Import Extract.






End PFixed.

(** ** Reading dimensions under the digit limit of [int] *)
Module IconParse.

(** [sys.int_info.default_max_str_digits] of CPython 3.11 and later. *)
Definition int_max_str_digits : nat := 4300.

(** [int(s)] for a string of decimal digits: [None] stands for the
    [ValueError] raised for more digits than the limit. *)
Definition int (s : string) : option Z :=
  if int_max_str_digits <? String.length s then None
  else Some (Py.int_of_digits s).

(** The reading of width and height in the loop of [extract_ipa_icon]:
    [None] when a conversion raises, which ends the function;
    [Some None] when the name has no match. *)
Definition read_dimensions (icon_info : Icon.ZipInfo)
  : option (option (Z * Z)) :=
  match Icon.re_search (Py.lower (Icon.filename icon_info)) with
  | Some (w, h) =>
      match int w with
      | Some width =>
          match int h with
          | Some height => Some (Some (width, height))
          | None => None
          end
      | None => None
      end
  | None => Some None
  end.

End IconParse.

(** ** More sample inputs *)
Module MoreSamples.

(** Words of a resource dump. *)
Definition drawables : list string :=
  ["res/drawable-mdpi/ic_launcher.png";
   "res/drawable-hdpi/ic_launcher.png";
   "res/drawable-xxhdpi/ic_launcher.png";
   "res/drawable-XXHDPI-v4/ic_launcher_round.png";
   "res/drawable-xhdpi/ic_launcher.png"].

(** Three results that resolve to the same name, and a state whose
    registry and directory hold their files. *)
Definition game_results : list Renamer.Result :=
  [Renamer.mkResult "a.ipa" "Game" EmptyString "com.a.game" 100 3
     Renamer.valid;
   Renamer.mkResult "b.ipa" "Game" EmptyString "com.b.game" 100 3
     Renamer.valid;
   Renamer.mkResult "c.ipa" "Game" EmptyString "com.c.game" 100 3
     Renamer.valid].

Definition game_state : Renamer.State :=
  Renamer.mkState {["a.ipa"; "b.ipa"; "c.ipa"]}
                  {["a.ipa"; "b.ipa"; "c.ipa"; "notes.txt"]} 0.

(** The third call and every later one are allowed. *)
Definition allowed_from_third (n : nat) : bool := 2 <=? n.

End MoreSamples.


(** * Properties *)

(** ** Facts about strings *)
Module StrFacts.

Lemma app_cons (a : ascii) (s t : string) :
  String a s +:+ t = String a (s +:+ t).
Proof. reflexivity. Qed.

Lemma app_empty_l (t : string) : "" +:+ t = t.
Proof. reflexivity. Qed.

Lemma length_app (s t : string) :
  String.length (s +:+ t) = String.length s + String.length t.
Proof.
  induction s as [|a s IH]; [reflexivity|].
  rewrite app_cons. simpl. now rewrite IH.
Qed.

Lemma app_assoc (s t u : string) : (s +:+ t) +:+ u = s +:+ t +:+ u.
Proof.
  induction s as [|a s IH]; [reflexivity|].
  rewrite !app_cons. now rewrite IH.
Qed.

Lemma app_empty_r (s : string) : s +:+ "" = s.
Proof.
  induction s as [|a s IH]; [reflexivity|].
  rewrite app_cons. now rewrite IH.
Qed.

(** Cancellation of a common suffix. *)
Lemma app_inv_tail (t s1 s2 : string) : s1 +:+ t = s2 +:+ t -> s1 = s2.
Proof.
  revert s2. induction s1 as [|a s1 IH]; intros [|b s2] H;
    rewrite ?app_cons, ?app_empty_l in H.
  - reflexivity.
  - apply (f_equal String.length) in H. simpl in H.
    rewrite length_app in H. lia.
  - apply (f_equal String.length) in H. simpl in H.
    rewrite length_app in H. lia.
  - injection H as -> H. f_equal. now apply IH.
Qed.

Lemma str_of_nat_inj (n m : nat) : Py.str_of_nat n = Py.str_of_nat m -> n = m.
Proof.
  unfold Py.str_of_nat. intros H.
  apply (f_equal NilEmpty.uint_of_string) in H.
  rewrite !NilEmpty.usu in H. injection H as H.
  apply (f_equal Nat.of_uint) in H.
  now rewrite !DecimalNat.Unsigned.of_to in H.
Qed.

End StrFacts.

(** ** The name registry *)
Module RegistryFacts.

Import Renamer.

Lemma numbered_inj (base_name extension : string) (n m : nat) :
  numbered base_name extension n = numbered base_name extension m -> n = m.
Proof.
  unfold numbered. intros H.
  apply (inj (String.app base_name)) in H.
  apply (inj (String.app " (")) in H.
  rewrite <- !StrFacts.app_assoc in H.
  apply StrFacts.app_inv_tail in H.
  apply (StrFacts.app_inv_tail ")") in H.
  now apply StrFacts.str_of_nat_inj.
Qed.

Lemma numbered_not_original (base_name extension : string) (n : nat) :
  numbered base_name extension n ≠ base_name +:+ extension.
Proof.
  unfold numbered. intros H.
  apply (inj (String.app base_name)) in H.
  apply (f_equal String.length) in H.
  rewrite !StrFacts.length_app in H. simpl in H. lia.
Qed.

Section Loop.

Variables (base_name extension : string) (existing_files : gset string).

Local Abbreviation loop fuel :=
  (unique_loop fuel base_name extension existing_files).
Local Abbreviation cand := (numbered base_name extension).

(** More fuel does not change a result. *)
Lemma unique_loop_mono (fuel fuel' counter : nat) (cur r : string) :
  fuel <= fuel' -> loop fuel counter cur = Some r ->
  loop fuel' counter cur = Some r.
Proof.
  revert fuel' counter cur.
  induction fuel as [|fuel IH]; intros fuel' counter cur Hle H;
    [discriminate|].
  destruct fuel' as [|fuel']; [lia|]. simpl in *.
  destruct (decide (cur ∈ existing_files)); [|exact H].
  apply IH; [lia|exact H].
Qed.

(** What a result is: the current name when it is free, else the first
    free numbered name from [counter] on. *)
Lemma unique_loop_some (fuel counter : nat) (cur r : string) :
  loop fuel counter cur = Some r ->
  (r ∉ existing_files) /\
  (((cur ∉ existing_files) /\ r = cur) \/
   ((cur ∈ existing_files) /\
    exists n, counter <= n /\ r = cand n /\
      forall m, counter <= m < n -> cand m ∈ existing_files)).
Proof.
  revert counter cur.
  induction fuel as [|fuel IH]; intros counter cur H; [discriminate|].
  simpl in H. destruct (decide (cur ∈ existing_files)) as [Hin|Hout].
  - apply IH in H as [Hr [[Hfree ->]|[Hused (n & Hn & -> & Hbelow)]]].
    + split; [exact Hr|]. right. split; [exact Hin|].
      exists counter. split; [lia|]. split; [reflexivity|]. intros m Hm. lia.
    + split; [exact Hr|]. right. split; [exact Hin|].
      exists n. split; [lia|]. split; [reflexivity|].
      intros m Hm. destruct (decide (m = counter)) as [->|Hne];
        [exact Hused|apply Hbelow; lia].
  - injection H as <-. split; [exact Hout|]. left. now split.
Qed.

(** When the fuel runs out, every name tested was taken. *)
Lemma unique_loop_none (fuel counter : nat) (cur : string) :
  loop (S fuel) counter cur = None ->
  (cur ∈ existing_files) /\
  forall n, counter <= n < counter + fuel -> cand n ∈ existing_files.
Proof.
  revert counter cur.
  induction fuel as [|fuel IH]; intros counter cur H.
  - simpl in H. destruct (decide (cur ∈ existing_files)); [|discriminate].
    split; [assumption|]. intros n Hn. lia.
  - change (loop (S (S fuel)) counter cur)
      with (if decide (cur ∈ existing_files)
            then loop (S fuel) (S counter) (cand counter)
            else Some cur) in H.
    destruct (decide (cur ∈ existing_files)) as [Hin|]; [|discriminate].
    apply IH in H as [Hc Hrest]. split; [exact Hin|].
    intros n Hn. destruct (decide (n = counter)) as [->|Hne];
      [exact Hc|apply Hrest; lia].
Qed.

(** The registry is finite, so one test more than it has names is enough. *)
Lemma unique_loop_enough :
  is_Some (loop (S (size existing_files)) 1 (base_name +:+ extension)).
Proof.
  destruct (loop (S (size existing_files)) 1 (base_name +:+ extension))
    as [r|] eqn:H; [eauto|exfalso].
  apply unique_loop_none in H as [Horig Hall].
  set (names := (base_name +:+ extension)
                  :: map cand (seq 1 (size existing_files))).
  assert (Hnd : NoDup names).
  { apply NoDup_cons. split.
    - intros Hin. apply list_elem_of_In, in_map_iff in Hin as (n & Hn & _).
      now apply numbered_not_original in Hn.
    - apply NoDup_fmap_2; [|apply NoDup_seq].
      intros n m. apply numbered_inj. }
  assert (Hsub : list_to_set names ⊆ existing_files).
  { intros x Hx. apply elem_of_list_to_set in Hx.
    apply list_elem_of_In in Hx. destruct Hx as [<-|Hx]; [exact Horig|].
    apply in_map_iff in Hx as (n & <- & Hn). apply in_seq in Hn.
    apply Hall. lia. }
  apply subseteq_size in Hsub.
  rewrite size_list_to_set in Hsub by exact Hnd.
  unfold names in Hsub. simpl in Hsub. rewrite length_map, length_seq in Hsub.
  lia.
Qed.

End Loop.

End RegistryFacts.

(** ** The sequential renaming phase *)
Module PhaseFacts.

Import Renamer.

Lemma get_unique_filename_loop (base_name extension : string)
    (existing : gset string) :
  unique_loop (S (size existing)) base_name extension existing 1
    (base_name +:+ extension)
  = Some (get_unique_filename base_name extension existing).
Proof.
  unfold get_unique_filename.
  destruct (RegistryFacts.unique_loop_enough base_name extension existing)
    as [r ->].
  reflexivity.
Qed.

Lemma get_unique_filename_fresh (base_name extension : string)
    (existing : gset string) :
  get_unique_filename base_name extension existing ∉ existing.
Proof.
  pose proof (get_unique_filename_loop base_name extension existing) as H.
  now apply RegistryFacts.unique_loop_some in H as [H _].
Qed.

Lemma endswith_unfold (s suffix : string) :
  Py.endswith s suffix =
  if String.eqb s suffix then true
  else match s with
       | EmptyString => false
       | String _ s' => Py.endswith s' suffix
       end.
Proof. destruct s; reflexivity. Qed.

Lemma endswith_refl (s : string) : Py.endswith s s = true.
Proof. now rewrite endswith_unfold, String.eqb_refl. Qed.

Lemma endswith_app (s t : string) : Py.endswith (s +:+ t) t = true.
Proof.
  induction s as [|a s IH]; [apply endswith_refl|].
  rewrite StrFacts.app_cons, endswith_unfold.
  destruct (String.eqb (String a (s +:+ t)) t); [reflexivity|exact IH].
Qed.

Lemma get_unique_filename_extension (base_name extension : string)
    (existing : gset string) :
  Py.endswith (get_unique_filename base_name extension existing) extension
  = true.
Proof.
  pose proof (get_unique_filename_loop base_name extension existing) as H.
  apply RegistryFacts.unique_loop_some in H
    as [_ [[_ ->]|[_ (n & _ & -> & _)]]].
  - apply endswith_app.
  - unfold numbered. rewrite <- !StrFacts.app_assoc. apply endswith_app.
Qed.

Section Phase.

Variable title : string -> string.
Variable rename_allowed : nat -> bool.

Local Abbreviation one := (rename_one title rename_allowed).
Local Abbreviation phase := (rename_phase title rename_allowed).
Local Abbreviation retry := (retry_loop rename_allowed).

(** The retry loop leaves the registry alone, and the file name is either
    kept or becomes the new name. *)
Lemma retry_loop_inv (attempts : list nat) (st st' : State)
    (r r' : Result) (new_filename : string) :
  retry attempts st r new_filename = (st', r') ->
  existing_files st' = existing_files st /\
  (file r' = file r \/ file r' = new_filename) /\
  name r' = name r /\ version r' = version r /\ package r' = package r /\
  size_mb r' = size_mb r /\ confidence r' = confidence r.
Proof.
  revert st r. induction attempts as [|a rest IH]; intros st r H; simpl in H.
  - injection H as <- <-. tauto.
  - unfold os_rename in H.
    destruct (rename_allowed (calls st) && bool_decide (file r ∈ directory st)).
    + injection H as <- <-. simpl. tauto.
    + destruct (a <? _); apply IH in H; simpl in H; exact H.
Qed.

Lemma rename_one_registry (st st' : State) (r r' : Result)
    (target : option string) :
  one st r = (st', r', target) ->
  existing_files st' = list_to_set (option_list target) ∪ existing_files st
  /\ (forall t, target = Some t ->
        (t ∉ existing_files st) /\ is_package_file t = true)
  /\ (file r' = file r \/ target = Some (file r')).
Proof.
  unfold rename_one. intros H.
  destruct (eligible r).
  - set (t := get_unique_filename _ _ _) in H.
    assert (Ht : (t ∉ existing_files st) /\ is_package_file t = true).
    { split; [apply get_unique_filename_fresh|].
      unfold is_package_file.
      pose proof (get_unique_filename_extension (versioned_name title r)
                    (extension_of r) (existing_files st)) as He.
      fold t in He. unfold extension_of in *.
      destruct (Py.endswith (file r) ".apk"); rewrite He;
        [reflexivity|apply orb_true_r]. }
    destruct (bool_decide (file r ≠ t)).
    + destruct (retry_loop _ _ _ _) as [st1 r1] eqn:Hr.
      injection H as <- <- <-.
      apply retry_loop_inv in Hr as (Hreg & Hfile & _). simpl in Hreg.
      split; [rewrite Hreg; simpl; set_solver|].
      split; [intros t' [= <-]; exact Ht|].
      destruct Hfile as [->| ->]; auto.
    + injection H as <- <- <-. simpl.
      split; [set_solver|]. split; [intros t' [= <-]; exact Ht|]. now left.
  - injection H as <- <- <-. simpl. split; [set_solver|].
    split; [discriminate|]. now left.
Qed.

(** The registry after the phase is the seed plus the names assigned; the
    names assigned are pairwise distinct, end in a package extension and
    were not in the seed; every final file name is an original one or an
    assigned one. *)
Lemma rename_phase_registry (results : list Result) (st st' : State)
    (rename_results : list Result) (targets : list string) :
  phase st results = (st', rename_results, targets) ->
  existing_files st' = list_to_set targets ∪ existing_files st
  /\ NoDup targets
  /\ Forall (fun t => (t ∉ existing_files st) /\ is_package_file t = true)
       targets
  /\ Forall2 (fun r r' => file r' = file r \/ file r' ∈ targets)
       results rename_results.
Proof.
  revert st st' rename_results targets.
  induction results as [|r rest IH]; intros st st' rr ts H; simpl in H.
  - injection H as <- <- <-. split; [set_solver|].
    split; [constructor|]. split; constructor.
  - destruct (one st r) as [[st1 r1] tgt] eqn:H1.
    destruct (phase st1 rest) as [[st2 rr2] ts2] eqn:H2.
    injection H as <- <- <-.
    apply rename_one_registry in H1 as (Hreg1 & Htgt & Hfile).
    apply IH in H2 as (Hreg2 & Hnd & Hfresh & Hfiles).
    assert (Hfresh' : Forall (fun t => (t ∉ existing_files st)
                                       /\ is_package_file t = true) ts2).
    { eapply Forall_impl; [exact Hfresh|]. simpl. intros t [Ht Hp].
      split; [|exact Hp]. rewrite Hreg1 in Ht. set_solver. }
    split; [rewrite Hreg2, Hreg1, list_to_set_app_L; set_solver|].
    destruct tgt as [t|]; simpl in *.
    + destruct (Htgt t eq_refl) as [Ht Hp].
      split; [|split].
      * apply NoDup_cons. split; [|exact Hnd].
        intros Hin. rewrite Forall_forall in Hfresh.
        apply Hfresh in Hin as [Hin _]. rewrite Hreg1 in Hin. set_solver.
      * constructor; [now split|exact Hfresh'].
      * constructor.
        -- destruct Hfile as [->|[= ->]]; [now left|right; set_solver].
        -- eapply Forall2_impl; [exact Hfiles|]. simpl.
           intros x y [->|Hy]; [now left|right; set_solver].
    + split; [exact Hnd|]. split; [exact Hfresh'|].
      constructor; [|exact Hfiles].
      destruct Hfile as [->|Hf]; [now left|discriminate].
Qed.

(** Distinct original names that are all registered stay distinct from
    each other and from the assigned names. *)
Lemma rename_phase_files_nodup (results : list Result) (st st' : State)
    (rename_results : list Result) (targets : list string) :
  phase st results = (st', rename_results, targets) ->
  NoDup (map file results) ->
  Forall (fun r => file r ∈ existing_files st) results ->
  NoDup (map file rename_results).
Proof.
  revert st st' rename_results targets.
  induction results as [|r rest IH]; intros st st' rr ts H Hnd Hreg;
    simpl in H.
  - injection H as <- <- <-. constructor.
  - destruct (one st r) as [[st1 r1] tgt] eqn:H1.
    destruct (phase st1 rest) as [[st2 rr2] ts2] eqn:H2.
    injection H as <- <- <-.
    apply rename_one_registry in H1 as (Hreg1 & Htgt & Hfile).
    simpl in Hnd. apply NoDup_cons in Hnd as [Hr Hnd].
    apply Forall_cons in Hreg as [Hrin Hreg].
    pose proof (rename_phase_registry _ _ _ _ _ H2)
      as (_ & _ & Hfresh & Hfiles).
    simpl. apply NoDup_cons. split.
    + intros Hin. apply list_elem_of_In, in_map_iff in Hin as (r' & Heq & Hin).
      apply list_elem_of_In, list_elem_of_lookup in Hin as [i Hi].
      destruct (Forall2_lookup_r _ _ _ _ _ Hfiles Hi) as (r0 & Hr0 & Hor).
      rewrite Forall_forall in Hfresh. rewrite Forall_forall in Hreg.
      assert (Hr0in : r0 ∈ rest) by (eapply list_elem_of_lookup_2; eauto).
      destruct Hfile as [Hsame|Htg].
      * destruct Hor as [Hor|Hor].
        -- apply Hr. apply list_elem_of_In, in_map_iff. exists r0.
           split; [congruence|now apply list_elem_of_In].
        -- apply Hfresh in Hor as [Hor _]. rewrite Hreg1 in Hor.
           rewrite Heq, Hsame in Hor. set_solver.
      * destruct (Htgt _ Htg) as [Ht _].
        destruct Hor as [Hor|Hor].
        -- apply Ht. rewrite <- Heq, Hor. now apply Hreg.
        -- apply Hfresh in Hor as [Hor _]. rewrite Hreg1, Htg in Hor.
           rewrite Heq in Hor. simpl in Hor. set_solver.
    + eapply IH; [exact H2|exact Hnd|].
      eapply Forall_impl; [exact Hreg|]. simpl. intros x Hx.
      rewrite Hreg1. set_solver.
Qed.

(** The name an iteration assigns depends on the result and on the
    registry only. *)
Lemma rename_one_target (st : State) (r : Result) :
  (one st r).2 = target_of title (existing_files st) r.
Proof.
  unfold rename_one, target_of. destruct (eligible r); [|reflexivity].
  destruct (bool_decide _); [|reflexivity].
  now destruct (retry_loop _ _ _ _).
Qed.

(** The fields that identify a result are never changed. *)
Lemma rename_one_identity (st : State) (r : Result) :
  same_identity r (one st r).1.2.
Proof.
  unfold rename_one, same_identity. destruct (eligible r); [|simpl; tauto].
  destruct (bool_decide _); [|simpl; tauto].
  destruct (retry_loop _ _ _ _) as [st1 r1] eqn:Hr. simpl.
  apply retry_loop_inv in Hr. tauto.
Qed.

Lemma rename_phase_identity (results : list Result) (st : State) :
  Forall2 same_identity results (phase st results).1.2.
Proof.
  revert st. induction results as [|r rest IH]; intros st; simpl;
    [constructor|].
  pose proof (rename_one_identity st r) as Hid.
  destruct (one st r) as [[st1 r1] tgt].
  specialize (IH st1). destruct (phase st1 rest) as [[st2 rr] ts].
  simpl in *. now constructor.
Qed.

(** Processing a list in two pieces. *)
Lemma rename_phase_app (l1 l2 : list Result) (st : State) :
  phase st (l1 ++ l2) =
  let '(st1, rr1, ts1) := phase st l1 in
  let '(st2, rr2, ts2) := phase st1 l2 in
  (st2, rr1 ++ rr2, ts1 ++ ts2).
Proof.
  revert st. induction l1 as [|r rest IH]; intros st; simpl.
  - now destruct (phase st l2) as [[? ?] ?].
  - destruct (one st r) as [[st1 r1] tgt]. rewrite IH.
    destruct (phase st1 rest) as [[st2 rr] ts].
    destruct (phase st2 l2) as [[st3 rr3] ts3].
    now rewrite <- app_assoc.
Qed.

(** Five refused calls in a row: the result is marked invalid and keeps
    its file name; the directory is as before. *)
Lemma retry_loop_all_refused (st : State) (r : Result) (new_filename : string) :
  (forall i, i < max_retries -> rename_allowed (calls st + i) = false) ->
  retry (seq 0 max_retries) st r new_filename =
  (mkState (existing_files st) (directory st) (calls st + max_retries),
   set_status r invalid).
Proof.
  intros H. unfold max_retries in *. simpl.
  pose proof (H 0 ltac:(lia)) as H0. pose proof (H 1 ltac:(lia)) as H1.
  pose proof (H 2 ltac:(lia)) as H2. pose proof (H 3 ltac:(lia)) as H3.
  pose proof (H 4 ltac:(lia)) as H4.
  rewrite Nat.add_0_r in H0.
  unfold os_rename, failed_call; simpl.
  rewrite H0; simpl.
  replace (S (calls st)) with (calls st + 1) by lia. rewrite H1; simpl.
  replace (S (calls st + 1)) with (calls st + 2) by lia. rewrite H2; simpl.
  replace (S (calls st + 2)) with (calls st + 3) by lia. rewrite H3; simpl.
  replace (S (calls st + 3)) with (calls st + 4) by lia. rewrite H4; simpl.
  repeat f_equal. lia.
Qed.

(** The names assigned by the loop do not depend on the rename outcomes. *)
Lemma rename_phase_targets (results : list Result) (st : State) :
  (phase st results).2 = assigned_names title (existing_files st) results.
Proof.
  revert st. induction results as [|r rest IH]; intros st; simpl;
    [reflexivity|].
  pose proof (rename_one_target st r) as Ht.
  destruct (one st r) as [[st1 r1] tgt] eqn:H1. simpl in Ht. subst tgt.
  apply rename_one_registry in H1 as (Hreg & _).
  specialize (IH st1). destruct (phase st1 rest) as [[st2 rr] ts].
  simpl in *. rewrite IH, Hreg.
  destruct (target_of title (existing_files st) r) as [t|]; simpl.
  - f_equal. f_equal. set_solver.
  - f_equal. set_solver.
Qed.

(** An eligible, registered result whose five rename calls are refused. *)
Lemma rename_one_all_refused (st : State) (r : Result) :
  eligible r = true ->
  file r ∈ existing_files st ->
  (forall i, i < max_retries -> rename_allowed (calls st + i) = false) ->
  exists st' t,
    one st r = (st', set_status r invalid, Some t)
    /\ directory st' = directory st.
Proof.
  intros Hel Hin Hall. unfold rename_one. rewrite Hel.
  set (t := get_unique_filename _ _ _).
  assert (Hne : file r ≠ t).
  { intros Heq. apply (get_unique_filename_fresh (versioned_name title r)
                         (extension_of r) (existing_files st)).
    fold t. now rewrite <- Heq. }
  rewrite bool_decide_true by exact Hne.
  rewrite retry_loop_all_refused by exact Hall.
  eexists _, t. split; reflexivity.
Qed.

(** A name that is free is taken as it is. *)
Lemma get_unique_filename_free (base_name extension : string)
    (existing : gset string) :
  base_name +:+ extension ∉ existing ->
  get_unique_filename base_name extension existing = base_name +:+ extension.
Proof.
  intros Hfree. unfold get_unique_filename. simpl.
  now rewrite decide_False by exact Hfree.
Qed.

(** An eligible result whose name is free and whose first rename call
    succeeds (or that already has the name). *)
Lemma rename_one_free (st : State) (r : Result) :
  let new_filename := versioned_name title r +:+ extension_of r in
  eligible r = true ->
  new_filename ∉ existing_files st ->
  rename_allowed (calls st) = true ->
  file r ∈ directory st ->
  exists st',
    one st r = (st', set_file r new_filename, Some new_filename)
    /\ new_filename ∈ directory st'
    /\ new_filename ∈ existing_files st'.
Proof.
  intros new_filename Hel Hfree Hok Hdir. unfold rename_one. rewrite Hel.
  rewrite get_unique_filename_free by exact Hfree. fold new_filename.
  clearbody new_filename.
  destruct (decide (file r = new_filename)) as [Heq|Hne].
  - rewrite bool_decide_false by (intros H; now apply H).
    eexists. split; [|split].
    + f_equal. f_equal. subst new_filename. now destruct r.
    + simpl. now rewrite <- Heq.
    + simpl. set_solver.
  - rewrite bool_decide_true by exact Hne.
    unfold max_retries. simpl. unfold os_rename. simpl.
    rewrite Hok, bool_decide_true by exact Hdir. simpl.
    eexists. split; [reflexivity|]. simpl. split; set_solver.
Qed.

End Phase.

End PhaseFacts.

(** ** The batch as a whole *)
Module MainFacts.

Import Renamer.

Lemma process_file_file (world : string -> FileInfo) (f : string) (r : Result) :
  process_file world f = Some r -> file r = f.
Proof.
  unfold process_file. intros H.
  destruct (getsize (world f)); [|now injection H as <-].
  destruct (Py.endswith f ".apk").
  - destruct (Extract.extract_apk_metadata _); now injection H as <-.
  - destruct (Py.endswith f ".ipa"); [|discriminate].
    destruct (Extract.extract_ipa_metadata _); now injection H as <-.
Qed.

(** The results carry the paths of the completed files, in that order,
    except for the paths [process_file] answers [None] for. *)
Lemma processing_results_files (world : string -> FileInfo)
    (completed : list string) :
  sublist (map file (processing_results world completed)) completed.
Proof.
  unfold processing_results.
  induction completed as [|f rest IH]; simpl; [constructor|].
  destruct (process_file world f) as [r|] eqn:H; simpl.
  - apply process_file_file in H as ->. now constructor.
  - now constructor.
Qed.

End MainFacts.

(** * The claims *)

(** C10: [get_unique_filename] terminates for every base name, extension
    and registry: any fuel above the size of the registry yields the same
    result.  The result is base+extension when that name is not in the
    registry, otherwise it is the numbered name for the least n >= 1 whose
    name is not in the registry; in both cases the result is not in the
    registry the function was given.  The variant over the global set
    returns the same name and adds it to the set. *)
Theorem get_unique_filename_least (base_name extension : string)
    (existing_files : gset string) :
  let original_name := base_name +:+ extension in
  let r := Renamer.get_unique_filename base_name extension existing_files in
  (forall fuel, S (size existing_files) <= fuel ->
     Renamer.unique_loop fuel base_name extension existing_files 1
       original_name = Some r)
  /\ (r ∉ existing_files)
  /\ ((original_name ∉ existing_files) -> r = original_name)
  /\ ((original_name ∈ existing_files) ->
      exists n, 1 <= n /\ r = Renamer.numbered base_name extension n /\
        forall m, 1 <= m < n ->
          Renamer.numbered base_name extension m ∈ existing_files)
  /\ Renamer.get_unique_filename_global existing_files base_name extension
     = (r, {[r]} ∪ existing_files).
Proof.
  intros original_name r.
  assert (Hglobal :
            Renamer.get_unique_filename_global existing_files base_name
              extension = (r, {[r]} ∪ existing_files)) by reflexivity.
  pose proof (PhaseFacts.get_unique_filename_loop base_name extension
                existing_files) as Hloop.
  fold original_name r in Hloop.
  split.
  { intros fuel Hfuel.
    eapply RegistryFacts.unique_loop_mono; [exact Hfuel|exact Hloop]. }
  apply RegistryFacts.unique_loop_some in Hloop
    as [Hfresh [[Hfree Heq]|[Hused (n & Hn & Heq & Hbelow)]]].
  - split; [exact Hfresh|]. split; [intros _; exact Heq|].
    split; [|exact Hglobal]. intros Hin. contradiction.
  - split; [exact Hfresh|]. split; [intros Hout; contradiction|].
    split; [|exact Hglobal]. intros _. exists n. auto.
Qed.

(** C3: in a batch run whose registry is seeded from the directory
    listing, and in which every completed file was submitted and completes
    once, the names assigned by the sequential phase are pairwise distinct,
    none of them is a name of the listing, and the final file names of the
    processed files are pairwise distinct. *)
Theorem batch_output_names_unique (title : string -> string)
    (rename_allowed : nat -> bool) (world : string -> Renamer.FileInfo)
    (listing completed : list string) :
  NoDup completed ->
  (forall f, In f completed -> In f (Renamer.files_to_process listing)) ->
  let out := Renamer.main title rename_allowed world listing completed in
  NoDup out.2
  /\ Forall (fun t => t ∉ listing) out.2
  /\ NoDup (map Renamer.file out.1.2).
Proof.
  intros Hc Hsubmitted out. unfold Renamer.main in out.
  destruct out as [[st rr] ts] eqn:Hout. subst out. simpl.
  pose proof (PhaseFacts.rename_phase_registry _ _ _ _ _ _ _ Hout)
    as (_ & Hts & Hfresh & _).
  split; [exact Hts|]. split.
  - eapply Forall_impl; [exact Hfresh|]. simpl. intros t [Ht Hp] Hin.
    apply Ht. apply elem_of_list_to_set. unfold Renamer.files_to_process.
    apply list_elem_of_In, filter_In. split; [now apply list_elem_of_In|exact Hp].
  - pose proof (MainFacts.processing_results_files world completed) as Hsub.
    eapply PhaseFacts.rename_phase_files_nodup; [exact Hout| |].
    + eapply sublist_NoDup; [exact Hc|exact Hsub].
    + simpl. apply Forall_forall. intros r Hr.
      apply elem_of_list_to_set, list_elem_of_In, Hsubmitted, list_elem_of_In.
      eapply sublist_subseteq; [exact Hsub|].
      apply list_elem_of_In, in_map. now apply list_elem_of_In.
Qed.

Lemma batch_output_names_unique_witness :
  let listing := ["a.ipa"; "b.ipa"; "notes.txt"] in
  let completed := ["b.ipa"; "a.ipa"] in
  let out := Renamer.main Py.title_ascii Samples.always Samples.game_world
               listing completed in
  NoDup completed
  /\ (forall f, In f completed -> In f (Renamer.files_to_process listing))
  /\ NoDup out.2
  /\ Forall (fun t => t ∉ listing) out.2
  /\ NoDup (map Renamer.file out.1.2).
Proof.
  assert (H1 : NoDup ["b.ipa"; "a.ipa"]) by compute_done.
  assert (H2 : forall f, In f ["b.ipa"; "a.ipa"] ->
                 In f (Renamer.files_to_process
                         ["a.ipa"; "b.ipa"; "notes.txt"])).
  { intros f Hf. simpl in Hf. vm_compute. tauto. }
  split; [exact H1|]. split; [exact H2|].
  exact (batch_output_names_unique Py.title_ascii Samples.always
           Samples.game_world _ _ H1 H2).
Defined.

(** C7 (amended): the sequential phase takes the results in the order in
    which the parallel analyses completed.  The results carry the paths of
    the completed files in completion order, the phase keeps that order
    and the identifying fields of every result, and the names it assigns
    are a function of the registry seed and of the results in that order;
    the outcomes of the rename calls play no part. *)
Theorem assignment_follows_completion_order (title : string -> string)
    (rename_allowed : nat -> bool) (world : string -> Renamer.FileInfo)
    (listing completed : list string) :
  let results := Renamer.processing_results world completed in
  let out := Renamer.main title rename_allowed world listing completed in
  sublist (map Renamer.file results) completed
  /\ Forall2 Renamer.same_identity results out.1.2
  /\ out.2 = Renamer.assigned_names title
               (list_to_set (Renamer.files_to_process listing)) results.
Proof.
  intros results out. split; [apply MainFacts.processing_results_files|].
  split.
  - apply PhaseFacts.rename_phase_identity.
  - unfold out, Renamer.main. now rewrite PhaseFacts.rename_phase_targets.
Qed.

(** C7, as stated, fails: the same two files, in the same directory, get
    their collision suffixes swapped when the analyses complete in the
    other order. *)
Lemma completion_order_swaps_suffixes :
  let listing := ["a.ipa"; "b.ipa"] in
  let run completed :=
    Renamer.report
      (Renamer.main Py.title_ascii Samples.always Samples.game_world
         listing completed).1.2 in
  ["a.ipa"; "b.ipa"] ≡ₚ Renamer.files_to_process listing
  /\ ["b.ipa"; "a.ipa"] ≡ₚ Renamer.files_to_process listing
  /\ run ["a.ipa"; "b.ipa"] =
       [("Game v1.0.ipa", "Game", "com.a.game", "", 100%Z, 3%Z);
        ("Game v1.0 (1).ipa", "Game", "com.b.game", "", 100%Z, 3%Z)]
  /\ run ["b.ipa"; "a.ipa"] =
       [("Game v1.0.ipa", "Game", "com.b.game", "", 100%Z, 3%Z);
        ("Game v1.0 (1).ipa", "Game", "com.a.game", "", 100%Z, 3%Z)].
Proof.
  split; [vm_compute; reflexivity|].
  split; [vm_compute; apply perm_swap|].
  split; vm_compute; reflexivity.
Qed.

(** C8: when every one of the bounded rename attempts of a file is
    refused, its result is marked invalid (the failure status of the
    code), its file name and the directory are left as they were, its row
    is in the final report with the original name, and the files after it
    are processed from the state it leaves. *)
Theorem rename_failure_is_isolated (title : string -> string)
    (rename_allowed : nat -> bool) (st : Renamer.State)
    (pre post : list Renamer.Result) (r : Renamer.Result) :
  let phase := Renamer.rename_phase title rename_allowed in
  let st_r := (phase st pre).1.1 in
  Renamer.eligible r = true ->
  Renamer.file r ∈ Renamer.existing_files st_r ->
  (forall i, i < Renamer.max_retries ->
     rename_allowed (Renamer.calls st_r + i) = false) ->
  exists st_after r',
    (Renamer.rename_one title rename_allowed st_r r).1 = (st_after, r')
    /\ Renamer.status r' = Renamer.invalid
    /\ Renamer.file r' = Renamer.file r
    /\ Renamer.directory st_after = Renamer.directory st_r
    /\ (phase st (pre ++ r :: post)).1.2 =
         (phase st pre).1.2 ++ r' :: (phase st_after post).1.2
    /\ In (Renamer.file r, Renamer.name r, Renamer.package r,
           Renamer.version r, Renamer.size_mb r, Renamer.confidence r)
          (Renamer.report (phase st (pre ++ r :: post)).1.2).
Proof.
  intros phase st_r Hel Hin Hall.
  destruct (PhaseFacts.rename_one_all_refused title rename_allowed st_r r
              Hel Hin Hall) as (st' & t & Hone & Hdir).
  exists st', (Renamer.set_status r Renamer.invalid).
  assert (Hrun : (phase st (pre ++ r :: post)).1.2 =
                 (phase st pre).1.2
                 ++ Renamer.set_status r Renamer.invalid
                    :: (phase st' post).1.2).
  { unfold phase. rewrite PhaseFacts.rename_phase_app.
    fold phase. unfold st_r in Hone.
    destruct (phase st pre) as [[st1 rr1] ts1]. simpl in Hone. simpl.
    unfold phase. simpl. rewrite Hone.
    destruct (Renamer.rename_phase title rename_allowed st' post)
      as [[st2 rr2] ts2].
    reflexivity. }
  rewrite Hone. repeat split; try reflexivity; try assumption.
  rewrite Hrun. unfold Renamer.report. rewrite map_app. apply in_or_app.
  right. left. reflexivity.
Qed.

Lemma rename_failure_is_isolated_witness :
  let r := Renamer.mkResult "b.ipa" "Game" "" "com.b.game" 100 3
             Renamer.valid in
  let pre := [Renamer.mkResult "a.ipa" "Game" "" "com.a.game" 100 3
                Renamer.valid] in
  let post := [Renamer.mkResult "c.ipa" "Chess" "1.2" "com.c.chess" 50 3
                 Renamer.valid] in
  let allowed n := negb ((1 <=? n) && (n <=? 5)) in
  let st := Renamer.mkState {["a.ipa"; "b.ipa"; "c.ipa"]}
              {["a.ipa"; "b.ipa"; "c.ipa"]} 0 in
  let phase := Renamer.rename_phase Py.title_ascii allowed in
  Renamer.report (phase st (pre ++ r :: post)).1.2 =
    [("Game v1.0.ipa", "Game", "com.a.game", "", 100%Z, 3%Z);
     ("b.ipa", "Game", "com.b.game", "", 100%Z, 3%Z);
     ("Chess v1.2.ipa", "Chess", "com.c.chess", "1.2", 50%Z, 3%Z)]
  /\ exists st_after r',
    (Renamer.rename_one Py.title_ascii allowed (phase st pre).1.1 r).1
      = (st_after, r')
    /\ Renamer.status r' = Renamer.invalid
    /\ Renamer.file r' = Renamer.file r
    /\ Renamer.directory st_after = Renamer.directory (phase st pre).1.1
    /\ (phase st (pre ++ r :: post)).1.2 =
         (phase st pre).1.2 ++ r' :: (phase st_after post).1.2
    /\ In (Renamer.file r, Renamer.name r, Renamer.package r,
           Renamer.version r, Renamer.size_mb r, Renamer.confidence r)
          (Renamer.report (phase st (pre ++ r :: post)).1.2).
Proof.
  intros r pre post allowed st phase.
  split; [vm_compute; reflexivity|].
  apply (rename_failure_is_isolated Py.title_ascii allowed st pre post r).
  - vm_compute. reflexivity.
  - compute_done.
  - intros i Hi. unfold Renamer.max_retries in Hi.
    assert (Hc : Renamer.calls
                   (Renamer.rename_phase Py.title_ascii allowed st pre).1.1
                 = 1) by (vm_compute; reflexivity).
    rewrite Hc. unfold allowed.
    do 5 (destruct i as [|i]; [reflexivity|]). lia.
Defined.

(** ** The sanitizer *)
Module SanitizeFacts.

Import Shape.

Local Abbreviation U := ("_"%char).

(** *** The replacement loop *)

Lemma replace_loop_cons (l : list ascii) (a : ascii) (s : string) :
  fold_left (fun n char => Py.replace char U n) l (String a s) =
  String (fold_left (fun x char => if Ascii.eqb x char then U else x) l a)
         (fold_left (fun n char => Py.replace char U n) l s).
Proof.
  revert a s. induction l as [|c l IH]; intros a s; simpl; [reflexivity|].
  apply IH.
Qed.

Lemma replace_loop_empty (l : list ascii) :
  fold_left (fun n char => Py.replace char U n) l EmptyString = EmptyString.
Proof. induction l as [|c l IH]; simpl; [reflexivity|exact IH]. Qed.

Lemma replace_loop_map (s : string) :
  fold_left (fun n char => Py.replace char U n) Renamer.invalid_chars s =
  map_chars substitute s.
Proof.
  induction s as [|a s IH]; [apply replace_loop_empty|].
  rewrite replace_loop_cons, IH. reflexivity.
Qed.

Lemma substitute_idem (a : ascii) : substitute (substitute a) = substitute a.
Proof. destruct a as [[] [] [] [] [] [] [] []]; reflexivity. Qed.

Lemma kept_underscore : kept U = true.
Proof. reflexivity. Qed.

Lemma map_chars_kept (s : string) :
  all_chars kept s = true -> map_chars substitute s = s.
Proof.
  induction s as [|a s IH]; simpl; [reflexivity|].
  intros [Ha Hs]%andb_true_iff. rewrite IH by exact Hs.
  unfold kept in Ha. apply Ascii.eqb_eq in Ha. now rewrite Ha.
Qed.

Lemma all_kept_map_chars (s : string) :
  all_chars kept (map_chars substitute s) = true.
Proof.
  induction s as [|a s IH]; simpl; [reflexivity|].
  rewrite IH, andb_true_r. unfold kept. rewrite substitute_idem.
  apply Ascii.eqb_refl.
Qed.

Lemma length_map_chars (f : ascii -> ascii) (s : string) :
  String.length (map_chars f s) = String.length s.
Proof. induction s as [|a s IH]; simpl; [reflexivity|now rewrite IH]. Qed.

(** *** Splitting and joining *)

Lemma split_not_nil (s : string) : Py.split U s ≠ [].
Proof.
  destruct s as [|a s]; simpl; [discriminate|].
  destruct (Ascii.eqb a U); [discriminate|].
  destruct (Py.split U s); discriminate.
Qed.

Lemma join_cons_cons (p q : string) (ps : list string) :
  Py.join "_" (p :: q :: ps) = p +:+ "_" +:+ Py.join "_" (q :: ps).
Proof. reflexivity. Qed.

(** Joining the pieces gives the string back. *)
Lemma join_split (s : string) : Py.join "_" (Py.split U s) = s.
Proof.
  induction s as [|a s IH]; [reflexivity|]. simpl.
  pose proof (split_not_nil s) as Hne.
  destruct (Ascii.eqb a U) eqn:Ha.
  - apply Ascii.eqb_eq in Ha as ->.
    destruct (Py.split U s) as [|q ps]; [contradiction|].
    rewrite join_cons_cons, IH. reflexivity.
  - destruct (Py.split U s) as [|q ps]; [contradiction|].
    destruct ps as [|q' ps].
    + simpl in *. now rewrite IH.
    + rewrite join_cons_cons in *. rewrite StrFacts.app_cons. now rewrite IH.
Qed.

Lemma all_chars_app (p : ascii -> bool) (s t : string) :
  all_chars p (s +:+ t) = all_chars p s && all_chars p t.
Proof.
  induction s as [|a s IH]; [reflexivity|].
  rewrite StrFacts.app_cons. simpl. now rewrite IH, andb_assoc.
Qed.

Lemma all_chars_join (p : ascii -> bool) (ps : list string) :
  p U = true -> Forall (fun x => all_chars p x = true) ps ->
  all_chars p (Py.join "_" ps) = true.
Proof.
  intros HU H. induction H as [|x ps Hx Hps IH]; [reflexivity|].
  destruct ps as [|q ps]; [exact Hx|].
  rewrite join_cons_cons, !all_chars_app, Hx, IH. simpl. now rewrite HU.
Qed.

Lemma all_chars_split (p : ascii -> bool) (s : string) :
  all_chars p s = true ->
  Forall (fun x => all_chars p x = true) (Py.split U s).
Proof.
  induction s as [|a s IH]; simpl; [now repeat constructor|].
  intros [Ha Hs]%andb_true_iff. specialize (IH Hs).
  destruct (Ascii.eqb a U); [now constructor|].
  destruct (Py.split U s) as [|q ps]; [now repeat constructor; simpl; rewrite Ha|].
  apply Forall_cons in IH as [Hq Hps]. constructor; [|exact Hps].
  simpl. now rewrite Ha, Hq.
Qed.

Lemma Forall_filter_none (P : string -> Prop) (ps : list string) :
  Forall P ps -> Forall P (Py.filter_none ps).
Proof.
  intros H. apply List.Forall_forall. intros x Hx.
  apply filter_In in Hx as [Hx _]. rewrite List.Forall_forall in H. auto.
Qed.

(** *** Stripping *)

Section Strip.

Variable p : ascii -> bool.

Lemma rstrip_cons (a : ascii) (s : string) :
  Py.rstrip_by p (String a s) =
  match Py.rstrip_by p s with
  | EmptyString => if p a then EmptyString else String a EmptyString
  | r => String a r
  end.
Proof. reflexivity. Qed.

Lemma all_chars_lstrip (q : ascii -> bool) (s : string) :
  all_chars q s = true -> all_chars q (Py.lstrip_by p s) = true.
Proof.
  induction s as [|a s IH]; simpl; [reflexivity|].
  intros H. destruct (p a); [|exact H].
  apply andb_true_iff in H as [_ H]. now apply IH.
Qed.

Lemma all_chars_rstrip (q : ascii -> bool) (s : string) :
  all_chars q s = true -> all_chars q (Py.rstrip_by p s) = true.
Proof.
  induction s as [|a s IH]; [reflexivity|].
  rewrite rstrip_cons. simpl. intros [Ha Hs]%andb_true_iff.
  specialize (IH Hs).
  destruct (Py.rstrip_by p s) as [|b r].
  - destruct (p a); simpl; [reflexivity|now rewrite Ha].
  - simpl in *. now rewrite Ha, IH.
Qed.

Lemma length_lstrip (s : string) :
  String.length (Py.lstrip_by p s) <= String.length s.
Proof.
  induction s as [|a s IH]; simpl; [lia|].
  destruct (p a); simpl; lia.
Qed.

Lemma length_rstrip (s : string) :
  String.length (Py.rstrip_by p s) <= String.length s.
Proof.
  induction s as [|a s IH]; [simpl; lia|].
  rewrite rstrip_cons.
  destruct (Py.rstrip_by p s) as [|b r].
  - destruct (p a); simpl; lia.
  - simpl in *. lia.
Qed.

Lemma length_strip (s : string) :
  String.length (Py.strip_by p s) <= String.length s.
Proof.
  unfold Py.strip_by.
  pose proof (length_lstrip (Py.rstrip_by p s)).
  pose proof (length_rstrip s). lia.
Qed.

(** The first character of a right-stripped string is that of the
    string. *)
Lemma rstrip_head (s : string) (b : ascii) (r : string) :
  Py.rstrip_by p s = String b r -> exists s', s = String b s'.
Proof.
  destruct s as [|a s]; [discriminate|]. rewrite rstrip_cons.
  destruct (Py.rstrip_by p s); [destruct (p a)|]; intros [= <- _]; eauto.
Qed.

Lemma no_double_lstrip (s : string) :
  no_double_underscore s = true ->
  no_double_underscore (Py.lstrip_by p s) = true.
Proof.
  induction s as [|a s IH]; simpl; [reflexivity|].
  intros H. destruct (p a); [|exact H].
  apply andb_true_iff in H as [_ H]. now apply IH.
Qed.

Lemma no_double_rstrip (s : string) :
  no_double_underscore s = true ->
  no_double_underscore (Py.rstrip_by p s) = true.
Proof.
  induction s as [|a s IH]; [reflexivity|].
  rewrite rstrip_cons. simpl. intros [Ha Hs]%andb_true_iff.
  specialize (IH Hs).
  destruct (Py.rstrip_by p s) as [|b r] eqn:Hr.
  - destruct (p a); [reflexivity|]. simpl. now rewrite andb_false_r.
  - apply rstrip_head in Hr as [s' ->]. simpl in *.
    now rewrite Ha, IH.
Qed.

Lemma lstrip_idem (s : string) :
  Py.lstrip_by p (Py.lstrip_by p s) = Py.lstrip_by p s.
Proof.
  induction s as [|a s IH]; simpl; [reflexivity|].
  destruct (p a) eqn:Ha; [exact IH|]. simpl. now rewrite Ha.
Qed.

Lemma rstrip_idem (s : string) :
  Py.rstrip_by p (Py.rstrip_by p s) = Py.rstrip_by p s.
Proof.
  induction s as [|a s IH]; [reflexivity|].
  rewrite rstrip_cons.
  destruct (Py.rstrip_by p s) as [|b r] eqn:Hr.
  - destruct (p a) eqn:Ha; [reflexivity|]. simpl. now rewrite Ha.
  - rewrite rstrip_cons, IH. reflexivity.
Qed.

(** Stripping on the left keeps a string right-stripped. *)
Lemma rstrip_lstrip (s : string) :
  Py.rstrip_by p s = s ->
  Py.rstrip_by p (Py.lstrip_by p s) = Py.lstrip_by p s.
Proof.
  induction s as [|a s IH]; [reflexivity|].
  intros H. simpl Py.lstrip_by. destruct (p a) eqn:Ha; [|exact H].
  apply IH. rewrite rstrip_cons, Ha in H.
  destruct (Py.rstrip_by p s) as [|b r]; [discriminate|].
  now injection H.
Qed.

Lemma strip_idem (s : string) :
  Py.strip_by p (Py.strip_by p s) = Py.strip_by p s.
Proof.
  unfold Py.strip_by.
  rewrite (rstrip_lstrip (Py.rstrip_by p s)) by apply rstrip_idem.
  apply lstrip_idem.
Qed.

End Strip.


(** *** Pieces between underscores *)

Lemma split_underscore_free (s : string) :
  Forall (fun x => underscore_free x = true) (Py.split U s).
Proof.
  induction s as [|a s IH]; simpl; [now repeat constructor|].
  destruct (Ascii.eqb a U) eqn:Ha; [now constructor|].
  destruct (Py.split U s) as [|q ps].
  - repeat constructor. unfold underscore_free, is_underscore. simpl.
    now rewrite Ha.
  - apply Forall_cons in IH as [Hq Hps]. constructor; [|exact Hps].
    unfold underscore_free, is_underscore in *. simpl. now rewrite Ha, Hq.
Qed.

Lemma starts_app (x t : string) :
  Py.truthy x = true ->
  starts_with_underscore (x +:+ t) = starts_with_underscore x.
Proof. destruct x; [discriminate|reflexivity]. Qed.

Lemma starts_underscore_free (x : string) :
  underscore_free x = true -> starts_with_underscore x = false.
Proof.
  destruct x as [|a x]; [reflexivity|]. unfold underscore_free. simpl.
  intros [Ha _]%andb_true_iff. now apply negb_true_iff in Ha.
Qed.

Lemma ends_cons (a : ascii) (t : string) :
  Py.truthy t = true ->
  ends_with_underscore (String a t) = ends_with_underscore t.
Proof. destruct t; [discriminate|reflexivity]. Qed.

Lemma truthy_app_r (x t : string) :
  Py.truthy t = true -> Py.truthy (x +:+ t) = true.
Proof. destruct x; [now rewrite StrFacts.app_empty_l|reflexivity]. Qed.

Lemma ends_app (x t : string) :
  Py.truthy t = true ->
  ends_with_underscore (x +:+ t) = ends_with_underscore t.
Proof.
  intros Ht. induction x as [|a x IH]; [reflexivity|].
  rewrite StrFacts.app_cons, ends_cons; [exact IH|].
  now apply truthy_app_r.
Qed.

Lemma no_double_app_free (x t : string) :
  underscore_free x = true ->
  no_double_underscore (x +:+ t) = no_double_underscore t.
Proof.
  unfold underscore_free. induction x as [|a x IH]; [reflexivity|].
  simpl. intros [Ha Hx]%andb_true_iff.
  rewrite ?StrFacts.app_cons. simpl.
  apply negb_true_iff in Ha. rewrite Ha. simpl. now apply IH.
Qed.

(** Joining non-empty pieces without underscores gives a tidy string. *)
Lemma tidy_join (ps : list string) :
  Forall (fun x => Py.truthy x = true /\ underscore_free x = true) ps ->
  tidy (Py.join "_" ps) = true /\
  (ps ≠ [] -> Py.truthy (Py.join "_" ps) = true).
Proof.
  intros H. induction H as [|x ps [Hx Hf] Hps IH]; [now split|].
  destruct ps as [|q ps].
  - simpl. split; [|intros _; exact Hx].
    unfold tidy. rewrite (starts_underscore_free x Hf).
    rewrite <- (StrFacts.app_empty_r x) at 1.
    rewrite no_double_app_free by exact Hf. simpl.
    clear -Hf. unfold underscore_free in Hf.
    induction x as [|a x IH]; [reflexivity|]. simpl in Hf.
    apply andb_true_iff in Hf as [Ha Hx]. specialize (IH Hx).
    destruct x; [|exact IH]. simpl. apply negb_true_iff in Ha.
    unfold is_underscore in *. now rewrite Ha.
  - destruct IH as [IH Ht]. specialize (Ht ltac:(discriminate)).
    rewrite join_cons_cons. split; [|now destruct x].
    unfold tidy in *.
    apply andb_true_iff in IH as [[Hnd Hst]%andb_true_iff Hen].
    rewrite starts_app by exact Hx.
    rewrite (starts_underscore_free x Hf).
    rewrite no_double_app_free by exact Hf.
    rewrite ends_app by reflexivity.
    set (j := Py.join "_" (q :: ps)) in *.
    change ("_" +:+ j) with (String U j).
    rewrite ends_cons by exact Ht. rewrite Hen.
    simpl. rewrite Hnd. apply negb_true_iff in Hst. now rewrite Hst.
Qed.

(** In a string without doubled or trailing underscore only the first
    piece can be empty, and it is empty exactly when the string is empty
    or starts with an underscore. *)
Lemma split_pieces (s : string) :
  no_double_underscore s = true -> ends_with_underscore s = false ->
  Forall (fun x => Py.truthy x = true) (tail (Py.split U s)) /\
  Py.truthy (hd EmptyString (Py.split U s))
  = negb (starts_with_underscore s) && Py.truthy s.
Proof.
  induction s as [|a s IH]; [now split|].
  intros Hnd Hen. simpl in Hnd.
  apply andb_true_iff in Hnd as [Ha Hnd].
  assert (Hen' : Py.truthy s = true -> ends_with_underscore s = false).
  { intros Ht. now rewrite <- (ends_cons a s Ht). }
  simpl Py.split.
  destruct (Ascii.eqb a U) eqn:HaU.
  - unfold is_underscore in Ha. rewrite HaU in Ha. simpl in Ha.
    apply negb_true_iff in Ha.
    destruct s as [|b s];
      [simpl in Hen; unfold is_underscore in Hen; congruence|].
    destruct (IH Hnd (Hen' eq_refl)) as [Htl Hhd].
    cbn [tail hd starts_with_underscore Py.truthy].
    unfold is_underscore at 1. rewrite HaU. split; [|reflexivity].
    pose proof (split_not_nil (String b s)) as Hne.
    destruct (Py.split U (String b s)) as [|w ws]; [contradiction|].
    cbn [tail hd] in *. constructor; [|exact Htl].
    rewrite Hhd, Ha. reflexivity.
  - assert (He : ends_with_underscore s = false).
    { destruct s as [|b s]; [reflexivity|]. now apply Hen'. }
    destruct (IH Hnd He) as [Htl Hhd].
    pose proof (split_not_nil s) as Hne.
    destruct (Py.split U s) as [|w ws]; [contradiction|].
    cbn [tail hd starts_with_underscore Py.truthy] in *.
    unfold is_underscore. rewrite HaU. now split.
Qed.

Lemma filter_none_all (ps : list string) :
  Forall (fun x => Py.truthy x = true) ps -> Py.filter_none ps = ps.
Proof.
  intros H. induction H as [|x ps Hx _ IH]; [reflexivity|].
  unfold Py.filter_none in *. simpl. now rewrite Hx, IH.
Qed.

(** Collapsing leaves a tidy string alone. *)
Lemma collapse_tidy (s : string) :
  tidy s = true ->
  Py.join "_" (Py.filter_none (Py.split U s)) = s.
Proof.
  unfold tidy. intros [[Hnd Hst]%andb_true_iff Hen]%andb_true_iff.
  apply negb_true_iff in Hst, Hen.
  destruct s as [|a s]; [reflexivity|].
  destruct (split_pieces _ Hnd Hen) as [Htl Hhd].
  rewrite Hst in Hhd. cbn [negb andb Py.truthy] in Hhd.
  rewrite filter_none_all; [apply join_split|].
  pose proof (split_not_nil (String a s)) as Hne.
  destruct (Py.split U (String a s)) as [|w ws]; [contradiction|].
  now constructor.
Qed.


(** *** Lengths *)

Lemma length_join (ps : list string) :
  String.length (Py.join "_" ps) = pred (weight ps).
Proof.
  induction ps as [|x ps IH]; [reflexivity|].
  destruct ps as [|q ps].
  - unfold weight. simpl. lia.
  - rewrite join_cons_cons, !StrFacts.length_app, IH.
    unfold weight. simpl. lia.
Qed.

Lemma weight_filter_none (ps : list string) :
  weight (Py.filter_none ps) <= weight ps /\
  (In EmptyString ps -> weight (Py.filter_none ps) < weight ps).
Proof.
  unfold weight, Py.filter_none.
  induction ps as [|x ps [IH1 IH2]]; simpl; [split; [lia|tauto]|].
  destruct x as [|a x]; simpl.
  - split; [lia|]. intros _. lia.
  - split; [lia|]. intros [H|H]; [discriminate|]. specialize (IH2 H). lia.
Qed.

Lemma weight_length (ps : list string) : length ps <= weight ps.
Proof.
  unfold weight. induction ps as [|x ps IH]; simpl; lia.
Qed.

(** Collapsing never lengthens, and shortens a string that has an empty
    piece. *)
Lemma length_collapse (s : string) :
  String.length (Py.join "_" (Py.filter_none (Py.split U s)))
  <= String.length s.
Proof.
  rewrite <- (join_split s) at 2. rewrite !length_join.
  pose proof (weight_filter_none (Py.split U s)) as [H _]. lia.
Qed.

Lemma length_collapse_lt (s : string) :
  In EmptyString (Py.split U s) -> 2 <= length (Py.split U s) ->
  String.length (Py.join "_" (Py.filter_none (Py.split U s)))
  < String.length s.
Proof.
  intros Hin Hlen.
  rewrite <- (join_split s) at 2. rewrite !length_join.
  pose proof (weight_filter_none (Py.split U s)) as [_ H].
  specialize (H Hin).
  pose proof (weight_length (Py.split U s)). lia.
Qed.

Lemma split_leading (s : string) :
  starts_with_underscore s = true ->
  In EmptyString (Py.split U s) /\ 2 <= length (Py.split U s).
Proof.
  destruct s as [|a s]; [discriminate|]. simpl. unfold is_underscore.
  intros ->. pose proof (split_not_nil s) as Hne.
  destruct (Py.split U s); [contradiction|]. simpl. split; [now left|lia].
Qed.

Lemma split_trailing (s : string) :
  ends_with_underscore s = true ->
  last (Py.split U s) = Some EmptyString /\ 2 <= length (Py.split U s).
Proof.
  induction s as [|a s IH]; [discriminate|].
  destruct s as [|b s].
  - simpl. unfold is_underscore. intros ->. split; [reflexivity|simpl; lia].
  - intros H. rewrite ends_cons in H by reflexivity.
    destruct (IH H) as [Hlast Hlen].
    simpl Py.split in *. clear IH H.
    set (rest := if Ascii.eqb b U then _ else _) in *.
    destruct rest as [|w [|w' ws]]; [simpl in Hlen; lia..|].
    destruct (Ascii.eqb a U); (split; [exact Hlast|simpl; lia]).
Qed.

Lemma split_trailing_in (s : string) :
  ends_with_underscore s = true ->
  In EmptyString (Py.split U s) /\ 2 <= length (Py.split U s).
Proof.
  intros [Hlast Hlen]%split_trailing. split; [|exact Hlen].
  apply list_elem_of_In. now apply last_Some_elem_of.
Qed.

(** *** The source-level tests for an underscore at either end *)

Lemma startswith_underscore (s : string) :
  Py.startswith s "_" = starts_with_underscore s.
Proof.
  destruct s as [|a s]; [reflexivity|]. unfold Py.startswith.
  change (String.prefix "_" (String a s))
    with (if ascii_dec U a then String.prefix EmptyString s else false).
  destruct (ascii_dec U a) as [<-|Hne]; [now destruct s|].
  symmetry. unfold starts_with_underscore, is_underscore.
  apply Ascii.eqb_neq. congruence.
Qed.

Lemma endswith_underscore (s : string) :
  Py.endswith s "_" = ends_with_underscore s.
Proof.
  induction s as [|a s IH]; [reflexivity|].
  rewrite PhaseFacts.endswith_unfold.
  destruct s as [|b s].
  - simpl. unfold is_underscore. now destruct (Ascii.eqb a U).
  - rewrite ends_cons by reflexivity. rewrite <- IH.
    replace (String.eqb (String a (String b s)) "_") with false;
      [reflexivity|].
    simpl. now destruct (Ascii.eqb a U).
Qed.

(** *** The sanitizer as a whole *)

Lemma sanitize_unfold (s : string) :
  Renamer.sanitize_filename s =
  Py.strip (Py.join "_" (Py.filter_none
                           (Py.split U (map_chars substitute s)))).
Proof. unfold Renamer.sanitize_filename. now rewrite replace_loop_map. Qed.

(** A sanitized name has only characters that the replacement loop
    keeps, has no doubled underscore, and is stripped. *)
Lemma sanitize_shape (s : string) :
  let t := Renamer.sanitize_filename s in
  all_chars kept t = true /\ no_double_underscore t = true /\ Py.strip t = t.
Proof.
  intros t. unfold t. rewrite sanitize_unfold.
  set (ps := Py.filter_none (Py.split U (map_chars substitute s))).
  assert (Hkept : Forall (fun x => all_chars kept x = true) ps).
  { apply Forall_filter_none, all_chars_split, all_kept_map_chars. }
  assert (Hps : Forall (fun x => Py.truthy x = true
                                 /\ underscore_free x = true) ps).
  { apply List.Forall_forall. intros x Hx. unfold ps in Hx.
    apply filter_In in Hx as [Hx Ht]. split; [exact Ht|].
    pose proof (split_underscore_free (map_chars substitute s)) as Hf.
    rewrite List.Forall_forall in Hf. now apply Hf. }
  apply tidy_join in Hps as [Htidy _]. unfold tidy in Htidy.
  apply andb_true_iff in Htidy as [[Hnd _]%andb_true_iff _].
  unfold Py.strip, Py.strip_by. split; [|split].
  - apply all_chars_lstrip, all_chars_rstrip, all_chars_join;
      [reflexivity|exact Hkept].
  - now apply no_double_lstrip, no_double_rstrip.
  - apply (strip_idem Py.isspace).
Qed.


End SanitizeFacts.

(** C2 (amended): sanitizing a sanitized name returns it unchanged exactly
    when the sanitized name neither starts nor ends with an underscore. *)
Theorem sanitize_idempotent_iff (s : string) :
  let t := Renamer.sanitize_filename s in
  Renamer.sanitize_filename t = t <->
  Py.startswith t "_" = false /\ Py.endswith t "_" = false.
Proof.
  intros t.
  destruct (SanitizeFacts.sanitize_shape s) as (Hkept & Hnd & Hstrip).
  fold t in Hkept, Hnd, Hstrip.
  rewrite SanitizeFacts.startswith_underscore,
    SanitizeFacts.endswith_underscore.
  rewrite (SanitizeFacts.sanitize_unfold t).
  rewrite (SanitizeFacts.map_chars_kept t Hkept).
  split.
  - intros Hfix.
    destruct (Shape.starts_with_underscore t) eqn:Hst.
    + exfalso. apply SanitizeFacts.split_leading in Hst as [Hin Hlen].
      pose proof (SanitizeFacts.length_collapse_lt t Hin Hlen) as Hlt.
      pose proof (SanitizeFacts.length_strip Py.isspace
                    (Py.join "_" (Py.filter_none (Py.split "_" t)))) as Hle.
      unfold Py.strip in Hfix. rewrite Hfix in Hle. lia.
    + split; [reflexivity|].
      destruct (Shape.ends_with_underscore t) eqn:Hen; [exfalso|reflexivity].
      apply SanitizeFacts.split_trailing_in in Hen as [Hin Hlen].
      pose proof (SanitizeFacts.length_collapse_lt t Hin Hlen) as Hlt.
      pose proof (SanitizeFacts.length_strip Py.isspace
                    (Py.join "_" (Py.filter_none (Py.split "_" t)))) as Hle.
      unfold Py.strip in Hfix. rewrite Hfix in Hle. lia.
  - intros [Hst Hen].
    rewrite SanitizeFacts.collapse_tidy; [exact Hstrip|].
    unfold Shape.tidy. now rewrite Hnd, Hst, Hen.
Qed.

(** C2, as stated, fails: a space after an underscore is stripped last and
    leaves a trailing underscore, which a second pass removes. *)
Lemma sanitize_not_idempotent :
  Renamer.sanitize_filename "a_ " = "a_"
  /\ Renamer.sanitize_filename "a_" = "a"
  /\ Renamer.sanitize_filename (Renamer.sanitize_filename "a_ ")
     ≠ Renamer.sanitize_filename "a_ ".
Proof.
  split; [vm_compute; reflexivity|].
  split; [vm_compute; reflexivity|].
  vm_compute. discriminate.
Qed.

(** ** Selection loops *)
Module BestFacts.

Section Loop.

Context {A T : Type}.
Variables (tag : A -> T) (admissible : A -> bool) (score : A -> Z).

Local Abbreviation step := (Best.step tag admissible score).

(** After the loop the score bounds every admissible item; either nothing
    was selected, or the selected item is the first one with that score,
    and its score exceeds the initial one. *)
Lemma fold_step (l : list A) (best : option T) (best_score : Z) :
  let st := fold_left step l (best, best_score) in
  (best_score <= snd st)%Z
  /\ Forall (fun x => admissible x = true -> (score x <= snd st)%Z) l
  /\ (st = (best, best_score)
      \/ exists pre x post,
           l = pre ++ x :: post
           /\ st = (Some (tag x), score x)
           /\ admissible x = true
           /\ (best_score < score x)%Z
           /\ Forall (fun y => admissible y = true -> (score y < score x)%Z)
                pre).
Proof.
  induction l as [|x l IH] using rev_ind; simpl.
  - split; [lia|]. split; [constructor|now left].
  - rewrite fold_left_app. simpl.
    destruct IH as (Hle & Hall & Hcase).
    set (st := fold_left step l (best, best_score)) in *.
    destruct (admissible x) eqn:Hadm;
      [destruct (snd st <? score x)%Z eqn:Hlt|].
    + assert (Hs : step st x = (Some (tag x), score x))
        by (unfold Best.step; now rewrite Hadm, Hlt).
      rewrite Hs. clear Hs.
      apply Z.ltb_lt in Hlt. simpl. split; [lia|]. split.
      * apply Forall_app. split.
        -- eapply Forall_impl; [exact Hall|]. simpl. intros y Hy Ha.
           specialize (Hy Ha). lia.
        -- constructor; [intros _; lia|constructor].
      * right. exists l, x, []. split; [reflexivity|].
        split; [reflexivity|]. split; [exact Hadm|]. split; [lia|].
        eapply Forall_impl; [exact Hall|]. simpl. intros y Hy Ha.
        specialize (Hy Ha). lia.
    + assert (Hs : step st x = st)
        by (unfold Best.step; now rewrite Hadm, Hlt).
      rewrite Hs. clear Hs.
      apply Z.ltb_ge in Hlt. split; [exact Hle|]. split.
      * apply Forall_app. split; [exact Hall|].
        constructor; [intros _; exact Hlt|constructor].
      * destruct Hcase as [Heq|(pre & y & post & -> & Hst & Hy)].
        -- now left.
        -- right. exists pre, y, (post ++ [x]).
           split; [now rewrite <- app_assoc|]. now split.
    + assert (Hs : step st x = st)
        by (unfold Best.step; now rewrite Hadm).
      rewrite Hs. clear Hs.
      split; [exact Hle|]. split.
      * apply Forall_app. split; [exact Hall|].
        constructor; [congruence|constructor].
      * destruct Hcase as [Heq|(pre & y & post & -> & Hst & Hy)].
        -- now left.
        -- right. exists pre, y, (post ++ [x]).
           split; [now rewrite <- app_assoc|]. now split.
Qed.

End Loop.

End BestFacts.

(** ** The confidence arbiter *)
Module ArbiterFacts.

Import Arbiter.

Local Abbreviation step :=
  (Best.step (fst : string * MethodData -> string) (fun _ => true)
     (fun item => confidence (snd item))).

Lemma arbiter_consider_step (st : option string * Z) (item : string * MethodData) :
  consider st item = step st item.
Proof.
  destruct st as [best_method best_confidence], item as [method data].
  unfold consider, Best.step. simpl.
  now destruct (best_confidence <? confidence data)%Z.
Qed.

Lemma best_of_fold (methods : Methods) :
  best_of methods = fold_left step methods (None, 0%Z).
Proof.
  unfold best_of. generalize (@None string, 0%Z).
  induction methods as [|item rest IH]; intros st; simpl; [reflexivity|].
  now rewrite arbiter_consider_step, IH.
Qed.

(** Looking a key up in a dictionary finds the item stored under it. *)
Lemma getitem_middle (pre post : Methods) (key : string) (data : MethodData) :
  NoDup (map fst (pre ++ (key, data) :: post)) ->
  getitem (pre ++ (key, data) :: post) key = Some data.
Proof.
  induction pre as [|[k d] pre IH]; simpl; intros Hnd.
  - now rewrite String.eqb_refl.
  - apply NoDup_cons in Hnd as [Hk Hnd].
    destruct (String.eqb_spec k key) as [->|Hne]; [|now apply IH].
    exfalso. apply Hk. apply list_elem_of_In, in_map_iff.
    exists (key, data). split; [reflexivity|].
    apply in_or_app. right. now left.
Qed.

End ArbiterFacts.

(** C1 (amended): for a dictionary of methods with distinct, non-empty
    names, the final confidence bounds every candidate's confidence; when
    some candidate has a positive confidence, the final fields are those of
    the earliest candidate whose confidence is the greatest (so a
    zero-confidence candidate is never the answer); when every candidate
    has confidence 0 the final fields keep their initial values: empty
    name and confidence 0.  Nothing is said about empty labels. *)
Theorem arbiter_takes_first_maximum (methods : Arbiter.Methods) :
  NoDup (map fst methods) ->
  Forall (fun item => Py.truthy (fst item) = true) methods ->
  let out := Arbiter.arbitrate methods in
  Forall (fun item =>
            (Arbiter.confidence (snd item) <= Arbiter.final_confidence out)%Z)
         methods
  /\ (Forall (fun item => Arbiter.confidence (snd item) = 0%Z) methods ->
      out = Arbiter.initial)
  /\ (Exists (fun item => (0 < Arbiter.confidence (snd item))%Z) methods ->
      exists pre key data post,
        methods = pre ++ (key, data) :: post
        /\ Forall (fun item =>
                     (Arbiter.confidence (snd item)
                      < Arbiter.confidence data)%Z) pre
        /\ (0 < Arbiter.confidence data)%Z
        /\ out = Arbiter.mkFinal (Arbiter.name_of data)
                   (default EmptyString (Arbiter.version data))
                   (default EmptyString (Arbiter.package data))
                   (Arbiter.confidence data)).
Proof.
  intros Hnd Hkeys out. unfold out, Arbiter.arbitrate.
  rewrite ArbiterFacts.best_of_fold.
  pose proof (BestFacts.fold_step
                (fst : string * Arbiter.MethodData -> string)
                (fun _ => true)
                (fun item => Arbiter.confidence (snd item))
                methods None 0%Z) as (Hle & Hall & Hcase).
  simpl in Hle, Hall, Hcase.
  destruct Hcase as [Hst|(pre & [key data] & post & Hm & Hst & _ & Hpos & Hpre)].
  - rewrite Hst in *. simpl in *. split; [|split].
    + eapply Forall_impl; [exact Hall|]. simpl. auto.
    + reflexivity.
    + intros Hex. exfalso. apply Exists_exists in Hex as (item & Hin & Hgt).
      rewrite Forall_forall in Hall. specialize (Hall item Hin eq_refl). lia.
  - rewrite Hst in *. simpl in *.
    assert (Htruthy : Py.truthy key = true).
    { rewrite Forall_forall in Hkeys. apply (Hkeys (key, data)).
      rewrite Hm. apply list_elem_of_In, in_or_app. right. now left. }
    rewrite Htruthy.
    assert (Hget : Arbiter.getitem methods key = Some data).
    { rewrite Hm. apply ArbiterFacts.getitem_middle. now rewrite <- Hm. }
    rewrite Hget. simpl. split; [|split].
    + eapply Forall_impl; [exact Hall|]. simpl. auto.
    + intros Hzero. exfalso. rewrite Forall_forall in Hzero.
      assert (Hin : (key, data) ∈ methods).
      { rewrite Hm. apply list_elem_of_In, in_or_app. right. now left. }
      specialize (Hzero _ Hin). simpl in Hzero. lia.
    + intros _. exists pre, key, data, post. split; [exact Hm|].
      split; [|split; [exact Hpos|reflexivity]].
      eapply Forall_impl; [exact Hpre|]. simpl. auto.
Qed.

Lemma arbiter_takes_first_maximum_witness :
  let methods := Samples.methods_labelled in
  let out := Arbiter.arbitrate methods in
  NoDup (map fst methods)
  /\ Forall (fun item => Py.truthy (fst item) = true) methods
  /\ out = Arbiter.mkFinal "Example" "2.3" "com.example.app" 3
  /\ Forall (fun item =>
               (Arbiter.confidence (snd item)
                <= Arbiter.final_confidence out)%Z) methods.
Proof.
  assert (H1 : NoDup (map fst Samples.methods_labelled)) by compute_done.
  assert (H2 : Forall (fun item => Py.truthy (fst item) = true)
                      Samples.methods_labelled)
    by (repeat constructor).
  split; [exact H1|]. split; [exact H2|]. split; [reflexivity|].
  exact (proj1 (arbiter_takes_first_maximum Samples.methods_labelled H1 H2)).
Defined.

(** C1, as stated, fails for empty labels: when the badging tool reports a
    package but no label, its candidate has confidence 1 and an empty
    label, and it is the final answer although not every candidate has
    confidence 0. *)
Lemma empty_label_candidate_is_final :
  Arbiter.arbitrate Samples.methods_unlabelled
  = Arbiter.mkFinal EmptyString "1.0" "com.example.app" 1
  /\ ~ Forall (fun item => Arbiter.confidence (snd item) = 0%Z)
       Samples.methods_unlabelled.
Proof.
  split; [reflexivity|].
  intros H. apply Forall_cons in H as [H _]. discriminate H.
Qed.

(** ** The icon selector *)
Module IconFacts.

Import Icon.

Local Abbreviation step :=
  (Best.step (fun i : ZipInfo => i) (fun i => negb (is_non_square i)) score).

Lemma icon_consider_step (st : option ZipInfo * Z) (icon_info : ZipInfo) :
  consider st icon_info = step st icon_info.
Proof.
  destruct st as [best_icon best_resolution].
  unfold consider, Best.step, is_non_square, score. simpl.
  destruct (dimensions icon_info) as [[width height]|]; [|reflexivity].
  now rewrite negb_involutive.
Qed.

Lemma select_fold (candidates : list ZipInfo) :
  select candidates = fst (fold_left step candidates (None, 0%Z)).
Proof.
  unfold select. f_equal. generalize (@None ZipInfo, 0%Z).
  induction candidates as [|i rest IH]; intros st; simpl; [reflexivity|].
  now rewrite icon_consider_step, IH.
Qed.

(** What is selected: the first candidate of greatest score among those
    that are square or have no parsed dimensions. *)
Lemma select_some (candidates : list ZipInfo) (b : ZipInfo) :
  select candidates = Some b ->
  exists pre post,
    candidates = pre ++ b :: post
    /\ is_non_square b = false
    /\ (0 < score b)%Z
    /\ Forall (fun y => is_non_square y = false -> (score y < score b)%Z) pre
    /\ Forall (fun y => is_non_square y = false -> (score y <= score b)%Z)
         post.
Proof.
  rewrite select_fold.
  pose proof (BestFacts.fold_step (fun i : ZipInfo => i)
                (fun i => negb (is_non_square i)) score candidates None 0%Z)
    as (_ & Hall & Hcase).
  simpl in Hall, Hcase.
  destruct Hcase as [Hst|(pre & x & post & Hc & Hst & Hadm & Hpos & Hpre)];
    rewrite Hst in *; simpl; [discriminate|].
  intros [= <-]. exists pre, post. split; [exact Hc|].
  apply negb_true_iff in Hadm. split; [exact Hadm|]. split; [exact Hpos|].
  split.
  - eapply Forall_impl; [exact Hpre|]. simpl. intros y Hy Hn.
    apply Hy. now rewrite Hn.
  - rewrite Hc in Hall. apply Forall_app in Hall as [_ Hall].
    apply Forall_cons in Hall as [_ Hall].
    eapply Forall_impl; [exact Hall|]. simpl. intros y Hy Hn.
    apply Hy. now rewrite Hn.
Qed.

End IconFacts.

(** C4 (amended): the asset selected is never one whose parsed width and
    height differ, whether or not a square asset is among the candidates:
    it is the first candidate of greatest score among those that are
    square or have no parsed dimensions, the score being the resolution
    when dimensions are parsed from the name and the byte size otherwise,
    and its score is positive.  One step of the loop either leaves the
    current best alone or replaces it by the asset considered, whose score
    is then strictly greater than the best value so far.  The same loop is
    in [p_optimized.py] and [p_fixed.py]. *)
Theorem icon_selector_choice (candidates : list Icon.ZipInfo) :
  (forall b, Icon.select candidates = Some b ->
     exists pre post,
       candidates = pre ++ b :: post
       /\ Icon.is_non_square b = false
       /\ (0 < Icon.score b)%Z
       /\ Forall (fun y => Icon.is_non_square y = false ->
                           (Icon.score y < Icon.score b)%Z) pre
       /\ Forall (fun y => Icon.is_non_square y = false ->
                           (Icon.score y <= Icon.score b)%Z) post)
  /\ (forall best_icon best_resolution icon_info,
        Icon.consider (best_icon, best_resolution) icon_info
          = (best_icon, best_resolution)
        \/ (Icon.consider (best_icon, best_resolution) icon_info
              = (Some icon_info, Icon.score icon_info)
            /\ (best_resolution < Icon.score icon_info)%Z
            /\ Icon.is_non_square icon_info = false)).
Proof.
  split.
  - intros b Hb. now apply IconFacts.select_some.
  - intros best_icon best_resolution icon_info.
    unfold Icon.consider, Icon.score, Icon.is_non_square.
    destruct (Icon.dimensions icon_info) as [[width height]|].
    + destruct (width =? height)%Z eqn:Hsq; simpl; [|now left].
      destruct (best_resolution <? width * height)%Z eqn:Hlt; [|now left].
      right. apply Z.ltb_lt in Hlt. auto.
    + destruct (best_resolution <? Icon.file_size icon_info)%Z eqn:Hlt;
        [|now left].
      right. apply Z.ltb_lt in Hlt. auto.
Qed.

(** C4, as stated, fails: an asset without parsed dimensions competes by
    byte size and is selected although a square asset is among the
    candidates. *)
Lemma plain_icon_beats_square_icon :
  Exists (fun i => Icon.is_square i = true) Samples.icons_with_plain
  /\ Icon.select Samples.icons_with_plain
     = Some (Icon.mkZipInfo "Payload/Game.app/icon.png" 5000)
  /\ Icon.is_square (Icon.mkZipInfo "Payload/Game.app/icon.png" 5000)
     = false
  /\ Icon.best_icon_of Samples.icons_with_plain
     = Some (Icon.mkZipInfo "Payload/Game.app/icon.png" 5000).
Proof.
  split; [apply Exists_cons; left; reflexivity|].
  repeat split; reflexivity.
Qed.

(** With dimensions in every name the largest square asset is selected. *)
Example select_largest_square :
  Icon.select Samples.icons
  = Some (Icon.mkZipInfo "Payload/Game.app/AppIcon76x76@2x~ipad.png" 2000).
Proof. reflexivity. Qed.

(** C5 (amended): in the extractor of the renamer and in the
    comprehensive analysis the name is the first non-empty field in the
    order display name, bundle name, executable name; the comprehensive
    analysis then tries the localized display name, the extractor of the
    renamer does not read it.  The confidences are 4, 3, 2 and, for the
    localized name, 3; the extractor of the renamer answers confidence 2
    also when no name is found, the comprehensive analysis answers 0.  The
    version is the short version string, else the build version; the
    package id is the bundle identifier. *)
Theorem bundle_name_priority (info_plist : gmap string string) :
  let field := Extract.get info_plist in
  let version :=
    Py.or_else (field "CFBundleShortVersionString")
               (field "CFBundleVersion") in
  let renamer := Extract.read_info_plist info_plist in
  let comprehensive := Bundle.read_comprehensive info_plist in
  (Extract.name renamer, Extract.confidence renamer)
    = Bundle.first_non_empty
        [(field "CFBundleDisplayName", 4%Z); (field "CFBundleName", 3%Z);
         (field "CFBundleExecutable", 2%Z)] (EmptyString, 2%Z)
  /\ (Extract.name comprehensive, Extract.confidence comprehensive)
    = Bundle.first_non_empty
        [(field "CFBundleDisplayName", 4%Z); (field "CFBundleName", 3%Z);
         (field "CFBundleExecutable", 2%Z);
         (field "CFBundleDisplayNameLocalized", 3%Z)] (EmptyString, 0%Z)
  /\ Extract.version renamer = version
  /\ Extract.version comprehensive = version
  /\ Extract.package renamer = field "CFBundleIdentifier"
  /\ Extract.package comprehensive = field "CFBundleIdentifier".
Proof.
  intros field version renamer comprehensive.
  unfold renamer, comprehensive, version, Extract.read_info_plist,
    Bundle.read_comprehensive, Bundle.best_name_comprehensive, Py.or_else.
  fold field. simpl.
  destruct (field "CFBundleDisplayName") as [|a1 s1];
    destruct (field "CFBundleName") as [|a2 s2];
    destruct (field "CFBundleExecutable") as [|a3 s3];
    destruct (field "CFBundleDisplayNameLocalized") as [|a4 s4];
    destruct (field "CFBundleShortVersionString") as [|a5 s5];
    destruct (field "CFBundleVersion") as [|a6 s6];
    simpl; repeat split; reflexivity.
Qed.

(** C5, as stated, fails: with a localized display name and a bundle name
    the specified order answers the localized name, both readers answer
    the bundle name. *)
Lemma localized_name_is_not_preferred :
  Bundle.specified_name Samples.localized_plist = ("Spiel", 3%Z)
  /\ Extract.name (Extract.read_info_plist Samples.localized_plist) = "Game"
  /\ Extract.name (Bundle.read_comprehensive Samples.localized_plist)
     = "Game".
Proof. repeat split; vm_compute; reflexivity. Qed.

(** ** The extractors *)
Module ExtractFacts.

Import Extract.

Lemma scan_package_line (label package version : string) :
  scan_line (label, package, version) Samples.package_line
  = Some (label, "com.example.app", "2.3").
Proof. reflexivity. Qed.

Lemma scan_label_line (label package version : string) :
  scan_line (label, package, version) Samples.label_line
  = Some ("Example", package, version).
Proof. reflexivity. Qed.

Lemma scan_other_line (st : string * string * string) (line : string) :
  Py.startswith line "package:" = false ->
  Py.startswith line "application-label:" = false ->
  scan_line st line = Some st.
Proof.
  intros H1 H2. destruct st as [[label package] version].
  unfold scan_line. now rewrite H1, H2.
Qed.

Lemma scan_scenario_lines (lines : list string)
    (label package version : string) :
  Samples.only_scenario_lines lines ->
  fold_raise scan_line (label, package, version) lines =
  Some (if existsb (String.eqb Samples.label_line) lines
        then "Example" else label,
        if existsb (String.eqb Samples.package_line) lines
        then "com.example.app" else package,
        if existsb (String.eqb Samples.package_line) lines
        then "2.3" else version).
Proof.
  revert label package version.
  induction lines as [|l rest IH]; intros label package version [Hp Hl];
    [reflexivity|].
  assert (Hrest : Samples.only_scenario_lines rest).
  { split; intros x Hx; [apply Hp|apply Hl]; now right. }
  cbn [fold_raise existsb].
  destruct (String.eqb_spec Samples.package_line l) as [<-|Hnp].
  - rewrite scan_package_line, IH by exact Hrest.
    change (String.eqb Samples.label_line Samples.package_line) with false.
    cbn [orb].
    destruct (existsb (String.eqb Samples.package_line) rest); reflexivity.
  - destruct (String.eqb_spec Samples.label_line l) as [<-|Hnl].
    + rewrite scan_label_line, IH by exact Hrest. cbn [orb].
      destruct (existsb (String.eqb Samples.label_line) rest); reflexivity.
    + rewrite scan_other_line, IH; [reflexivity|exact Hrest| |].
      * destruct (Py.startswith l "package:") eqn:H; [|reflexivity].
        exfalso. apply Hnp. symmetry. apply Hp; [now left|exact H].
      * destruct (Py.startswith l "application-label:") eqn:H; [|reflexivity].
        exfalso. apply Hnl. symmetry. apply Hl; [now left|exact H].
Qed.

Lemma existsb_eqb_In (x : string) (lines : list string) :
  In x lines -> existsb (String.eqb x) lines = true.
Proof.
  intros H. apply existsb_exists. exists x. split; [exact H|].
  apply String.eqb_refl.
Qed.

(** A package file has one extension only. *)
Lemma ipa_is_not_apk (s : string) :
  Py.endswith s ".ipa" = true -> Py.endswith s ".apk" = false.
Proof.
  induction s as [|a s IH]; [discriminate|].
  rewrite !(PhaseFacts.endswith_unfold (String a s)).
  destruct (String.eqb_spec (String a s) ".ipa") as [Heq|Hipa];
    [injection Heq as -> ->; reflexivity|].
  intros H. specialize (IH H).
  destruct (String.eqb_spec (String a s) ".apk") as [Heq|_]; [|exact IH].
  injection Heq as -> ->. discriminate H.
Qed.

Lemma find_main_single (entry : string) :
  find_main_info_file [entry] = Some entry.
Proof.
  unfold find_main_info_file. simpl.
  destruct (is_main_candidate entry); [reflexivity|].
  now destruct (is_app_candidate entry).
Qed.

End ExtractFacts.

(** C6: an Android file whose badging output contains the package line and
    the label line of the scenario, and no other line with either prefix,
    is resolved to label Example, version 2.3, package com.example.app with
    confidence 3; when that name is free in the registry and the rename
    call succeeds, the file is renamed to "Example v2.3.apk". *)
Theorem android_scenario (title : string -> string)
    (rename_allowed : nat -> bool) (world : string -> Renamer.FileInfo)
    (st : Renamer.State) (file_path text : string) (size : Z) :
  Py.endswith file_path ".apk" = true ->
  Renamer.getsize (world file_path) = Some size ->
  Renamer.badging (world file_path) = Some text ->
  In Samples.package_line (Py.splitlines text) ->
  In Samples.label_line (Py.splitlines text) ->
  Samples.only_scenario_lines (Py.splitlines text) ->
  "Example v2.3.apk" ∉ Renamer.existing_files st ->
  rename_allowed (Renamer.calls st) = true ->
  file_path ∈ Renamer.directory st ->
  let r := Renamer.mkResult file_path "Example" "2.3" "com.example.app"
             size 3 Renamer.valid in
  Renamer.process_file world file_path = Some r
  /\ exists st',
       Renamer.rename_one title rename_allowed st r
         = (st', Renamer.set_file r "Example v2.3.apk",
            Some "Example v2.3.apk")
       /\ "Example v2.3.apk" ∈ Renamer.directory st'.
Proof.
  intros Hapk Hsize Hbadging Hpkg Hlabel Honly Hfree Hok Hdir r. split.
  - unfold Renamer.process_file. rewrite Hsize, Hapk, Hbadging.
    unfold Extract.extract_apk_metadata, Extract.scan_lines.
    rewrite (ExtractFacts.scan_scenario_lines _ _ _ _ Honly).
    rewrite !ExtractFacts.existsb_eqb_In by assumption. reflexivity.
  - assert (Hname : Renamer.versioned_name title r
                    +:+ Renamer.extension_of r = "Example v2.3.apk").
    { unfold Renamer.extension_of. simpl Renamer.file. rewrite Hapk.
      reflexivity. }
    destruct (PhaseFacts.rename_one_free title rename_allowed st r)
      as (st' & Hone & Hin & _); rewrite ?Hname; try assumption;
      try reflexivity.
    rewrite Hname in Hone, Hin. exists st'. split; assumption.
Qed.

(** C9: an Apple file whose only metadata bundle has an empty display
    name, the bundle name Widgets and no version keys is resolved to label
    Widgets with an empty version; when that name is free in the registry
    and the rename call succeeds, the file is renamed to
    "Widgets v1.0.ipa". *)
Theorem apple_scenario (title : string -> string)
    (rename_allowed : nat -> bool) (world : string -> Renamer.FileInfo)
    (st : Renamer.State) (file_path entry : string) (size : Z)
    (zip_ref : Extract.Archive) (info_plist : gmap string string) :
  Py.endswith file_path ".ipa" = true ->
  Renamer.getsize (world file_path) = Some size ->
  Renamer.archive (world file_path) = Some zip_ref ->
  List.filter (fun f => Py.endswith f "Info.plist")
    (Extract.namelist zip_ref) = [entry] ->
  Extract.load_plist zip_ref entry = Some info_plist ->
  info_plist !! "CFBundleDisplayName" = Some EmptyString ->
  info_plist !! "CFBundleName" = Some "Widgets" ->
  info_plist !! "CFBundleShortVersionString" = None ->
  info_plist !! "CFBundleVersion" = None ->
  "Widgets v1.0.ipa" ∉ Renamer.existing_files st ->
  rename_allowed (Renamer.calls st) = true ->
  file_path ∈ Renamer.directory st ->
  let r := Renamer.mkResult file_path "Widgets" EmptyString
             (Extract.get info_plist "CFBundleIdentifier") size 3
             Renamer.valid in
  Renamer.process_file world file_path = Some r
  /\ exists st',
       Renamer.rename_one title rename_allowed st r
         = (st', Renamer.set_file r "Widgets v1.0.ipa",
            Some "Widgets v1.0.ipa")
       /\ "Widgets v1.0.ipa" ∈ Renamer.directory st'.
Proof.
  intros Hipa Hsize Harchive Hentries Hload Hdisplay Hname Hshort Hbuild
    Hfree Hok Hdir r.
  pose proof (ExtractFacts.ipa_is_not_apk _ Hipa) as Hapk. split.
  - unfold Renamer.process_file. rewrite Hsize, Hapk, Hipa, Harchive.
    unfold Extract.extract_ipa_metadata.
    rewrite Hentries, ExtractFacts.find_main_single, Hload.
    unfold Extract.read_info_plist, Extract.get.
    rewrite Hdisplay, Hname, Hshort, Hbuild. reflexivity.
  - assert (Htarget : Renamer.versioned_name title r
                      +:+ Renamer.extension_of r = "Widgets v1.0.ipa").
    { unfold Renamer.extension_of. simpl Renamer.file. rewrite Hapk.
      reflexivity. }
    destruct (PhaseFacts.rename_one_free title rename_allowed st r)
      as (st' & Hone & Hin & _); rewrite ?Htarget; try assumption;
      try reflexivity.
    rewrite Htarget in Hone, Hin. exists st'. split; assumption.
Qed.

Lemma android_scenario_witness :
  let st := Renamer.mkState {["download.apk"]} {["download.apk"]} 0 in
  let r := Renamer.mkResult "download.apk" "Example" "2.3" "com.example.app"
             1234 3 Renamer.valid in
  Py.endswith "download.apk" ".apk" = true
  /\ In Samples.package_line (Py.splitlines Samples.example_badging)
  /\ In Samples.label_line (Py.splitlines Samples.example_badging)
  /\ Samples.only_scenario_lines (Py.splitlines Samples.example_badging)
  /\ ("Example v2.3.apk" ∉ Renamer.existing_files st)
  /\ Renamer.process_file Samples.example_world "download.apk" = Some r
  /\ exists st',
       Renamer.rename_one Py.title_ascii Samples.always st r
         = (st', Renamer.set_file r "Example v2.3.apk",
            Some "Example v2.3.apk")
       /\ "Example v2.3.apk" ∈ Renamer.directory st'.
Proof.
  intros st r.
  assert (H1 : Py.endswith "download.apk" ".apk" = true) by reflexivity.
  assert (H2 : In Samples.package_line
                 (Py.splitlines Samples.example_badging))
    by (vm_compute; tauto).
  assert (H3 : In Samples.label_line (Py.splitlines Samples.example_badging))
    by (vm_compute; tauto).
  assert (H4 : Samples.only_scenario_lines
                 (Py.splitlines Samples.example_badging)).
  { split; intros l Hl Hs; vm_compute in Hl;
      repeat (destruct Hl as [<-|Hl]; [try reflexivity; discriminate Hs|]);
      destruct Hl. }
  assert (H5 : "Example v2.3.apk" ∉ Renamer.existing_files st)
    by compute_done.
  assert (H6 : "download.apk" ∈ Renamer.directory st) by compute_done.
  split; [exact H1|]. split; [exact H2|]. split; [exact H3|].
  split; [exact H4|]. split; [exact H5|].
  exact (android_scenario Py.title_ascii Samples.always Samples.example_world
           st "download.apk" Samples.example_badging 1234
           H1 eq_refl eq_refl H2 H3 H4 H5 eq_refl H6).
Defined.

Lemma apple_scenario_witness :
  let st := Renamer.mkState {["widgets-1.ipa"]} {["widgets-1.ipa"]} 0 in
  let r := Renamer.mkResult "widgets-1.ipa" "Widgets" EmptyString
             "com.example.widgets" 250 3 Renamer.valid in
  Py.endswith "widgets-1.ipa" ".ipa" = true
  /\ List.filter (fun f => Py.endswith f "Info.plist")
       (Extract.namelist Samples.widgets_archive)
     = ["Payload/Widgets.app/Info.plist"]
  /\ ("Widgets v1.0.ipa" ∉ Renamer.existing_files st)
  /\ Renamer.process_file Samples.widgets_world "widgets-1.ipa" = Some r
  /\ exists st',
       Renamer.rename_one Py.title_ascii Samples.always st r
         = (st', Renamer.set_file r "Widgets v1.0.ipa",
            Some "Widgets v1.0.ipa")
       /\ "Widgets v1.0.ipa" ∈ Renamer.directory st'.
Proof.
  intros st r.
  assert (H1 : Py.endswith "widgets-1.ipa" ".ipa" = true) by reflexivity.
  assert (H2 : List.filter (fun f => Py.endswith f "Info.plist")
                 (Extract.namelist Samples.widgets_archive)
               = ["Payload/Widgets.app/Info.plist"]) by reflexivity.
  assert (H3 : "Widgets v1.0.ipa" ∉ Renamer.existing_files st)
    by compute_done.
  assert (H4 : "widgets-1.ipa" ∈ Renamer.directory st) by compute_done.
  split; [exact H1|]. split; [exact H2|]. split; [exact H3|].
  exact (apple_scenario Py.title_ascii Samples.always Samples.widgets_world
           st "widgets-1.ipa" "Payload/Widgets.app/Info.plist" 250
           Samples.widgets_archive Samples.widgets_plist
           H1 eq_refl eq_refl H2 eq_refl eq_refl eq_refl eq_refl eq_refl
           H3 eq_refl H4).
Defined.

(** * Further properties of the scripts *)

(** ** Substrings *)
Module SubFacts.

Lemma prefix_cons (a b : ascii) (p s : string) :
  String.prefix (String a p) (String b s)
  = if ascii_dec a b then String.prefix p s else false.
Proof. reflexivity. Qed.

Lemma prefix_empty (s : string) : String.prefix EmptyString s = true.
Proof. now destruct s. Qed.

Lemma prefix_app (p r : string) : String.prefix p (p +:+ r) = true.
Proof.
  induction p as [|a p IH]; [apply prefix_empty|].
  rewrite StrFacts.app_cons, prefix_cons.
  now destruct (ascii_dec a a).
Qed.

Lemma prefix_inv (p s : string) :
  String.prefix p s = true -> exists r, s = p +:+ r.
Proof.
  revert s. induction p as [|a p IH]; intros s H; [now exists s|].
  destruct s as [|b s]; [discriminate|]. rewrite prefix_cons in H.
  destruct (ascii_dec a b) as [<-|]; [|discriminate].
  destruct (IH s H) as [r ->]. now exists r.
Qed.

Lemma contains_unfold (sub s : string) :
  Py.contains sub s =
  if String.prefix sub s then true
  else match s with
       | EmptyString => false
       | String _ s' => Py.contains sub s'
       end.
Proof. destruct s; reflexivity. Qed.

(** [sub in s] holds exactly when [s] is some text, [sub], some text. *)
Lemma contains_intro (a sub b : string) :
  Py.contains sub (a +:+ sub +:+ b) = true.
Proof.
  induction a as [|c a IH]; rewrite contains_unfold.
  - rewrite StrFacts.app_empty_l. now rewrite prefix_app.
  - rewrite StrFacts.app_cons.
    destruct (String.prefix sub _); [reflexivity|exact IH].
Qed.

Lemma contains_inv (sub s : string) :
  Py.contains sub s = true -> exists a b, s = a +:+ sub +:+ b.
Proof.
  induction s as [|c s IH]; rewrite contains_unfold.
  - destruct (String.prefix sub EmptyString) eqn:Hp; [|discriminate].
    intros _. apply prefix_inv in Hp as [r Hr]. now exists EmptyString, r.
  - destruct (String.prefix sub (String c s)) eqn:Hp.
    + intros _. apply prefix_inv in Hp as [r Hr]. now exists EmptyString, r.
    + intros H. destruct (IH H) as (a & b & ->).
      now exists (String c a), b.
Qed.

(** A string that contains [p] contains every substring of [p]. *)
Lemma contains_trans (q p s : string) :
  Py.contains q p = true -> Py.contains p s = true ->
  Py.contains q s = true.
Proof.
  intros (a & b & ->)%contains_inv (c & d & ->)%contains_inv.
  rewrite !StrFacts.app_assoc, <- (StrFacts.app_assoc c a).
  apply contains_intro.
Qed.

Lemma contains_app_r (sub a b : string) :
  Py.contains sub b = true -> Py.contains sub (a +:+ b) = true.
Proof.
  intros (c & d & ->)%contains_inv.
  rewrite <- StrFacts.app_assoc. apply contains_intro.
Qed.

Lemma contains_app_l (sub a b : string) :
  Py.contains sub a = true -> Py.contains sub (a +:+ b) = true.
Proof.
  intros (c & d & ->)%contains_inv.
  rewrite !StrFacts.app_assoc. apply contains_intro.
Qed.

End SubFacts.

(** ** More on the sanitizer *)
Module SanitizeMore.

Import Shape.

Local Abbreviation U := ("_"%char).
Local Abbreviation one c := (String c EmptyString).

Lemma contains_char_cons (c a : ascii) (s : string) :
  Py.contains (one c) (String a s) = Ascii.eqb a c || Py.contains (one c) s.
Proof.
  rewrite SubFacts.contains_unfold, SubFacts.prefix_cons, SubFacts.prefix_empty.
  destruct (ascii_dec c a) as [<-|Hne].
  - now rewrite Ascii.eqb_refl.
  - replace (Ascii.eqb a c) with false; [reflexivity|].
    symmetry. apply Ascii.eqb_neq. congruence.
Qed.

Lemma contains_char_empty (c : ascii) :
  Py.contains (one c) EmptyString = false.
Proof. reflexivity. Qed.

(** No character of [l] occurs in [s]. *)
Lemma free_of_chars (l : list ascii) (s : string) :
  Forall (fun c => Py.contains (one c) s = false) l <->
  all_chars (fun a => negb (existsb (Ascii.eqb a) l)) s = true.
Proof.
  induction s as [|a s IH].
  - split; [reflexivity|]. intros _. apply List.Forall_forall.
    intros c _. apply contains_char_empty.
  - cbn [all_chars]. rewrite andb_true_iff, <- IH, negb_true_iff.
    rewrite !List.Forall_forall. split.
    + intros H. split.
      * destruct (existsb (Ascii.eqb a) l) eqn:He; [|reflexivity].
        apply existsb_exists in He as (c & Hc & Hac).
        specialize (H c Hc). rewrite contains_char_cons, Hac in H.
        discriminate.
      * intros c Hc. specialize (H c Hc).
        rewrite contains_char_cons in H. now apply orb_false_iff in H.
    + intros [Ha Hs] c Hc. rewrite contains_char_cons, (Hs c Hc), orb_false_r.
      destruct (Ascii.eqb a c) eqn:Hac; [|reflexivity].
      rewrite <- Ha. symmetry. apply existsb_exists. eauto.
Qed.

(** The characters the replacement loop keeps are those outside
    [invalid_chars]. *)
Lemma kept_iff (a : ascii) :
  kept a = negb (existsb (Ascii.eqb a) Renamer.invalid_chars).
Proof. destruct a as [[] [] [] [] [] [] [] []]; reflexivity. Qed.

Lemma all_chars_ext (p q : ascii -> bool) (s : string) :
  (forall a, p a = q a) -> all_chars p s = all_chars q s.
Proof.
  intros H. induction s as [|a s IH]; simpl; [reflexivity|].
  now rewrite H, IH.
Qed.

Lemma no_double_contains (s : string) :
  no_double_underscore s = negb (Py.contains "__" s).
Proof.
  induction s as [|a s IH]; [reflexivity|].
  rewrite SubFacts.contains_unfold. cbn [no_double_underscore].
  destruct s as [|b s].
  - rewrite SubFacts.prefix_cons. cbn [starts_with_underscore].
    rewrite andb_false_r. simpl negb at 1.
    destruct (ascii_dec U a); reflexivity.
  - rewrite SubFacts.prefix_cons, SubFacts.prefix_cons, SubFacts.prefix_empty.
    rewrite IH. cbn [starts_with_underscore]. unfold is_underscore.
    destruct (ascii_dec U a) as [<-|Ha].
    + rewrite Ascii.eqb_refl.
      destruct (ascii_dec U b) as [<-|Hb].
      * now rewrite Ascii.eqb_refl.
      * replace (Ascii.eqb b U) with false; [reflexivity|].
        symmetry. apply Ascii.eqb_neq. congruence.
    + replace (Ascii.eqb a U) with false; [reflexivity|].
      symmetry. apply Ascii.eqb_neq. congruence.
Qed.

Lemma starts_map_chars (s : string) :
  starts_with_underscore s = true ->
  starts_with_underscore (map_chars substitute s) = true.
Proof.
  destruct s as [|a s]; [discriminate|]. simpl. unfold is_underscore.
  intros H. apply Ascii.eqb_eq in H. now subst.
Qed.

Lemma ends_map_chars (s : string) :
  ends_with_underscore s = true ->
  ends_with_underscore (map_chars substitute s) = true.
Proof.
  induction s as [|a s IH]; [discriminate|].
  destruct s as [|b s].
  - simpl. unfold is_underscore. intros H. apply Ascii.eqb_eq in H.
    now subst.
  - intros H. rewrite SanitizeFacts.ends_cons in H by reflexivity.
    change (map_chars substitute (String a (String b s)))
      with (String (substitute a) (map_chars substitute (String b s))).
    rewrite SanitizeFacts.ends_cons by reflexivity. now apply IH.
Qed.

Lemma length_sanitize (s : string) :
  String.length (Renamer.sanitize_filename s) <= String.length s.
Proof.
  rewrite SanitizeFacts.sanitize_unfold.
  etransitivity; [apply SanitizeFacts.length_strip|].
  etransitivity; [apply SanitizeFacts.length_collapse|].
  now rewrite SanitizeFacts.length_map_chars.
Qed.

(** An underscore at either end is always removed. *)
Lemma length_sanitize_lt (s : string) :
  starts_with_underscore s = true \/ ends_with_underscore s = true ->
  String.length (Renamer.sanitize_filename s) < String.length s.
Proof.
  intros H. rewrite SanitizeFacts.sanitize_unfold.
  eapply Nat.le_lt_trans; [apply SanitizeFacts.length_strip|].
  rewrite <- (SanitizeFacts.length_map_chars substitute s).
  destruct H as [H|H].
  - apply starts_map_chars, SanitizeFacts.split_leading in H as [Hin Hlen].
    now apply SanitizeFacts.length_collapse_lt.
  - apply ends_map_chars, SanitizeFacts.split_trailing_in in H as [Hin Hlen].
    now apply SanitizeFacts.length_collapse_lt.
Qed.

End SanitizeMore.

(** X1: a sanitized name contains none of the reserved characters. *)
Theorem sanitize_removes_reserved (s : string) :
  Forall (fun char =>
            Py.contains (String char EmptyString)
              (Renamer.sanitize_filename s) = false)
         Renamer.invalid_chars.
Proof.
  apply SanitizeMore.free_of_chars.
  destruct (SanitizeFacts.sanitize_shape s) as (Hkept & _).
  rewrite <- Hkept. symmetry. apply SanitizeMore.all_chars_ext.
  apply SanitizeMore.kept_iff.
Qed.

(** X2: a sanitized name has no two underscores in a row and no white
    space at either end. *)
Theorem sanitize_collapses_and_trims (s : string) :
  let t := Renamer.sanitize_filename s in
  Py.contains "__" t = false /\ Py.strip t = t.
Proof.
  intros t. destruct (SanitizeFacts.sanitize_shape s) as (_ & Hnd & Hstrip).
  fold t in Hnd, Hstrip. split; [|exact Hstrip].
  rewrite SanitizeMore.no_double_contains in Hnd.
  now apply negb_true_iff in Hnd.
Qed.

(** X3: sanitizing never lengthens a name. *)
Theorem sanitize_never_lengthens (s : string) :
  String.length (Renamer.sanitize_filename s) <= String.length s.
Proof. apply SanitizeMore.length_sanitize. Qed.

(** X4: the names that the sanitizer returns unchanged are exactly those
    with no reserved character, no two underscores in a row, no underscore
    and no white space at either end. *)
Theorem sanitize_fixed_points (s : string) :
  Renamer.sanitize_filename s = s <->
  Forall (fun char => Py.contains (String char EmptyString) s = false)
         Renamer.invalid_chars
  /\ Py.contains "__" s = false
  /\ Py.startswith s "_" = false
  /\ Py.endswith s "_" = false
  /\ Py.strip s = s.
Proof.
  rewrite SanitizeFacts.startswith_underscore,
    SanitizeFacts.endswith_underscore.
  split.
  - intros Hfix.
    destruct (SanitizeFacts.sanitize_shape s) as (Hkept & Hnd & Hstrip).
    rewrite Hfix in Hkept, Hnd, Hstrip.
    split; [|split; [|split; [|split]]].
    + apply SanitizeMore.free_of_chars. rewrite <- Hkept. symmetry.
      apply SanitizeMore.all_chars_ext, SanitizeMore.kept_iff.
    + rewrite SanitizeMore.no_double_contains in Hnd.
      now apply negb_true_iff in Hnd.
    + destruct (Shape.starts_with_underscore s) eqn:H; [|reflexivity].
      pose proof (SanitizeMore.length_sanitize_lt s (or_introl H)) as Hlt.
      rewrite Hfix in Hlt. lia.
    + destruct (Shape.ends_with_underscore s) eqn:H; [|reflexivity].
      pose proof (SanitizeMore.length_sanitize_lt s (or_intror H)) as Hlt.
      rewrite Hfix in Hlt. lia.
    + exact Hstrip.
  - intros (Hfree & Hnd & Hst & Hen & Hstrip).
    apply SanitizeMore.free_of_chars in Hfree.
    rewrite SanitizeFacts.sanitize_unfold.
    rewrite SanitizeFacts.map_chars_kept.
    + rewrite SanitizeFacts.collapse_tidy; [exact Hstrip|].
      unfold Shape.tidy. rewrite SanitizeMore.no_double_contains, Hnd, Hst, Hen.
      reflexivity.
    + rewrite <- Hfree. apply SanitizeMore.all_chars_ext,
        SanitizeMore.kept_iff.
Qed.

(** ** More on the registry and the renaming phase *)
Module PhaseMore.

Import Renamer.

(** With the unnumbered name and the numbered names below [j] taken, and
    the numbered names from [j] on free, the name found is number [j]. *)
Lemma get_unique_filename_next (base_name extension : string)
    (existing : gset string) (j : nat) :
  1 <= j ->
  base_name +:+ extension ∈ existing ->
  (forall m, 1 <= m < j -> numbered base_name extension m ∈ existing) ->
  (numbered base_name extension j ∉ existing) ->
  get_unique_filename base_name extension existing
  = numbered base_name extension j.
Proof.
  intros Hj Horig Hbelow Hfree.
  pose proof (PhaseFacts.get_unique_filename_loop base_name extension
                existing) as H.
  apply RegistryFacts.unique_loop_some in H
    as [Hr [[Hout _]|[_ (n & Hn & Heq & Hlow)]]]; [contradiction|].
  rewrite Heq in *.
  destruct (Nat.lt_trichotomy n j) as [Hlt|[->|Hgt]]; [|reflexivity|].
  - exfalso. apply Hr, Hbelow. lia.
  - exfalso. apply Hfree, Hlow. lia.
Qed.

Section Phase.

Variable title : string -> string.
Variable rename_allowed : nat -> bool.

Local Abbreviation one := (rename_one title rename_allowed).
Local Abbreviation phase := (rename_phase title rename_allowed).
Local Abbreviation retry := (retry_loop rename_allowed).

Lemma assigned_names_numbered (base_name extension : string)
    (results : list Result) (existing : gset string) (j : nat) :
  Forall (Batch.same_request title base_name extension) results ->
  1 <= j ->
  base_name +:+ extension ∈ existing ->
  (forall m, 1 <= m < j -> numbered base_name extension m ∈ existing) ->
  (forall n, j <= n -> numbered base_name extension n ∉ existing) ->
  assigned_names title existing results
  = map (numbered base_name extension) (seq j (length results)).
Proof.
  intros Hall. revert existing j.
  induction Hall as [|r rest (Hel & Hbase & Hext) _ IH];
    intros existing j Hj Horig Hbelow Hfree; [reflexivity|].
  cbn [assigned_names length seq map]. unfold target_of.
  rewrite Hel, Hbase, Hext.
  rewrite (get_unique_filename_next base_name extension existing j)
    by auto.
  f_equal. apply IH; [lia|set_solver| |].
  - intros m Hm. destruct (decide (m = j)) as [->|Hne]; [set_solver|].
    apply elem_of_union_r, Hbelow. lia.
  - intros n Hn Hin. apply elem_of_union in Hin as [Hin|Hin].
    + apply elem_of_singleton in Hin.
      apply RegistryFacts.numbered_inj in Hin. lia.
    + apply (Hfree n); [lia|exact Hin].
Qed.

(** The retry loop makes at most one call per attempt; it either leaves
    the directory alone or moves the file to its new name. *)
Lemma retry_loop_effect (attempts : list nat) (st st' : State)
    (r r' : Result) (new_filename : string) :
  retry attempts st r new_filename = (st', r') ->
  calls st <= calls st' <= calls st + length attempts
  /\ ((directory st' = directory st /\ file r' = file r)
      \/ (file r ∈ directory st
          /\ directory st' = {[new_filename]} ∪ (directory st ∖ {[file r]})
          /\ file r' = new_filename)).
Proof.
  revert st r. induction attempts as [|a rest IH]; intros st r H; simpl in H.
  - injection H as <- <-. split; [simpl; lia|]. now left.
  - unfold os_rename in H.
    destruct (rename_allowed (calls st)) eqn:Hok; simpl in H.
    + destruct (bool_decide (file r ∈ directory st)) eqn:Hin.
      * injection H as <- <-. simpl. split; [lia|]. right.
        apply bool_decide_eq_true in Hin. auto.
      * destruct (a <? _); apply IH in H; simpl in H;
          (split; [simpl; lia|tauto]).
    + destruct (a <? _); apply IH in H; simpl in H;
        (split; [simpl; lia|tauto]).
Qed.

Lemma rename_one_effect (st st' : State) (r r' : Result)
    (target : option string) :
  one st r = (st', r', target) ->
  Batch.registered st ->
  Batch.registered st'
  /\ size (directory st') = size (directory st)
  /\ calls st <= calls st' <= calls st + max_retries
  /\ ((directory st' = directory st /\ file r' = file r)
      \/ (exists t, file r ∈ directory st /\ (t ∉ directory st)
          /\ directory st' = {[t]} ∪ (directory st ∖ {[file r]})
          /\ file r' = t)).
Proof.
  intros H Hreg.
  pose proof (PhaseFacts.rename_one_registry title rename_allowed _ _ _ _ _ H)
    as (Hex & Htgt & _).
  unfold rename_one in H. destruct (eligible r).
  - set (t := get_unique_filename _ _ _) in *.
    assert (Htdir : t ∉ directory st).
    { destruct target as [t'|].
      - destruct (Htgt t' eq_refl) as [Hfresh Hpkg].
        assert (t' = t) as ->.
        { destruct (bool_decide _) in H;
            [destruct (retry_loop _ _ _ _) in H|]; now injection H. }
        intros Hin. apply Hfresh, Hreg; assumption.
      - destruct (bool_decide _) in H;
          [destruct (retry_loop _ _ _ _) in H|]; discriminate H. }
    destruct (bool_decide (file r ≠ t)).
    + destruct (retry_loop _ _ _ _) as [st1 r1] eqn:Hr.
      injection H as <- <- <-.
      apply retry_loop_effect in Hr as (Hcalls & Hdir). simpl in Hcalls, Hdir.
      rewrite ?length_seq in Hcalls. unfold max_retries.
      destruct Hdir as [[Hd Hf]|(Hin & Hd & Hf)].
      * split; [|split; [now rewrite Hd|split; [exact Hcalls|now left]]].
        intros f Hfd Hp. rewrite Hex. rewrite Hd in Hfd.
        apply elem_of_union_r. now apply Hreg.
      * split; [|split; [|split; [exact Hcalls|]]].
        -- intros f Hfd Hp. rewrite Hex, Hd in *. simpl.
           apply elem_of_union in Hfd as [Hfd|Hfd]; [set_solver|].
           apply elem_of_union_r, Hreg; [set_solver|exact Hp].
        -- rewrite Hd.
           rewrite (size_union (C:=gset string) {[t]}
                      (directory st ∖ {[file r]})) by set_solver.
           assert (Hsplit : directory st
                            = {[file r]} ∪ (directory st ∖ {[file r]})).
           { apply set_eq. intros x. destruct (decide (x = file r)); set_solver. }
           rewrite Hsplit at 2.
           rewrite (size_union (C:=gset string) {[file r]}
                      (directory st ∖ {[file r]})) by set_solver.
           now rewrite !(size_singleton (C:=gset string)).
        -- right. exists t. auto.
    + injection H as <- <- <-. simpl.
      split; [|split; [reflexivity|split; [lia|now left]]].
      intros f Hfd Hp. simpl. apply elem_of_union_r. now apply Hreg.
  - injection H as <- <- <-.
    split; [exact Hreg|]. split; [reflexivity|]. split; [lia|now left].
Qed.

(** The whole phase keeps the directory as large as it was, makes a
    bounded number of calls, and only ever removes the names of the files
    it processes. *)
Lemma rename_phase_effect (results : list Result) (st st' : State)
    (rename_results : list Result) (targets : list string) :
  phase st results = (st', rename_results, targets) ->
  Batch.registered st ->
  Batch.registered st'
  /\ size (directory st') = size (directory st)
  /\ calls st <= calls st' <= calls st + max_retries * length results
  /\ (forall x, x ∈ directory st -> ~ In x (map file results) ->
        x ∈ directory st').
Proof.
  revert st st' rename_results targets.
  induction results as [|r rest IH]; intros st st' rr ts H Hreg; simpl in H.
  - injection H as <- <- <-. simpl. repeat split; auto; lia.
  - destruct (one st r) as [[st1 r1] tgt] eqn:H1.
    destruct (phase st1 rest) as [[st2 rr2] ts2] eqn:H2.
    injection H as <- <- <-.
    apply rename_one_effect in H1 as (Hreg1 & Hsize1 & Hcalls1 & Hdir1);
      [|exact Hreg].
    apply IH in H2 as (Hreg2 & Hsize2 & Hcalls2 & Hkeep2); [|exact Hreg1].
    split; [exact Hreg2|]. split; [congruence|].
    split; [simpl length; unfold max_retries in *; lia|].
    intros x Hx Hnot. simpl in Hnot. apply Hkeep2; [|tauto].
    destruct Hdir1 as [[-> _]|(t & _ & _ & -> & _)]; [exact Hx|].
    apply elem_of_union_r, elem_of_difference. split; [exact Hx|].
    intros Heq%elem_of_singleton. apply Hnot. now left.
Qed.

(** Every result names a file of the directory after the phase. *)
Lemma rename_phase_on_disk (results : list Result) (st st' : State)
    (rename_results : list Result) (targets : list string) :
  phase st results = (st', rename_results, targets) ->
  Batch.registered st ->
  NoDup (map file results) ->
  Forall (fun r => file r ∈ directory st /\ file r ∈ existing_files st)
         results ->
  Forall (fun r' => file r' ∈ directory st') rename_results.
Proof.
  revert st st' rename_results targets.
  induction results as [|r rest IH]; intros st st' rr ts H Hreg Hnd Hall;
    simpl in H.
  - injection H as <- <- <-. constructor.
  - destruct (one st r) as [[st1 r1] tgt] eqn:H1.
    destruct (phase st1 rest) as [[st2 rr2] ts2] eqn:H2.
    injection H as <- <- <-.
    simpl in Hnd. apply NoDup_cons in Hnd as [Hr Hnd].
    apply Forall_cons in Hall as [[Hrdir Hrreg] Hall].
    pose proof (PhaseFacts.rename_one_registry title rename_allowed
                  _ _ _ _ _ H1) as (Hex1 & Htgt & Hfile).
    pose proof (rename_one_effect _ _ _ _ _ H1 Hreg)
      as (Hreg1 & _ & _ & Hdir1).
    pose proof (rename_phase_effect _ _ _ _ _ H2 Hreg1)
      as (_ & _ & _ & Hkeep).
    rewrite Forall_forall in Hall.
    assert (Hrest : forall x, In x rest -> file x ≠ file r).
    { intros x Hx Heq. apply Hr. rewrite <- Heq.
      apply list_elem_of_In, in_map, Hx. }
    constructor.
    + apply Hkeep.
      * destruct Hdir1 as [[-> ->]|(t & _ & _ & -> & ->)];
          [exact Hrdir|set_solver].
      * intros Hin. apply in_map_iff in Hin as (x & Hx & Hxin).
        destruct Hfile as [Hsame|Htg].
        -- apply (Hrest x Hxin). congruence.
        -- destruct (Htgt _ Htg) as [Hfresh _]. apply Hfresh.
           rewrite <- Hx. apply (Hall x). now apply list_elem_of_In.
    + eapply IH; [exact H2|exact Hreg1|exact Hnd|].
      apply Forall_forall. intros x Hx.
      destruct (Hall x Hx) as [Hxd Hxr]. split.
      * destruct Hdir1 as [[-> _]|(t & _ & _ & -> & _)]; [exact Hxd|].
        apply elem_of_union_r, elem_of_difference. split; [exact Hxd|].
        intros Heq%elem_of_singleton.
        apply (Hrest x); [now apply list_elem_of_In|exact Heq].
      * rewrite Hex1. now apply elem_of_union_r.
Qed.

(** After [k] refused calls the next call goes through: the file is
    renamed and the result is otherwise unchanged. *)
Lemma retry_loop_after_refusals (k a n : nat) (st : State) (r : Result)
    (new_filename : string) :
  k < n -> a + k < max_retries ->
  (forall i, i < k -> rename_allowed (calls st + i) = false) ->
  rename_allowed (calls st + k) = true ->
  file r ∈ directory st ->
  retry (seq a n) st r new_filename =
  (mkState (existing_files st)
           ({[new_filename]} ∪ (directory st ∖ {[file r]}))
           (S (calls st + k)),
   set_file r new_filename).
Proof.
  unfold max_retries.
  revert a n st. induction k as [|k IH]; intros a n st Hn Ha Hno Hyes Hin.
  - destruct n as [|n]; [lia|]. simpl. unfold os_rename.
    rewrite Nat.add_0_r in *. rewrite Hyes, bool_decide_true by exact Hin.
    reflexivity.
  - destruct n as [|n]; [lia|]. simpl. unfold os_rename.
    pose proof (Hno 0 ltac:(lia)) as H0. rewrite Nat.add_0_r in H0.
    rewrite H0. simpl.
    replace (a <? 4) with true by (symmetry; apply Nat.ltb_lt; lia).
    rewrite (IH (S a) n (failed_call st)); simpl; try lia; try assumption.
    + repeat f_equal. lia.
    + intros i Hi. rewrite <- Nat.add_succ_r. apply Hno. lia.
    + rewrite <- Nat.add_succ_r. exact Hyes.
Qed.

End Phase.

End PhaseMore.

(** X5: the name assigned to a result ends with the extension of its file,
    is a package file name, and is recognised as already renamed by
    [is_already_renamed]. *)
Theorem assigned_name_shape (title : string -> string) (r : Renamer.Result)
    (existing : gset string) :
  let t := Renamer.get_unique_filename (Renamer.versioned_name title r)
             (Renamer.extension_of r) existing in
  Py.endswith t (Renamer.extension_of r) = true
  /\ Renamer.is_package_file t = true
  /\ Rerun.is_already_renamed t = true.
Proof.
  intros t.
  pose proof (PhaseFacts.get_unique_filename_extension
                (Renamer.versioned_name title r) (Renamer.extension_of r)
                existing) as Hext.
  fold t in Hext.
  assert (Hpkg : Renamer.is_package_file t = true).
  { unfold Renamer.is_package_file. unfold Renamer.extension_of in Hext.
    destruct (Py.endswith (Renamer.file r) ".apk"); rewrite Hext;
      [reflexivity|apply orb_true_r]. }
  split; [exact Hext|]. split; [exact Hpkg|].
  unfold Rerun.is_already_renamed. unfold Renamer.is_package_file in Hpkg.
  rewrite Hpkg, andb_true_r.
  assert (Hv : Py.contains " v" (Renamer.versioned_name title r) = true).
  { unfold Renamer.versioned_name.
    destruct (Py.truthy (Renamer.version r) && _).
    - apply SubFacts.contains_intro.
    - apply (SubFacts.contains_intro _ " v" "1.0"). }
  pose proof (PhaseFacts.get_unique_filename_loop
                (Renamer.versioned_name title r) (Renamer.extension_of r)
                existing) as Hloop.
  fold t in Hloop.
  apply RegistryFacts.unique_loop_some in Hloop
    as [_ [[_ ->]|[_ (n & _ & -> & _)]]].
  - now apply SubFacts.contains_app_l.
  - unfold Renamer.numbered. now apply SubFacts.contains_app_l.
Qed.

(** X6: results that ask for the same name, when neither that name nor any
    of its numbered variants is in the registry, are given the unnumbered
    name and then the numbers 1, 2, 3, ... in the order in which they are
    processed. *)
Theorem collision_suffixes_count_up (title : string -> string)
    (rename_allowed : nat -> bool) (st : Renamer.State)
    (results : list Renamer.Result) (base_name extension : string) :
  Forall (Batch.same_request title base_name extension) results ->
  (base_name +:+ extension ∉ Renamer.existing_files st) ->
  (forall n, Renamer.numbered base_name extension n
             ∉ Renamer.existing_files st) ->
  (Renamer.rename_phase title rename_allowed st results).2
  = map (Batch.kth_name base_name extension) (seq 0 (length results)).
Proof.
  intros Hall Hfree Hnum. rewrite PhaseFacts.rename_phase_targets.
  destruct Hall as [|r rest (Hel & Hbase & Hext) Hrest]; [reflexivity|].
  cbn [Renamer.assigned_names length seq map Batch.kth_name].
  unfold Renamer.target_of. rewrite Hel, Hbase, Hext.
  rewrite PhaseFacts.get_unique_filename_free by exact Hfree.
  f_equal.
  rewrite (PhaseMore.assigned_names_numbered title rename_allowed
             base_name extension rest _ 1 Hrest); [| lia | set_solver | intros m Hm; lia |].
  - apply map_ext_in. intros k Hk. apply in_seq in Hk.
    destruct k; [lia|reflexivity].
  - intros n _ Hin. apply elem_of_union in Hin as [Hin|Hin].
    + apply elem_of_singleton in Hin.
      now apply RegistryFacts.numbered_not_original in Hin.
    + now apply (Hnum n).
Qed.

Lemma collision_suffixes_count_up_witness :
  Forall (Batch.same_request Py.title_ascii "Game v1.0" ".ipa")
         MoreSamples.game_results
  /\ (Renamer.rename_phase Py.title_ascii Samples.always
        MoreSamples.game_state MoreSamples.game_results).2
     = ["Game v1.0.ipa"; "Game v1.0 (1).ipa"; "Game v1.0 (2).ipa"].
Proof.
  assert (H1 : Forall (Batch.same_request Py.title_ascii "Game v1.0" ".ipa")
                      MoreSamples.game_results).
  { repeat constructor. }
  split; [exact H1|].
  refine (collision_suffixes_count_up Py.title_ascii Samples.always
            MoreSamples.game_state MoreSamples.game_results
            "Game v1.0" ".ipa" H1 _ _).
  - compute_done.
  - intros n Hin. simpl in Hin. unfold Renamer.numbered in Hin.
    rewrite !elem_of_union, !elem_of_singleton in Hin.
    destruct Hin as [[Hin|Hin]|Hin]; discriminate Hin.
Defined.

(** X7: a batch makes at most five [os.rename] calls for each completed
    file. *)
Theorem batch_rename_calls_bounded (title : string -> string)
    (rename_allowed : nat -> bool) (world : string -> Renamer.FileInfo)
    (listing completed : list string) :
  let out := Renamer.main title rename_allowed world listing completed in
  Renamer.calls out.1.1 <= Renamer.max_retries * length completed.
Proof.
  intros out. unfold out, Renamer.main.
  destruct (Renamer.rename_phase _ _ _ _) as [[st' rr] ts] eqn:H.
  apply PhaseMore.rename_phase_effect in H as (_ & _ & Hcalls & _).
  - simpl in *.
    assert (Hlen : length (Renamer.processing_results world completed)
                   <= length completed).
    { pose proof (sublist_length _ _
                    (MainFacts.processing_results_files world completed))
        as Hsub.
      now rewrite length_map in Hsub. }
    unfold Renamer.max_retries in *. lia.
  - intros f Hf Hp. simpl in *. apply elem_of_list_to_set.
    apply elem_of_list_to_set in Hf. unfold Renamer.files_to_process.
    apply list_elem_of_In, filter_In. split; [now apply list_elem_of_In|exact Hp].
Qed.

(** X8: when every name a batch assigns is an entry name (no path
    separator or other reserved character, no NUL character), the batch
    never overwrites or loses a directory entry: the directory has as many
    entries after the run as before, the registry still holds every
    package file of the directory, and no name leaves the registry.  A
    name with a path separator, which an unsanitized version can bring
    in, is a path into another directory and is not covered. *)
Theorem batch_keeps_directory_size (title : string -> string)
    (rename_allowed : nat -> bool) (world : string -> Renamer.FileInfo)
    (listing completed : list string) :
  let out := Renamer.main title rename_allowed world listing completed in
  Forall (fun t => Batch.plain_name t = true) out.2 ->
  size (Renamer.directory out.1.1) = size (list_to_set listing : gset string)
  /\ Batch.registered out.1.1
  /\ (list_to_set (Renamer.files_to_process listing) : gset string)
     ⊆ Renamer.existing_files out.1.1.
Proof.
  intros out _. unfold out, Renamer.main.
  destruct (Renamer.rename_phase _ _ _ _) as [[st' rr] ts] eqn:H.
  pose proof (PhaseFacts.rename_phase_registry _ _ _ _ _ _ _ H)
    as (Hex & _).
  apply PhaseMore.rename_phase_effect in H as (Hreg & Hsize & _).
  - simpl in *. split; [exact Hsize|]. split; [exact Hreg|].
    rewrite Hex. set_solver.
  - intros f Hf Hp. simpl in *. apply elem_of_list_to_set.
    apply elem_of_list_to_set in Hf. unfold Renamer.files_to_process.
    apply list_elem_of_In, filter_In. split; [now apply list_elem_of_In|exact Hp].
Qed.

Lemma batch_keeps_directory_size_witness :
  let listing := ["a.ipa"; "b.ipa"; "notes.txt"] in
  let out := Renamer.main Py.title_ascii MoreSamples.allowed_from_third
               Samples.game_world listing ["b.ipa"; "a.ipa"] in
  out.2 = ["Game v1.0.ipa"; "Game v1.0 (1).ipa"]
  /\ size (Renamer.directory out.1.1) = 3.
Proof.
  split; [vm_compute; reflexivity|].
  refine (proj1 (batch_keeps_directory_size Py.title_ascii
                   MoreSamples.allowed_from_third Samples.game_world
                   ["a.ipa"; "b.ipa"; "notes.txt"] ["b.ipa"; "a.ipa"] _)).
  vm_compute. repeat constructor.
Defined.

(** X9: when every completed file was submitted and completes once, and
    every name the batch assigns is an entry name (no path separator or
    other reserved character, no NUL character), each row of the report
    names a file that is in the directory after the run, whether its
    rename succeeded, failed or was not attempted. *)
Theorem report_names_existing_files (title : string -> string)
    (rename_allowed : nat -> bool) (world : string -> Renamer.FileInfo)
    (listing completed : list string) :
  NoDup completed ->
  (forall f, In f completed -> In f (Renamer.files_to_process listing)) ->
  let out := Renamer.main title rename_allowed world listing completed in
  Forall (fun t => Batch.plain_name t = true) out.2 ->
  Forall (fun r' => Renamer.file r' ∈ Renamer.directory out.1.1) out.1.2.
Proof.
  intros Hnd Hsub out _. unfold out, Renamer.main.
  destruct (Renamer.rename_phase _ _ _ _) as [[st' rr] ts] eqn:H.
  pose proof (MainFacts.processing_results_files world completed) as Hfiles.
  simpl. eapply PhaseMore.rename_phase_on_disk; [exact H| | |].
  - intros f Hf Hp. simpl in *. apply elem_of_list_to_set.
    apply elem_of_list_to_set in Hf. unfold Renamer.files_to_process.
    apply list_elem_of_In, filter_In. split; [now apply list_elem_of_In|exact Hp].
  - eapply sublist_NoDup; [exact Hnd|exact Hfiles].
  - apply Forall_forall. intros r Hr. simpl.
    assert (Hin : In (Renamer.file r) (Renamer.files_to_process listing)).
    { apply Hsub, list_elem_of_In.
      eapply sublist_subseteq; [exact Hfiles|].
      apply list_elem_of_In, in_map. now apply list_elem_of_In. }
    split; apply elem_of_list_to_set, list_elem_of_In; [|exact Hin].
    unfold Renamer.files_to_process in Hin. now apply filter_In in Hin.
Qed.

Lemma report_names_existing_files_witness :
  let listing := ["a.ipa"; "b.ipa"; "notes.txt"] in
  let completed := ["b.ipa"; "a.ipa"] in
  let out := Renamer.main Py.title_ascii MoreSamples.allowed_from_third
               Samples.game_world listing completed in
  NoDup completed
  /\ (forall f, In f completed -> In f (Renamer.files_to_process listing))
  /\ Forall (fun t => Batch.plain_name t = true) out.2
  /\ map Renamer.file out.1.2 = ["Game v1.0.ipa"; "Game v1.0 (1).ipa"]
  /\ Forall (fun r' => Renamer.file r' ∈ Renamer.directory out.1.1) out.1.2.
Proof.
  assert (H1 : NoDup ["b.ipa"; "a.ipa"]) by compute_done.
  assert (H2 : forall f, In f ["b.ipa"; "a.ipa"] ->
                 In f (Renamer.files_to_process
                         ["a.ipa"; "b.ipa"; "notes.txt"])).
  { intros f Hf. simpl in Hf. vm_compute. tauto. }
  assert (H3 : Forall (fun t => Batch.plain_name t = true)
                 (Renamer.main Py.title_ascii MoreSamples.allowed_from_third
                    Samples.game_world ["a.ipa"; "b.ipa"; "notes.txt"]
                    ["b.ipa"; "a.ipa"]).2).
  { vm_compute. repeat constructor. }
  split; [exact H1|]. split; [exact H2|]. split; [exact H3|].
  split; [vm_compute; reflexivity|].
  exact (report_names_existing_files Py.title_ascii
           MoreSamples.allowed_from_third Samples.game_world _ _ H1 H2 H3).
Defined.

(** X10: refused calls are retried: when fewer than five calls in a row
    are refused and the next one goes through, an eligible registered file
    is given the name assigned to it after one call more than were
    refused; its result stays as it was but for the file name, and the
    name has joined the registry. *)
Theorem rename_survives_refusals (title : string -> string)
    (rename_allowed : nat -> bool) (st : Renamer.State) (r : Renamer.Result)
    (k : nat) :
  Renamer.eligible r = true ->
  Renamer.file r ∈ Renamer.existing_files st ->
  Renamer.file r ∈ Renamer.directory st ->
  k < Renamer.max_retries ->
  (forall i, i < k -> rename_allowed (Renamer.calls st + i) = false) ->
  rename_allowed (Renamer.calls st + k) = true ->
  let t := Renamer.get_unique_filename (Renamer.versioned_name title r)
             (Renamer.extension_of r) (Renamer.existing_files st) in
  let out := Renamer.rename_one title rename_allowed st r in
  out.1.2 = Renamer.set_file r t
  /\ out.2 = Some t
  /\ Renamer.calls out.1.1 = S (Renamer.calls st + k)
  /\ Renamer.existing_files out.1.1 = {[t]} ∪ Renamer.existing_files st.
Proof.
  intros Hel Hreg Hdir Hk Hno Hyes t out. unfold out, Renamer.rename_one.
  rewrite Hel. fold t.
  assert (Hne : Renamer.file r ≠ t).
  { intros Heq. apply (PhaseFacts.get_unique_filename_fresh
                         (Renamer.versioned_name title r)
                         (Renamer.extension_of r) (Renamer.existing_files st)).
    fold t. now rewrite <- Heq. }
  rewrite bool_decide_true by exact Hne.
  rewrite (PhaseMore.retry_loop_after_refusals rename_allowed k 0
             Renamer.max_retries); simpl; auto; lia.
Qed.

Lemma rename_survives_refusals_witness :
  let r := Renamer.mkResult "a.ipa" "Game" EmptyString "com.a.game" 100 3
             Renamer.valid in
  let out := Renamer.rename_one Py.title_ascii MoreSamples.allowed_from_third
               MoreSamples.game_state r in
  out.1.2 = Renamer.set_file r "Game v1.0.ipa"
  /\ Renamer.calls out.1.1 = 3.
Proof.
  intros r out.
  destruct (rename_survives_refusals Py.title_ascii
              MoreSamples.allowed_from_third MoreSamples.game_state r 2)
    as (Hfile & _ & Hcalls & _).
  - reflexivity.
  - compute_done.
  - compute_done.
  - unfold Renamer.max_retries. lia.
  - intros i Hi. simpl. destruct i as [|[|i]]; [reflexivity..|lia].
  - reflexivity.
  - split; [exact Hfile|exact Hcalls].
Defined.

(** ** The extractors and the parallel phase *)
Module ExtractMore.

Import Extract.

Lemma split_head (sep : ascii) (s : string) :
  exists w ws, Py.split sep s = w :: ws.
Proof.
  induction s as [|a s (w & ws & IH)]; simpl; [eauto|].
  destruct (Ascii.eqb a sep); [eauto|]. rewrite IH. eauto.
Qed.

Lemma split_name_part (r : string) :
  Py.split "="%char ("name=" +:+ r) = "name" :: Py.split "="%char r.
Proof.
  destruct (split_head "="%char r) as (w & ws & H).
  change (Py.split "="%char ("name=" +:+ r))
    with (match Py.split "="%char ("=" +:+ r) with
          | [] => ["name"]
          | w :: ws => ("name" +:+ w) :: ws
          end).
  change (Py.split "="%char ("=" +:+ r))
    with (EmptyString :: Py.split "="%char r).
  reflexivity.
Qed.

Lemma split_version_part (r : string) :
  Py.split "="%char ("versionName=" +:+ r)
  = "versionName" :: Py.split "="%char r.
Proof. reflexivity. Qed.

Lemma split1_label_line (r : string) :
  Py.split1 ":"%char ("application-label:" +:+ r) = ["application-label"; r].
Proof. reflexivity. Qed.

(** What one word of a [package:] line does. *)
Lemma scan_part_some (st : string * string) (part : string) :
  exists st', scan_part st part = Some st'.
Proof.
  destruct st as [package version]. unfold scan_part.
  destruct (Py.startswith part "name=") eqn:Hn.
  - apply SubFacts.prefix_inv in Hn as [r ->]. rewrite split_name_part.
    destruct (split_head "="%char r) as (w & ws & ->). simpl. eauto.
  - destruct (Py.startswith part "versionName=") eqn:Hv; [|eauto].
    apply SubFacts.prefix_inv in Hv as [r ->]. rewrite split_version_part.
    destruct (split_head "="%char r) as (w & ws & ->). simpl. eauto.
Qed.

Lemma fold_raise_some {A B : Type} (body : A -> B -> option A)
    (items : list B) (acc : A) :
  (forall a x, exists a', body a x = Some a') ->
  exists a', fold_raise body acc items = Some a'.
Proof.
  intros Hbody. revert acc.
  induction items as [|x rest IH]; intros acc; simpl; [eauto|].
  destruct (Hbody acc x) as [a' ->]. apply IH.
Qed.

Lemma fold_raise_app {A B : Type} (body : A -> B -> option A)
    (l1 l2 : list B) (acc : A) :
  fold_raise body acc (l1 ++ l2)
  = match fold_raise body acc l1 with
    | Some acc' => fold_raise body acc' l2
    | None => None
    end.
Proof.
  revert acc. induction l1 as [|x rest IH]; intros acc; simpl; [reflexivity|].
  destruct (body acc x); [apply IH|reflexivity].
Qed.

Lemma scan_line_some (st : string * string * string) (line : string) :
  exists st', scan_line st line = Some st'.
Proof.
  destruct st as [[label package] version]. unfold scan_line.
  destruct (Py.startswith line "package:").
  - destruct (fold_raise_some scan_part (Py.split_ws line) (package, version)
                scan_part_some) as [[p v] ->]. eauto.
  - destruct (Py.startswith line "application-label:") eqn:Hl; [|eauto].
    apply SubFacts.prefix_inv in Hl as [r ->].
    rewrite split1_label_line. simpl. eauto.
Qed.

(** A line that is not a label line keeps the label. *)
Lemma scan_line_keeps_label (label package version : string) (line : string)
    (st' : string * string * string) :
  Py.startswith line "application-label:" = false ->
  scan_line (label, package, version) line = Some st' ->
  st'.1.1 = label.
Proof.
  intros Hl. unfold scan_line. rewrite Hl.
  destruct (Py.startswith line "package:").
  - destruct (fold_raise scan_part _ _) as [[p v]|]; [|discriminate].
    now intros [= <-].
  - now intros [= <-].
Qed.

Lemma scan_lines_keep_label (lines : list string)
    (st st' : string * string * string) :
  Forall (fun line => Py.startswith line "application-label:" = false)
         lines ->
  fold_raise scan_line st lines = Some st' ->
  st'.1.1 = st.1.1.
Proof.
  intros Hall. revert st.
  induction Hall as [|line rest Hl _ IH]; intros st H; simpl in H.
  - now injection H as <-.
  - destruct (scan_line st line) as [st1|] eqn:H1; [|discriminate].
    destruct st as [[label package] version].
    apply scan_line_keeps_label in H1; [|exact Hl].
    rewrite (IH _ H). exact H1.
Qed.

Lemma label_line_not_package (r : string) :
  Py.startswith ("application-label:" +:+ r) "package:" = false.
Proof. reflexivity. Qed.

Lemma main_is_app_candidate (info_file : string) :
  is_main_candidate info_file = true -> is_app_candidate info_file = true.
Proof.
  unfold is_main_candidate, is_app_candidate.
  rewrite !andb_true_iff. tauto.
Qed.

Lemma read_info_plist_confidence (info_plist : gmap string string) :
  let m := read_info_plist info_plist in
  (2 <= confidence m <= 4)%Z
  /\ ((3 <= confidence m)%Z -> Py.truthy (name m) = true).
Proof.
  unfold read_info_plist. simpl. unfold Py.or_else.
  destruct (Py.truthy (get info_plist "CFBundleDisplayName")) eqn:Hd.
  - split; [lia|]. intros _. exact Hd.
  - destruct (Py.truthy (get info_plist "CFBundleName")) eqn:Hn.
    + split; [lia|]. intros _. exact Hn.
    + split; lia.
Qed.

Lemma badging_confidence (st : string * string * string) :
  let m := metadata_of_badging st in
  (1 <= confidence m <= 4)%Z
  /\ ((3 <= confidence m)%Z -> Py.truthy (name m) = true).
Proof.
  destruct st as [[label package] version]. simpl.
  destruct (Py.truthy label); simpl; [|split; lia].
  destruct (Py.truthy package); split; auto; lia.
Qed.

Lemma extract_apk_confidence (badging : option string) (m : Metadata) :
  extract_apk_metadata badging = Some m ->
  (1 <= confidence m <= 4)%Z
  /\ ((3 <= confidence m)%Z -> Py.truthy (name m) = true).
Proof.
  unfold extract_apk_metadata. destruct badging as [text|]; [|discriminate].
  destruct (scan_lines _) as [st|]; [|discriminate].
  intros [= <-]. apply badging_confidence.
Qed.

Lemma extract_ipa_confidence (archive : option Archive) (m : Metadata) :
  extract_ipa_metadata archive = Some m ->
  (1 <= confidence m <= 4)%Z
  /\ ((3 <= confidence m)%Z -> Py.truthy (name m) = true).
Proof.
  unfold extract_ipa_metadata. destruct archive as [zip_ref|]; [|discriminate].
  destruct (find_main_info_file _) as [f|]; [|discriminate].
  destruct (load_plist zip_ref f) as [p|]; [|discriminate].
  intros [= <-]. pose proof (read_info_plist_confidence p) as [H1 H2].
  split; [lia|exact H2].
Qed.

Lemma process_file_some (world : string -> Renamer.FileInfo) (f : string) :
  Renamer.is_package_file f = true ->
  exists r, Renamer.process_file world f = Some r.
Proof.
  unfold Renamer.is_package_file, Renamer.process_file. intros H.
  destruct (Renamer.getsize (world f)); [|eauto].
  destruct (Py.endswith f ".apk").
  - destruct (extract_apk_metadata _); eauto.
  - simpl in H. rewrite H. destruct (extract_ipa_metadata _); eauto.
Qed.

Lemma processing_results_all (world : string -> Renamer.FileInfo)
    (completed : list string) :
  Forall (fun f => Renamer.is_package_file f = true) completed ->
  Forall2 (fun f r => Renamer.process_file world f = Some r)
          completed (Renamer.processing_results world completed).
Proof.
  unfold Renamer.processing_results.
  induction 1 as [|f rest Hf _ IH]; simpl; [constructor|].
  destruct (process_file_some world f Hf) as [r Hr]. rewrite Hr.
  now constructor.
Qed.

End ExtractMore.

(** X11: a result of [process_file] carries the path it was asked about;
    when it is valid its confidence lies between 1 and 4, so that the
    renaming phase takes it up, and a confidence of 3 or more comes with a
    name; when it is invalid its fields are empty, its confidence is 0 and
    the renaming phase skips it. *)
Theorem process_file_result_shape (world : string -> Renamer.FileInfo)
    (file_path : string) (r : Renamer.Result) :
  Renamer.process_file world file_path = Some r ->
  Renamer.file r = file_path
  /\ (Renamer.status r = Renamer.valid ->
        (1 <= Renamer.confidence r <= 4)%Z
        /\ Renamer.eligible r = true
        /\ ((3 <= Renamer.confidence r)%Z ->
            Py.truthy (Renamer.name r) = true))
  /\ (Renamer.status r = Renamer.invalid ->
        Renamer.name r = EmptyString /\ Renamer.version r = EmptyString
        /\ Renamer.package r = EmptyString /\ Renamer.confidence r = 0%Z
        /\ Renamer.eligible r = false).
Proof.
  unfold Renamer.process_file.
  assert (Hvalid : forall m size,
            (1 <= Extract.confidence m <= 4)%Z
            /\ ((3 <= Extract.confidence m)%Z ->
                Py.truthy (Extract.name m) = true) ->
            let r := Renamer.mkResult file_path (Extract.name m)
                       (Extract.version m) (Extract.package m) size
                       (Extract.confidence m) Renamer.valid in
            (1 <= Renamer.confidence r <= 4)%Z
            /\ Renamer.eligible r = true
            /\ ((3 <= Renamer.confidence r)%Z ->
                Py.truthy (Renamer.name r) = true)).
  { intros m size [Hc Hn]. simpl. split; [exact Hc|]. split; [|exact Hn].
    unfold Renamer.eligible. simpl. apply Z.leb_le. lia. }
  destruct (Renamer.getsize (world file_path)) as [size|].
  - destruct (Py.endswith file_path ".apk").
    + destruct (Extract.extract_apk_metadata _) as [m|] eqn:Hm;
        intros [= <-]; simpl.
      * split; [reflexivity|]. split; [|discriminate].
        intros _. apply (Hvalid m size).
        now apply ExtractMore.extract_apk_confidence in Hm.
      * split; [reflexivity|]. split; [discriminate|]. intros _.
        now repeat split.
    + destruct (Py.endswith file_path ".ipa"); [|discriminate].
      destruct (Extract.extract_ipa_metadata _) as [m|] eqn:Hm;
        intros [= <-]; simpl.
      * split; [reflexivity|]. split; [|discriminate].
        intros _. apply (Hvalid m size).
        now apply ExtractMore.extract_ipa_confidence in Hm.
      * split; [reflexivity|]. split; [discriminate|]. intros _.
        now repeat split.
  - intros [= <-]. simpl. split; [reflexivity|]. split; [discriminate|].
    intros _. now repeat split.
Qed.

Lemma process_file_result_shape_witness :
  exists r,
    Renamer.process_file Samples.widgets_world "w.ipa" = Some r
    /\ Renamer.file r = "w.ipa"
    /\ Renamer.status r = Renamer.valid
    /\ Renamer.confidence r = 3%Z.
Proof.
  assert (H : Renamer.process_file Samples.widgets_world "w.ipa"
              = Some (Renamer.mkResult "w.ipa" "Widgets" EmptyString
                        "com.example.widgets" 250 3 Renamer.valid))
    by (vm_compute; reflexivity).
  eexists. split; [exact H|].
  split; [exact (proj1 (process_file_result_shape _ _ _ H))|].
  split; reflexivity.
Defined.

(** X12: the badging parser never fails on the text of the tool: every
    text gives a result, whose confidence is 3 when both a label and a
    package name were read and 1 otherwise. *)
Theorem badging_parser_never_fails (text : string) :
  exists m,
    Extract.extract_apk_metadata (Some text) = Some m
    /\ Extract.confidence m
       = (if Py.truthy (Extract.name m) && Py.truthy (Extract.package m)
          then 3 else 1)%Z.
Proof.
  unfold Extract.extract_apk_metadata, Extract.scan_lines.
  destruct (ExtractMore.fold_raise_some Extract.scan_line
              (Py.splitlines text) (EmptyString, EmptyString, EmptyString)
              ExtractMore.scan_line_some) as [[[label package] version] ->].
  eexists. split; reflexivity.
Qed.

(** X13: the label read from a badging text is that of its last
    [application-label:] line, stripped of its quotes. *)
Theorem last_label_line_wins (before after : list string) (v : string) :
  Forall (fun line => Py.startswith line "application-label:" = false)
         after ->
  exists package version,
    Extract.scan_lines (before ++ ("application-label:" +:+ v) :: after)
    = Some (Py.strip_quote v, package, version).
Proof.
  intros Hafter. unfold Extract.scan_lines.
  rewrite ExtractMore.fold_raise_app.
  destruct (ExtractMore.fold_raise_some Extract.scan_line before
              (EmptyString, EmptyString, EmptyString)
              ExtractMore.scan_line_some) as [[[l0 p0] v0] ->].
  cbn [Extract.fold_raise].
  assert (Hline : Extract.scan_line (l0, p0, v0) ("application-label:" +:+ v)
                  = Some (Py.strip_quote v, p0, v0)).
  { unfold Extract.scan_line.
    rewrite ExtractMore.label_line_not_package.
    unfold Py.startswith. rewrite SubFacts.prefix_app.
    now rewrite ExtractMore.split1_label_line. }
  rewrite Hline.
  destruct (ExtractMore.fold_raise_some Extract.scan_line after
              (Py.strip_quote v, p0, v0) ExtractMore.scan_line_some)
    as [[[l1 p1] v1] H1].
  rewrite H1.
  apply ExtractMore.scan_lines_keep_label in H1; [|exact Hafter].
  simpl in H1. subst l1. eauto.
Qed.

Lemma last_label_line_wins_witness :
  exists package version,
    Extract.scan_lines
      (["package: name='com.example.app'"; "application-label:'Old'"]
       ++ ("application-label:" +:+ "'Example'")
       :: ["application-label-en:'Example EN'"])
    = Some ("Example", package, version).
Proof.
  apply (last_label_line_wins
           ["package: name='com.example.app'"; "application-label:'Old'"]
           ["application-label-en:'Example EN'"] "'Example'").
  repeat constructor.
Defined.

(** X14: the bundle file that [extract_ipa_metadata] reads: there is none
    only for an empty list; otherwise it is an entry of the list, it is a
    main candidate when the list has one, and an app candidate when the
    list has one. *)
Theorem main_info_file_choice (info_files : list string) :
  match Extract.find_main_info_file info_files with
  | None => info_files = []
  | Some f =>
      In f info_files
      /\ (Exists (fun g => Extract.is_main_candidate g = true) info_files ->
          Extract.is_main_candidate f = true)
      /\ (Exists (fun g => Extract.is_app_candidate g = true) info_files ->
          Extract.is_app_candidate f = true)
  end.
Proof.
  unfold Extract.find_main_info_file.
  destruct (find Extract.is_main_candidate info_files) as [f|] eqn:Hmain.
  - apply find_some in Hmain as [Hin Hf]. split; [exact Hin|].
    split; [auto|]. intros _. now apply ExtractMore.main_is_app_candidate.
  - pose proof (find_none _ _ Hmain) as Hnone.
    assert (Hno : Exists (fun g => Extract.is_main_candidate g = true)
                    info_files -> False).
    { intros (g & Hg & Hm)%List.Exists_exists.
      specialize (Hnone g Hg). congruence. }
    destruct (find Extract.is_app_candidate info_files) as [f|] eqn:Happ.
    + apply find_some in Happ as [Hin Hf]. split; [exact Hin|].
      split; [intros H; destruct (Hno H)|auto].
    + pose proof (find_none _ _ Happ) as Hnone2.
      destruct info_files as [|f rest]; [reflexivity|]. simpl.
      split; [now left|]. split; [intros H; destruct (Hno H)|].
      intros (g & Hg & Hm)%List.Exists_exists.
      specialize (Hnone2 g Hg). congruence.
Qed.

(** X15: every completed file that was submitted has its row in the
    report, in completion order, and the row carries the name, version,
    package, size and confidence that [process_file] found for it. *)
Theorem report_covers_completed_files (title : string -> string)
    (rename_allowed : nat -> bool) (world : string -> Renamer.FileInfo)
    (listing completed : list string) :
  (forall f, In f completed -> In f (Renamer.files_to_process listing)) ->
  let out := Renamer.main title rename_allowed world listing completed in
  Forall2 (fun f r' => exists r, Renamer.process_file world f = Some r
                                 /\ Renamer.same_identity r r')
          completed out.1.2.
Proof.
  intros Hsub out. unfold out, Renamer.main.
  assert (Hpkg : Forall (fun f => Renamer.is_package_file f = true)
                        completed).
  { apply List.Forall_forall. intros f Hf.
    specialize (Hsub f Hf). unfold Renamer.files_to_process in Hsub.
    now apply filter_In in Hsub. }
  pose proof (ExtractMore.processing_results_all world completed Hpkg) as H1.
  pose proof (PhaseFacts.rename_phase_identity title rename_allowed
                (Renamer.processing_results world completed)
                (Renamer.mkState
                   (list_to_set (Renamer.files_to_process listing))
                   (list_to_set listing) 0)) as H2.
  simpl. eapply Forall2_trans; [|exact H1|exact H2].
  intros f r r' Hr Hid. exists r. split; [exact Hr|exact Hid].
Qed.

Lemma report_covers_completed_files_witness :
  let listing := ["a.ipa"; "b.ipa"; "notes.txt"] in
  let completed := ["b.ipa"; "a.ipa"] in
  let out := Renamer.main Py.title_ascii Samples.always
               Samples.game_world listing completed in
  map Renamer.package out.1.2 = ["com.b.game"; "com.a.game"]
  /\ Forall2 (fun f r' => exists r,
                Renamer.process_file Samples.game_world f = Some r
                /\ Renamer.same_identity r r')
             completed out.1.2.
Proof.
  split; [vm_compute; reflexivity|].
  apply (report_covers_completed_files Py.title_ascii Samples.always
           Samples.game_world ["a.ipa"; "b.ipa"; "notes.txt"]
           ["b.ipa"; "a.ipa"]).
  intros f Hf. simpl in Hf. vm_compute. tauto.
Defined.

(** ** The icon selectors *)
Module ApkIconFacts.

Import ApkIcon.

Lemma fold_raise_pure {A B : Type} (body : A -> B -> option A)
    (g : A -> B -> A) (items : list B) (acc : A) :
  (forall a x, body a x = Some (g a x)) ->
  Extract.fold_raise body acc items = Some (fold_left g items acc).
Proof.
  intros H. revert acc.
  induction items as [|x rest IH]; intros acc; simpl; [reflexivity|].
  rewrite H. apply IH.
Qed.

(** Every longer pattern contains the shortest one. *)
Lemma hdpi_in_pattern (pattern s : string) :
  In pattern density_patterns ->
  Py.contains pattern s = true -> Py.contains "hdpi" s = true.
Proof.
  intros Hin. apply SubFacts.contains_trans.
  simpl in Hin. destruct Hin as [<-|[<-|[<-|[<-|[]]]]]; reflexivity.
Qed.

Lemma density_unfold (icon_file : string) :
  let l := Py.lower icon_file in
  density icon_file
  = if Py.contains "xxxhdpi" l then Some 4%Z
    else if Py.contains "xxhdpi" l then Some 3%Z
    else if Py.contains "xhdpi" l then Some 2%Z
    else if Py.contains "hdpi" l then Some 1%Z
    else None.
Proof.
  intros l. unfold density, size_match. fold l.
  cbn [find density_patterns].
  destruct (Py.contains "xxxhdpi" l); [reflexivity|].
  destruct (Py.contains "xxhdpi" l); [reflexivity|].
  destruct (Py.contains "xhdpi" l); [reflexivity|].
  destruct (Py.contains "hdpi" l); reflexivity.
Qed.

Lemma density_some (icon_file : string) (d : Z) :
  density icon_file = Some d ->
  (1 <= d <= 4)%Z /\ Py.contains "hdpi" (Py.lower icon_file) = true.
Proof.
  rewrite density_unfold.
  destruct (Py.contains "xxxhdpi" _) eqn:H4.
  { intros [= <-]. split; [lia|].
    apply (hdpi_in_pattern "xxxhdpi"); [simpl; tauto|exact H4]. }
  destruct (Py.contains "xxhdpi" _) eqn:H3.
  { intros [= <-]. split; [lia|].
    apply (hdpi_in_pattern "xxhdpi"); [simpl; tauto|exact H3]. }
  destruct (Py.contains "xhdpi" _) eqn:H2.
  { intros [= <-]. split; [lia|].
    apply (hdpi_in_pattern "xhdpi"); [simpl; tauto|exact H2]. }
  destruct (Py.contains "hdpi" _) eqn:H1; [|discriminate].
  intros [= <-]. split; [lia|reflexivity].
Qed.

Lemma density_none (icon_file : string) :
  density icon_file = None <->
  Py.contains "hdpi" (Py.lower icon_file) = false.
Proof.
  split.
  - rewrite density_unfold.
    destruct (Py.contains "xxxhdpi" _); [discriminate|].
    destruct (Py.contains "xxhdpi" _); [discriminate|].
    destruct (Py.contains "xhdpi" _); [discriminate|].
    destruct (Py.contains "hdpi" _); [discriminate|reflexivity].
  - intros H. destruct (density icon_file) as [d|] eqn:Hd; [|reflexivity].
    apply density_some in Hd as [_ Hd]. congruence.
Qed.

(** One iteration never raises: it is a step of the greatest-value loop
    on the density. *)
Lemma apk_consider_step (st : option string * Z) (icon_file : string) :
  consider st icon_file
  = Some (Best.step (fun f => f) admissible score st icon_file).
Proof.
  destruct st as [best_icon best_size].
  unfold Best.step, admissible, score. rewrite density_unfold.
  unfold consider, size_match.
  cbn [existsb find density_patterns snd].
  destruct (Py.contains "xxxhdpi" _).
  { cbn [orb default andb].
    change (getitem size_values "xxxhdpi") with (Some 4%Z).
    cbn [Py.truthy]. unfold id. destruct (best_size <? 4)%Z; reflexivity. }
  destruct (Py.contains "xxhdpi" _).
  { cbn [orb default andb].
    change (getitem size_values "xxhdpi") with (Some 3%Z).
    cbn [Py.truthy]. unfold id. destruct (best_size <? 3)%Z; reflexivity. }
  destruct (Py.contains "xhdpi" _).
  { cbn [orb default andb].
    change (getitem size_values "xhdpi") with (Some 2%Z).
    cbn [Py.truthy]. unfold id. destruct (best_size <? 2)%Z; reflexivity. }
  destruct (Py.contains "hdpi" _).
  { cbn [orb default andb].
    change (getitem size_values "hdpi") with (Some 1%Z).
    cbn [Py.truthy]. unfold id. destruct (best_size <? 1)%Z; reflexivity. }
  reflexivity.
Qed.

Lemma truthy_of_density (icon_file : string) (d : Z) :
  density icon_file = Some d -> Py.truthy icon_file = true.
Proof.
  intros H. destruct icon_file; [discriminate H|reflexivity].
Qed.

End ApkIconFacts.

(** X16: the Android icon loop never raises.  It hands over no icon
    exactly when no word mentions [hdpi]; otherwise it hands over the
    first word of the greatest density value. *)
Theorem apk_icon_choice (icon_files : list string) :
  exists chosen,
    ApkIcon.select icon_files = Some chosen
    /\ match chosen with
       | None =>
           Forall (fun f => Py.contains "hdpi" (Py.lower f) = false)
                  icon_files
       | Some icon =>
           exists before after d,
             icon_files = before ++ icon :: after
             /\ ApkIcon.density icon = Some d
             /\ Forall (fun f => forall d', ApkIcon.density f = Some d' ->
                                            (d' < d)%Z) before
             /\ Forall (fun f => forall d', ApkIcon.density f = Some d' ->
                                            (d' <= d)%Z) icon_files
       end.
Proof.
  unfold ApkIcon.select.
  rewrite (ApkIconFacts.fold_raise_pure ApkIcon.consider
             (Best.step (fun f => f) ApkIcon.admissible
                ApkIcon.score))
    by apply ApkIconFacts.apk_consider_step.
  pose proof (BestFacts.fold_step (fun f : string => f)
                ApkIcon.admissible ApkIcon.score icon_files
                None 0%Z) as (_ & Hall & Hcase).
  destruct Hcase as [Heq|(pre & x & post & Hl & Hst & Hadm & Hpos & Hpre)].
  - rewrite Heq in Hall |- *. exists None. split; [reflexivity|].
    eapply Forall_impl; [exact Hall|]. intros f Hf.
    apply ApkIconFacts.density_none.
    destruct (ApkIcon.density f) as [d|] eqn:Hd; [|reflexivity].
    unfold ApkIcon.admissible, ApkIcon.score in Hf.
    rewrite Hd in Hf. specialize (Hf eq_refl). simpl in Hf.
    apply ApkIconFacts.density_some in Hd as [Hd _]. lia.
  - rewrite Hst in Hall |- *.
    unfold ApkIcon.admissible in Hadm.
    destruct (ApkIcon.density x) as [d|] eqn:Hd; [|discriminate].
    rewrite (ApkIconFacts.truthy_of_density x d Hd).
    exists (Some x). split; [reflexivity|].
    exists pre, post, d. split; [exact Hl|]. split; [exact Hd|].
    assert (Hsc : ApkIcon.score x = d)
      by (unfold ApkIcon.score; now rewrite Hd).
    rewrite Hsc in *. split.
    + eapply Forall_impl; [exact Hpre|]. intros f Hf d' Hd'.
      unfold ApkIcon.admissible, ApkIcon.score in Hf.
      rewrite Hd' in Hf. exact (Hf eq_refl).
    + eapply Forall_impl; [exact Hall|]. intros f Hf d' Hd'.
      unfold ApkIcon.admissible, ApkIcon.score in Hf.
      rewrite Hd' in Hf. exact (Hf eq_refl).
Qed.

(** X17: an entry of an Apple archive is an icon candidate exactly when
    its name ends with [.png] and its lowered name contains [icon]; the
    three other patterns of the list add nothing. *)
Theorem icon_candidates (file_info : Icon.ZipInfo) :
  Icon.is_icon_file file_info
  = Py.endswith (Icon.filename file_info) ".png"
    && Py.contains "icon" (Py.lower (Icon.filename file_info)).
Proof.
  unfold Icon.is_icon_file. f_equal.
  set (l := Py.lower (Icon.filename file_info)).
  cbn [existsb Icon.icon_patterns].
  destruct (Py.contains "icon" l) eqn:Hi.
  - now rewrite orb_true_r.
  - assert (H : forall p, Py.contains "icon" p = true ->
                          Py.contains p l = false).
    { intros p Hp. destruct (Py.contains p l) eqn:Hc; [|reflexivity].
      rewrite (SubFacts.contains_trans _ _ _ Hp Hc) in Hi. discriminate. }
    rewrite (H "appicon"), (H "app_icon"), (H "applicationicon");
      reflexivity.
Qed.

(** ** The other bundles of the comprehensive analysis *)
Module AltPlistFacts.

Import AltPlist.

Lemma consider_settled (zip_ref : Extract.Archive) (main_info_file : string)
    (final_name : string) (confidence : Z) (info_file : string) :
  (2 <= confidence)%Z ->
  consider zip_ref main_info_file (final_name, confidence) info_file
  = (final_name, confidence).
Proof.
  intros Hc. unfold consider.
  destruct (negb _); [|reflexivity].
  destruct (Extract.load_plist zip_ref info_file); [|reflexivity].
  destruct (_ && _); [|reflexivity].
  now replace (confidence <? 2)%Z with false by (symmetry; apply Z.ltb_ge; lia).
Qed.

Lemma fold_settled (zip_ref : Extract.Archive) (main_info_file : string)
    (info_files : list string) (final_name : string) (confidence : Z) :
  (2 <= confidence)%Z ->
  fold_left (consider zip_ref main_info_file) info_files
            (final_name, confidence)
  = (final_name, confidence).
Proof.
  intros Hc. induction info_files as [|f rest IH]; [reflexivity|].
  cbn [fold_left]. rewrite consider_settled by exact Hc. exact IH.
Qed.

(** One iteration in terms of the name read from the bundle. *)
Lemma consider_alt_name (zip_ref : Extract.Archive) (main_info_file : string)
    (final_name : string) (confidence : Z) (info_file : string) :
  (confidence < 2)%Z ->
  consider zip_ref main_info_file (final_name, confidence) info_file
  = match alt_name_of zip_ref main_info_file info_file with
    | Some alt_name =>
        if Py.truthy alt_name
           && (String.length final_name <? String.length alt_name)
        then (alt_name, 2%Z) else (final_name, confidence)
    | None => (final_name, confidence)
    end.
Proof.
  intros Hc. unfold consider, alt_name_of.
  destruct (String.eqb info_file main_info_file); [reflexivity|]. simpl.
  destruct (Extract.load_plist zip_ref info_file); [|reflexivity].
  destruct (_ && _); [|reflexivity].
  now replace (confidence <? 2)%Z with true by (symmetry; apply Z.ltb_lt; lia).
Qed.

End AltPlistFacts.

(** X18: the pass over the other bundles changes nothing when the
    confidence is already 2 or more.  Below 2 it takes the name of the
    first bundle, among the first five entries, that is not the main one,
    can be read, and has a name longer than the current one, and sets the
    confidence to 2; when there is no such bundle it changes nothing. *)
Theorem alt_bundle_override (zip_ref : Extract.Archive)
    (main_info_file : string) (info_files : list string)
    (final_name : string) (confidence : Z) :
  AltPlist.check zip_ref main_info_file info_files (final_name, confidence)
  = if (confidence <? 2)%Z then
      match
        List.find
          (fun f =>
             match AltPlist.alt_name_of zip_ref main_info_file f with
             | Some alt_name =>
                 Py.truthy alt_name
                 && (String.length final_name <? String.length alt_name)
             | None => false
             end)
          (firstn 5 info_files)
      with
      | Some f =>
          (default EmptyString
             (AltPlist.alt_name_of zip_ref main_info_file f), 2%Z)
      | None => (final_name, confidence)
      end
    else (final_name, confidence).
Proof.
  unfold AltPlist.check.
  destruct (confidence <? 2)%Z eqn:Hc.
  - apply Z.ltb_lt in Hc.
    induction (firstn 5 info_files) as [|f rest IH]; [reflexivity|].
    cbn [fold_left find].
    rewrite AltPlistFacts.consider_alt_name by exact Hc.
    destruct (AltPlist.alt_name_of zip_ref main_info_file f) as [alt|]
      eqn:Halt; [|exact IH].
    destruct (Py.truthy alt && _); [|exact IH].
    rewrite Halt. cbn [default]. apply AltPlistFacts.fold_settled. lia.
  - apply Z.ltb_ge in Hc. now apply AltPlistFacts.fold_settled.
Qed.

(** ** Successive calls of the allocator with a global set *)
Module CallsFacts.

Import Renamer.

Lemma global_name (renamed_files : gset string)
    (base_name extension : string) :
  get_unique_filename_global renamed_files base_name extension
  = (get_unique_filename base_name extension renamed_files,
     {[get_unique_filename base_name extension renamed_files]}
     ∪ renamed_files).
Proof. reflexivity. Qed.

Lemma successive_names (requests : list (string * string))
    (renamed_files : gset string) :
  let out := Calls.successive renamed_files requests in
  NoDup out.1
  /\ Forall (fun n => n ∉ renamed_files) out.1
  /\ out.2 = list_to_set out.1 ∪ renamed_files
  /\ length out.1 = length requests.
Proof.
  revert renamed_files.
  induction requests as [|[b e] rest IH]; intros R.
  - simpl. split; [constructor|]. split; [constructor|].
    split; [set_solver|]. reflexivity.
  - cbn [Calls.successive]. rewrite global_name.
    pose proof (PhaseFacts.get_unique_filename_fresh b e R) as Hfresh.
    set (n := get_unique_filename b e R) in *.
    specialize (IH ({[n]} ∪ R)).
    destruct (Calls.successive ({[n]} ∪ R) rest) as [names final].
    simpl in *. destruct IH as (Hnd & Hall & Hfinal & Hlen).
    split; [|split; [|split]].
    + constructor; [|exact Hnd]. intros Hin.
      rewrite Forall_forall in Hall. apply (Hall n Hin). set_solver.
    + constructor; [exact Hfresh|].
      eapply Forall_impl; [exact Hall|]. simpl. set_solver.
    + rewrite Hfinal. set_solver.
    + now rewrite Hlen.
Qed.

End CallsFacts.

(** X19: successive calls of the allocator that keeps a global set, made
    in one process, return names that differ from one another and from
    every name the set held before, whatever is requested; all of them are
    in the set afterwards. *)
Theorem successive_calls_distinct (renamed_files : gset string)
    (requests : list (string * string)) :
  let out := Calls.successive renamed_files requests in
  NoDup out.1
  /\ Forall (fun n => n ∉ renamed_files) out.1
  /\ out.2 = list_to_set out.1 ∪ renamed_files.
Proof.
  intros out.
  pose proof (CallsFacts.successive_names requests renamed_files)
    as (H1 & H2 & H3 & _).
  now split.
Qed.

(** X20: a name that the sanitizer leaves unchanged is used as it is: an
    accepted result with such a name and a version is renamed, when that
    name is free and the first call goes through, to the name, [ v], the
    version and the extension. *)
Theorem clean_name_passes_through (title : string -> string)
    (rename_allowed : nat -> bool) (st : Renamer.State)
    (r : Renamer.Result) :
  Renamer.eligible r = true ->
  Renamer.sanitize_filename (Renamer.name r) = Renamer.name r ->
  Py.truthy (Renamer.name r) = true ->
  Py.truthy (Py.strip (Renamer.version r)) = true ->
  let new_filename :=
    (Renamer.name r +:+ " v" +:+ Renamer.version r)
    +:+ Renamer.extension_of r in
  (new_filename ∉ Renamer.existing_files st) ->
  rename_allowed (Renamer.calls st) = true ->
  Renamer.file r ∈ Renamer.directory st ->
  (Renamer.rename_one title rename_allowed st r).1.2
  = Renamer.set_file r new_filename
  /\ (Renamer.rename_one title rename_allowed st r).2 = Some new_filename.
Proof.
  intros Hel Hfix Hname Hver new_filename Hfree Hallow Hdir.
  assert (Hstrip : Py.strip (Renamer.name r) = Renamer.name r).
  { destruct (SanitizeFacts.sanitize_shape (Renamer.name r)) as (_ & _ & H).
    now rewrite Hfix in H. }
  assert (Hv : Py.truthy (Renamer.version r) = true).
  { destruct (Renamer.version r); [discriminate Hver|reflexivity]. }
  assert (Hvn : Renamer.versioned_name title r
                = Renamer.name r +:+ " v" +:+ Renamer.version r).
  { unfold Renamer.versioned_name, Renamer.choose_app_name.
    rewrite Hv, Hver, Hname, Hstrip, Hname. cbn [negb orb andb].
    rewrite Hstrip, Hname. cbn [negb]. now rewrite Hfix. }
  pose proof (PhaseFacts.rename_one_free title rename_allowed st r) as H.
  cbv zeta in H. rewrite Hvn in H.
  destruct (H Hel Hfree Hallow Hdir) as (st' & -> & _).
  split; reflexivity.
Qed.

Lemma clean_name_passes_through_witness :
  let r := Renamer.mkResult "a.ipa" "Game" "1.4" "com.a.game" 100 3
             Renamer.valid in
  (Renamer.rename_one Py.title_ascii Samples.always
     MoreSamples.game_state r).1.2
  = Renamer.set_file r "Game v1.4.ipa".
Proof.
  intros r.
  refine (proj1 (clean_name_passes_through Py.title_ascii Samples.always
                   MoreSamples.game_state r _ _ _ _ _ _ _)).
  - reflexivity.
  - vm_compute. reflexivity.
  - reflexivity.
  - reflexivity.
  - compute_done.
  - reflexivity.
  - compute_done.
Defined.

(** ** Dimensions read from a name *)
Module DimFacts.

Import Icon.

Local Abbreviation digits := NilEmpty.string_of_uint.

Lemma isdigit_lower_char (c : ascii) :
  Py.isdigit (Py.lower_char c) = Py.isdigit c.
Proof. destruct c as [[] [] [] [] [] [] [] []]; reflexivity. Qed.

Lemma lower_app (s t : string) :
  Py.lower (s +:+ t) = Py.lower s +:+ Py.lower t.
Proof.
  induction s as [|a s IH]; [reflexivity|].
  rewrite StrFacts.app_cons. simpl. now rewrite IH, StrFacts.app_cons.
Qed.

Lemma lower_digits (d : Decimal.uint) : Py.lower (digits d) = digits d.
Proof. induction d as [|d IH|d IH|d IH|d IH|d IH|d IH|d IH|d IH|d IH|d IH];
         [reflexivity|..]; simpl; now rewrite IH. Qed.

Lemma all_nondigit_lower (s : string) :
  Shape.all_chars (fun c => negb (Py.isdigit c)) s = true ->
  Shape.all_chars (fun c => negb (Py.isdigit c)) (Py.lower s) = true.
Proof.
  induction s as [|a s IH]; simpl; [reflexivity|].
  intros [Ha Hs]%andb_true_iff. rewrite isdigit_lower_char, Ha. now apply IH.
Qed.

(** A string that does not start with a digit. *)
Lemma take_digits_stop (s : string) :
  (forall a r, s = String a r -> Py.isdigit a = false) ->
  take_digits s = (EmptyString, s).
Proof.
  destruct s as [|a s]; [reflexivity|]. intros H. simpl.
  now rewrite (H a s eq_refl).
Qed.

Lemma take_digits_cons (a : ascii) (s : string) :
  take_digits (String a s)
  = if Py.isdigit a
    then let '(d, r) := take_digits s in (String a d, r)
    else (EmptyString, String a s).
Proof. reflexivity. Qed.

Lemma take_digits_digits (d : Decimal.uint) (rest : string) :
  (forall a r, rest = String a r -> Py.isdigit a = false) ->
  take_digits (digits d +:+ rest) = (digits d, rest).
Proof.
  intros H.
  induction d as [|d IH|d IH|d IH|d IH|d IH|d IH|d IH|d IH|d IH|d IH];
    [now apply take_digits_stop|..];
    cbn [NilEmpty.string_of_uint]; rewrite StrFacts.app_cons, take_digits_cons;
    cbv beta iota; rewrite IH; reflexivity.
Qed.

Lemma int_of_digits_acc (d : Decimal.uint) (acc : nat) :
  fold_left (fun acc c => 10 * acc + Z.of_nat (nat_of_ascii c - 48))%Z
            (list_ascii_of_string (digits d)) (Z.of_nat acc)
  = Z.of_nat (Nat.of_uint_acc d acc).
Proof.
  revert acc.
  induction d as [|d IH|d IH|d IH|d IH|d IH|d IH|d IH|d IH|d IH|d IH];
    intros acc; [reflexivity|..];
    cbn [NilEmpty.string_of_uint list_ascii_of_string fold_left
         Nat.of_uint_acc];
    rewrite <- IH; f_equal; rewrite Nat.tail_mul_spec;
    match goal with
    | |- context [nat_of_ascii ?c] =>
        let v := eval vm_compute in (nat_of_ascii c - 48) in
        change (nat_of_ascii c - 48) with v
    end; lia.
Qed.

Lemma int_of_str (n : nat) : Py.int_of_digits (Py.str_of_nat n) = Z.of_nat n.
Proof.
  unfold Py.int_of_digits, Py.str_of_nat.
  etransitivity; [exact (int_of_digits_acc (Nat.to_uint n) 0)|].
  change (Nat.of_uint_acc (Nat.to_uint n) 0)
    with (Nat.of_uint (Nat.to_uint n)).
  now rewrite DecimalNat.Unsigned.of_to.
Qed.

Lemma truthy_str (n : nat) : Py.truthy (Py.str_of_nat n) = true.
Proof.
  unfold Py.str_of_nat.
  assert (H : Nat.to_uint n <> Decimal.Nil).
  { rewrite <- (DecimalNat.Unsigned.of_to n) at 1.
    rewrite DecimalNat.Unsigned.to_of. unfold Decimal.unorm.
    destruct (Decimal.nzhead _); discriminate. }
  destruct (Nat.to_uint n); [congruence|..]; reflexivity.
Qed.

Lemma re_search_cons (a : ascii) (s : string) :
  re_search (String a s)
  = match match_here (String a s) with
    | Some groups => Some groups
    | None => re_search s
    end.
Proof. reflexivity. Qed.

Lemma re_search_skip (p s : string) :
  Shape.all_chars (fun c => negb (Py.isdigit c)) p = true ->
  re_search (p +:+ s) = re_search s.
Proof.
  induction p as [|a p IH]; [reflexivity|]. simpl Shape.all_chars.
  intros [Ha Hp]%andb_true_iff. apply negb_true_iff in Ha.
  rewrite StrFacts.app_cons, re_search_cons.
  unfold match_here. rewrite take_digits_cons, Ha. cbn [Py.truthy].
  now apply IH.
Qed.

Lemma re_search_here (s : string) (groups : string * string) :
  match_here s = Some groups -> re_search s = Some groups.
Proof.
  intros H. destruct s as [|a s]; [discriminate H|].
  now rewrite re_search_cons, H.
Qed.

End DimFacts.

(** X21: a name made of a part without digits, a width, the letter x in
    either case, a height, and a rest that does not start with a digit,
    is read as that width and that height when neither number has more
    digits than the limit of [int]; when one has, the conversion raises. *)
Theorem dimensions_of_name (before rest : string) (sep : ascii)
    (width height : nat) (size : Z) :
  Shape.all_chars (fun c => negb (Py.isdigit c)) before = true ->
  (forall a r, rest = String a r -> Py.isdigit a = false) ->
  sep = "x"%char \/ sep = "X"%char ->
  IconParse.read_dimensions
    (Icon.mkZipInfo
       (before +:+ Py.str_of_nat width +:+ String sep EmptyString
        +:+ Py.str_of_nat height +:+ rest) size)
  = if (IconParse.int_max_str_digits
          <? String.length (Py.str_of_nat width))
       || (IconParse.int_max_str_digits
             <? String.length (Py.str_of_nat height))
    then None
    else Some (Some (Z.of_nat width, Z.of_nat height)).
Proof.
  intros Hbefore Hrest Hsep. unfold IconParse.read_dimensions.
  cbn [Icon.filename].
  rewrite !DimFacts.lower_app. unfold Py.str_of_nat at 1 2.
  rewrite !DimFacts.lower_digits.
  assert (Hx : Py.lower (String sep EmptyString) = "x")
    by (destruct Hsep as [->| ->]; reflexivity).
  rewrite Hx.
  rewrite DimFacts.re_search_skip by now apply DimFacts.all_nondigit_lower.
  assert (Hrest' : forall a r, Py.lower rest = String a r ->
                               Py.isdigit a = false).
  { intros a r Hl. destruct rest as [|b rest']; [discriminate|].
    simpl in Hl. injection Hl as <- _.
    rewrite DimFacts.isdigit_lower_char. now apply (Hrest b rest'). }
  rewrite (DimFacts.re_search_here _
             (Py.str_of_nat width, Py.str_of_nat height)).
  - unfold IconParse.int. rewrite !DimFacts.int_of_str.
    destruct (IconParse.int_max_str_digits
                <? String.length (Py.str_of_nat width)); [reflexivity|].
    now destruct (IconParse.int_max_str_digits
                    <? String.length (Py.str_of_nat height)).
  - unfold Icon.match_here.
    rewrite DimFacts.take_digits_digits
      by (intros a r [= <- _]; reflexivity).
    fold (Py.str_of_nat width). rewrite DimFacts.truthy_str.
    rewrite StrFacts.app_cons, StrFacts.app_empty_l.
    cbn [Ascii.eqb Bool.eqb].
    rewrite DimFacts.take_digits_digits by exact Hrest'.
    fold (Py.str_of_nat height). now rewrite DimFacts.truthy_str.
Qed.

Lemma dimensions_of_name_witness :
  IconParse.read_dimensions
    (Icon.mkZipInfo "Payload/Game.app/AppIcon60x60@2x.png" 1000)
  = Some (Some (60%Z, 60%Z)).
Proof.
  refine (dimensions_of_name "Payload/Game.app/AppIcon" "@2x.png" "x"%char
            60 60 1000 _ _ _).
  - reflexivity.
  - intros a r [= <- _]. reflexivity.
  - now left.
Defined.

(** ** Reserved characters in assigned names *)
Module ReservedFacts.

Local Abbreviation permitted :=
  (fun a => negb (existsb (Ascii.eqb a) Renamer.invalid_chars)).

Lemma permitted_digits (d : Decimal.uint) :
  Shape.all_chars permitted (NilEmpty.string_of_uint d) = true.
Proof.
  induction d as [|d IH|d IH|d IH|d IH|d IH|d IH|d IH|d IH|d IH|d IH];
    [reflexivity|..];
    cbn [NilEmpty.string_of_uint Shape.all_chars]; rewrite IH; reflexivity.
Qed.

Lemma permitted_sanitized (s : string) :
  Shape.all_chars permitted (Renamer.sanitize_filename s) = true.
Proof.
  destruct (SanitizeFacts.sanitize_shape s) as (Hkept & _).
  rewrite <- Hkept. symmetry. apply SanitizeMore.all_chars_ext.
  apply SanitizeMore.kept_iff.
Qed.

Lemma permitted_extension (r : Renamer.Result) :
  Shape.all_chars permitted (Renamer.extension_of r) = true.
Proof.
  unfold Renamer.extension_of.
  destruct (Py.endswith (Renamer.file r) ".apk"); reflexivity.
Qed.

Lemma permitted_versioned (title : string -> string) (r : Renamer.Result) :
  Shape.all_chars permitted (Renamer.version r) = true ->
  Shape.all_chars permitted (Renamer.versioned_name title r) = true.
Proof.
  intros Hv. unfold Renamer.versioned_name.
  destruct (Py.truthy (Renamer.version r) && _);
    rewrite !SanitizeFacts.all_chars_app, permitted_sanitized.
  - now rewrite Hv.
  - reflexivity.
Qed.

End ReservedFacts.

(** X22: the version is not sanitized; when it holds no reserved
    character, neither does the name assigned to the result, numbered or
    not. *)
Theorem assigned_name_has_no_reserved (title : string -> string)
    (r : Renamer.Result) (existing : gset string) :
  Forall (fun char =>
            Py.contains (String char EmptyString) (Renamer.version r) = false)
         Renamer.invalid_chars ->
  Forall (fun char =>
            Py.contains (String char EmptyString)
              (Renamer.get_unique_filename (Renamer.versioned_name title r)
                 (Renamer.extension_of r) existing) = false)
         Renamer.invalid_chars.
Proof.
  intros Hv. apply SanitizeMore.free_of_chars in Hv.
  apply SanitizeMore.free_of_chars.
  pose proof (ReservedFacts.permitted_versioned title r Hv) as Hname.
  pose proof (ReservedFacts.permitted_extension r) as Hext.
  pose proof (PhaseFacts.get_unique_filename_loop
                (Renamer.versioned_name title r) (Renamer.extension_of r)
                existing) as Hloop.
  apply RegistryFacts.unique_loop_some in Hloop
    as [_ [[_ ->]|[_ (n & _ & -> & _)]]].
  - now rewrite SanitizeFacts.all_chars_app, Hname, Hext.
  - unfold Renamer.numbered, Py.str_of_nat.
    rewrite !SanitizeFacts.all_chars_app, Hname, Hext,
      ReservedFacts.permitted_digits.
    reflexivity.
Qed.

Lemma assigned_name_has_no_reserved_witness :
  Forall (fun char =>
            Py.contains (String char EmptyString) "Game v1.4 (1).ipa" = false)
         Renamer.invalid_chars.
Proof.
  refine (assigned_name_has_no_reserved Py.title_ascii
            (Renamer.mkResult "a.ipa" "Game" "1.4" "com.a.game" 100 3
               Renamer.valid)
            {["Game v1.4.ipa"]} _).
  repeat constructor.
Defined.

